(** * FreshMart storefront back-end: carts, stock adjustment and orders

    A shallow embedding of the cart model ([cartModel.js]), of the stock
    route of the catalog ([productsRoutes.js], [PATCH /:id/stock]) and of the
    order routes (third document of [productModel.js]), followed by the
    properties of the order-fulfillment core.

    Conventions of the embedding.
    - A string is a string of UTF-16 code units below 256.
    - A MongoDB [ObjectId] is a number, its 96-bit value. An id that the
      code compares as text is the string the client has sent:
      [Oid.toString] is the text of an id, [Oid.cast] the reading of a
      string as an id by the database layer, [Oid.isMongoId] the validator.
      Where a handler does nothing with an id of [req.params] but hand it
      to the database, the id is taken as already cast.
    - A JavaScript [Number] holding a count (quantity, stock) is a [Z],
      which is exact for the integers up to [2 ^ 53]; one holding money or
      a rate is an exact rational [Q], so no rounding is modelled. A count
      of a request body is a [Js.Value], a JSON number or a JSON string:
      the [isInt] validators accept both and convert neither.
    - [new Date()] is the argument [now] of the operation that reads the
      clock, in milliseconds.
    - A collection is a finite map from [_id] to document.
    - A route handler is a function from the request and the store to the
      new store and the JSON response. *)

From Stdlib Require Import ZArith QArith Ascii String.
From stdpp Require Import gmap strings list fin_maps pretty.

Close Scope Q_scope.
Open Scope Z_scope.

Definition ObjectId := N.

(** ** Ids as text *)

Module Oid.

Definition hex_digit (d : N) : ascii :=
  match d with
  | 0 => "0" | 1 => "1" | 2 => "2" | 3 => "3" | 4 => "4" | 5 => "5"
  | 6 => "6" | 7 => "7" | 8 => "8" | 9 => "9" | 10 => "a" | 11 => "b"
  | 12 => "c" | 13 => "d" | 14 => "e" | _ => "f"
  end%N%char.

(** The last [n] hexadecimal digits of [v], put before [acc]. *)
Fixpoint hex_digits (n : nat) (v : N) (acc : string) : string :=
  match n with
  | O => acc
  | S n' => hex_digits n' (v / 16)%N (String (hex_digit (v mod 16)%N) acc)
  end.

(** The number of hexadecimal digits [v] is written with: 24 for the
    value of an id. A number from [2 ^ 96] on is the value of no id; it
    is written with the digits it takes, so that no two numbers have the
    same text. *)
Definition width (v : N) : nat := Nat.max 24 (N.to_nat (N.log2 v / 4 + 1)).

(** [ObjectId.prototype.toString()], and the getter [id] of a document:
    24 hexadecimal digits, the letters in lower case. *)
Definition toString (v : ObjectId) : string := hex_digits (width v) v "".

(** The value of a hexadecimal digit in either case. *)
Definition hex_value (a : ascii) : option N :=
  let n := N_of_ascii a in
  if ((48 <=? n) && (n <=? 57))%N then Some (n - 48)%N
  else if ((97 <=? n) && (n <=? 102))%N then Some (n - 87)%N
  else if ((65 <=? n) && (n <=? 70))%N then Some (n - 55)%N
  else None.

Fixpoint parse_hex (s : string) (acc : N) : option N :=
  match s with
  | EmptyString => Some acc
  | String a rest =>
      match hex_value a with
      | Some d => parse_hex rest (acc * 16 + d)%N
      | None => None
      end
  end.

(** [[0-9A-F]+] with the flag [i]. *)
Definition hex_text (s : string) : bool :=
  match s with
  | EmptyString => false
  | _ => bool_decide (is_Some (parse_hex s 0))
  end.

(** [isHexadecimal] of validator.js, in the version 13 that
    express-validator builds on: [/^(0x|0h)?[0-9A-F]+$/i]. *)
Definition isHexadecimal (s : string) : bool :=
  hex_text s
  || match s with
     | String a (String b rest) =>
         Ascii.eqb a "0"
         && (Ascii.eqb b "x" || Ascii.eqb b "X" || Ascii.eqb b "h" || Ascii.eqb b "H")
         && hex_text rest
     | _ => false
     end.

(** [isMongoId] of validator.js:
    [isHexadecimal(str) && str.length === 24]. *)
Definition isMongoId (s : string) : bool :=
  isHexadecimal s && (String.length s =? 24)%nat.

(** The cast of a string to an [ObjectId] by Mongoose: a string of 24
    hexadecimal digits, in either case, is the id of that value; for any
    other string the cast fails with a [CastError] ([None]). Strings of
    12 characters, which older versions of the driver read as 12 bytes,
    are not read as ids here. *)
Definition cast (s : string) : option ObjectId :=
  if (String.length s =? 24)%nat then parse_hex s 0 else None.

End Oid.

(** ** The integers of a request body *)

Module Js.

(** A value that stands for a count: a number ([NaN] apart, an integer)
    or a string. *)
Inductive Value :=
| Num (z : Z)
| Str (s : string)
| NaN.

Definition is_digit (a : ascii) : bool :=
  let n := N_of_ascii a in ((48 <=? n) && (n <=? 57))%N.

Fixpoint digits_value (s : string) (acc : Z) : option Z :=
  match s with
  | EmptyString => Some acc
  | String a rest =>
      if is_digit a then digits_value rest (acc * 10 + Z.of_N (N_of_ascii a - 48))
      else None
  end.

(** [[0-9]+] read in base ten. *)
Definition numeral (s : string) : option Z :=
  match s with
  | EmptyString => None
  | _ => digits_value s 0
  end.

(** [Number(s)], the conversion [+], [-], [*], [<] and [<=] apply to a
    string operand, for the empty string and for the strings made of an
    optional sign and decimal digits; [None] is [NaN]. These are the
    strings an [isInt] validator accepts and the strings this model
    builds from them; for every other string the model answers [NaN],
    also where JavaScript reads a number (blanks around the digits, a
    fraction, an exponent, a prefix [0x]). *)
Definition Number (s : string) : option Z :=
  match s with
  | EmptyString => Some 0
  | String a rest =>
      if Ascii.eqb a "+" then numeral rest
      else if Ascii.eqb a "-" then Z.opp <$> numeral rest
      else numeral s
  end.

Definition toNumber (v : Value) : option Z :=
  match v with
  | Num z => Some z
  | Str s => Number s
  | NaN => None
  end.

(** [String(v)], as [+] and a template literal apply it; the integers
    are those JavaScript writes without exponent. *)
Definition toString (v : Value) : string :=
  match v with
  | Num z => pretty z
  | Str s => s
  | NaN => "NaN"
  end.

Definition of_number (r : option Z) : Value :=
  match r with
  | Some z => Num z
  | None => NaN
  end.

(** [a + b]: the sum of two numbers, and the concatenation of the two
    texts when either operand is a string. *)
Definition add (a b : Value) : Value :=
  match a, b with
  | Num x, Num y => Num (x + y)
  | Str _, _ | _, Str _ => Str (toString a +:+ toString b)
  | _, _ => NaN
  end.

(** [a - b]: both operands are converted to numbers. *)
Definition sub (a b : Value) : Value :=
  of_number (x ← toNumber a; y ← toNumber b; Some (x - y)).

(** [Math.max(a, b)] *)
Definition max (a b : Value) : Value :=
  of_number (x ← toNumber a; y ← toNumber b; Some (Z.max x y)).

(** [a < b] and [a <= b] with a number on one side: the other operand is
    converted to a number, and a comparison with [NaN] is false. *)
Definition lt (a b : Value) : bool :=
  match toNumber a, toNumber b with
  | Some x, Some y => x <? y
  | _, _ => false
  end.

Definition le (a b : Value) : bool :=
  match toNumber a, toNumber b with
  | Some x, Some y => x <=? y
  | _, _ => false
  end.

(** The default regular expression of [isInt]: [/^[-+]?[0-9]+$/]. *)
Definition int_text (s : string) : bool :=
  match s with
  | EmptyString => false
  | String a rest =>
      if Ascii.eqb a "+" || Ascii.eqb a "-" then bool_decide (is_Some (numeral rest))
      else bool_decide (is_Some (numeral s))
  end.

(** [isInt({ min })] of express-validator. The validator tests the text
    of the value and compares it with [min] as a number; it leaves the
    value in the request as it came, a number or a string. The text of
    an integer is a sign and digits as long as the integer is below
    [10 ^ 21], from where on JavaScript writes an exponent. *)
Definition isInt (min : Z) (v : Value) : bool :=
  match v with
  | Num z => (Z.abs z <? 10 ^ 21) && (min <=? z)
  | Str s =>
      int_text s
      && match Number s with
         | Some n => min <=? n
         | None => false
         end
  | NaN => false
  end.

(** The cast of a value to a path of type [Number] by Mongoose: a string
    is converted with [Number], the empty string gives [null] and [NaN]
    a [CastError]; both are [None] here, the paths being required. *)
Definition castNumber (v : Value) : option Z :=
  match v with
  | Str EmptyString => None
  | _ => toNumber v
  end.

End Js.

(** ** cartModel.js *)

Module CartModel.

(** [cartItemSchema] *)
Record CartItem := mkCartItem {
  product : ObjectId;
  quantity : Z;
  price : Q;
  total : Q
}.

(** [cartSchema] *)
Record Cart := mkCart {
  user : ObjectId;
  items : list CartItem;
  subtotal : Q;
  totalItems : Z;
  lastUpdated : Z
}.

(** What a cart method can end with: the saved cart, or an error thrown
    by the method or by [save()]. *)
Inductive CartError := ValidationError | ItemNotFound.

Inductive result (A : Type) :=
| Ok (a : A)
| Err (e : CartError).
Arguments Ok {A} a.
Arguments Err {A} e.

(** [cartItemSchema.pre('save')]: [this.total = this.price * this.quantity] *)
Definition cartItem_pre_save (i : CartItem) : CartItem :=
  {| product := product i;
     quantity := quantity i;
     price := price i;
     total := (price i * inject_Z (quantity i))%Q |}.

(** [cartSchema.pre('save')] *)
Definition cart_pre_save (now : Z) (c : Cart) : Cart :=
  {| user := user c;
     items := items c;
     subtotal := fold_left (fun sum item => (sum + total item)%Q) (items c) (0%Q);
     totalItems := fold_left (fun sum item => sum + quantity item) (items c) 0;
     lastUpdated := now |}.

(** The validators of [cartItemSchema]: [quantity] has [min: 1], [price]
    and [total] have [min: 0]. All three paths are [required], so Mongoose
    validates them for every item at every save. *)
Definition item_valid (i : CartItem) : bool :=
  (1 <=? quantity i) && Qle_bool 0 (price i) && Qle_bool 0 (total i).

Definition validate (c : Cart) : bool := forallb item_valid (items c).

(** [this.save()]: validation, then the [pre('save')] hook of every item,
    then the [pre('save')] hook of the cart (Mongoose runs the hooks of the
    subdocuments before those of their parent), then the write. *)
Definition save (now : Z) (c : Cart) : result Cart :=
  if validate c then
    Ok (cart_pre_save now
          {| user := user c;
             items := map cartItem_pre_save (items c);
             subtotal := subtotal c;
             totalItems := totalItems c;
             lastUpdated := lastUpdated c |})
  else Err ValidationError.

Definition set_items (c : Cart) (l : list CartItem) : Cart :=
  {| user := user c;
     items := l;
     subtotal := subtotal c;
     totalItems := totalItems c;
     lastUpdated := lastUpdated c |}.

(** [this.items.findIndex(item => item.product.toString() === productId.toString())]:
    the text of the id of the line is compared with the argument, which is
    the string of the request; [None] stands for [-1]. *)
Definition findIndex (productId : string) (l : list CartItem) : option nat :=
  fst <$> list_find (fun item => Oid.toString (product item) = productId) l.

(** The two assignments of [addItem] to an existing line:
    [quantity += quantity], where [+] concatenates when the argument is a
    string and the setter of the path casts the result to a number, and
    [total = quantity * price], with the price the caller passes. When
    the cast fails ([None]) the path is marked invalid. *)
Definition add_quantity (qty : Js.Value) (unitPrice : Q) (item : CartItem)
    : option CartItem :=
  n ← Js.castNumber (Js.add (Js.Num (quantity item)) qty);
  Some {| product := product item;
          quantity := n;
          price := price item;
          total := (inject_Z n * unitPrice)%Q |}.

(** The two assignments of [updateItem]: [quantity = quantity] and
    [total = quantity * price], with the price of the line. *)
Definition set_quantity (qty : Z) (item : CartItem) : CartItem :=
  {| product := product item;
     quantity := qty;
     price := price item;
     total := (inject_Z qty * price item)%Q |}.

(** [cartSchema.methods.addItem]. A value that cannot be cast to the type
    of its path makes [save()] reject with a validation error. In the
    line that is pushed, [quantity * price] multiplies the number the
    cast of [quantity] gives. *)
Definition addItem (now : Z) (productId : string) (qty : Js.Value) (unitPrice : Q)
    (c : Cart) : result Cart :=
  match findIndex productId (items c) with
  | Some existingItemIndex =>
      match items c !! existingItemIndex ≫= add_quantity qty unitPrice with
      | Some item => save now (set_items c (<[existingItemIndex := item]> (items c)))
      | None => Err ValidationError
      end
  | None =>
      match Oid.cast productId, Js.castNumber qty with
      | Some _id, Some n =>
          save now (set_items c
            (items c ++ [ {| product := _id;
                             quantity := n;
                             price := unitPrice;
                             total := (inject_Z n * unitPrice)%Q |} ]))
      | _, _ => Err ValidationError
      end
  end.

(** [cartSchema.methods.updateItem] *)
Definition updateItem (now : Z) (productId : string) (qty : Js.Value) (c : Cart)
    : result Cart :=
  match findIndex productId (items c) with
  | Some itemIndex =>
      if Js.le qty (Js.Num 0) then
        save now (set_items c (delete itemIndex (items c)))
      else
        match Js.castNumber qty with
        | Some n => save now (set_items c (alter (set_quantity n) itemIndex (items c)))
        | None => Err ValidationError
        end
  | None => Err ItemNotFound
  end.

(** [cartSchema.methods.removeItem] *)
Definition removeItem (now : Z) (productId : string) (c : Cart) : result Cart :=
  save now
    (set_items c
       (filter (fun item => Oid.toString (product item) <> productId) (items c))).

(** [cartSchema.methods.clearCart] *)
Definition clearCart (now : Z) (c : Cart) : result Cart :=
  save now (set_items c []).

(** The four mutating methods, as one request type. *)
Inductive Mutation :=
| AddItem (productId : string) (qty : Js.Value) (unitPrice : Q)
| UpdateItem (productId : string) (qty : Js.Value)
| RemoveItem (productId : string)
| ClearCart.

Definition mutate (now : Z) (m : Mutation) (c : Cart) : result Cart :=
  match m with
  | AddItem productId qty unitPrice => addItem now productId qty unitPrice c
  | UpdateItem productId qty => updateItem now productId qty c
  | RemoveItem productId => removeItem now productId c
  | ClearCart => clearCart now c
  end.

End CartModel.

(** ** JSON responses *)

Module Http.

(** [res.status(code).json({ success, message, error, data })]; a field
    the handler leaves out is [None]. The list [errors] that comes with
    the message of a failed validation is not modelled. *)
Record Response (D : Type) := mkResponse {
  status : Z;
  success : bool;
  message : option string;
  error : option string;
  data : option D
}.
Arguments mkResponse {D} _ _ _ _ _.
Arguments status {D} _.
Arguments success {D} _.
Arguments message {D} _.
Arguments error {D} _.
Arguments data {D} _.

Definition failure {D : Type} (code : Z) (msg : string) : Response D :=
  mkResponse code false (Some msg) None None.

(** The [catch] branch of every handler; [e] stands for [error.message],
    whose wording is that of the database layer. *)
Definition server_error {D : Type} (e : string) : Response D :=
  mkResponse 500 false (Some "Server error") (Some e) None.

End Http.

(** ** The product documents (first document of productModel.js) *)

Module ProductModel.

(** [productSchema], restricted to the paths the routes below read or
    write. *)
Record Product := mkProduct {
  name : string;
  price : Q;
  stock : Z;
  isActive : bool
}.

Definition set_stock (p : Product) (n : Z) : Product :=
  {| name := name p; price := price p; stock := n; isActive := isActive p |}.

(** [Product.findByIdAndUpdate(id, { $inc: { stock: delta } })]: nothing
    happens when no product has this id; no validator runs. *)
Definition inc_stock (id : ObjectId) (delta : Z)
    (products : gmap ObjectId Product) : gmap ObjectId Product :=
  alter (fun p => set_stock p (stock p + delta)) id products.

End ProductModel.

(** ** productsRoutes.js: [PATCH /:id/stock] *)

Module ProductsRoutes.
Import Http ProductModel.

Inductive Operation := OpSet | OpAdd | OpSubtract.

(** [req.body]: [stock], a number or a string, and [operation] when it
    is given. *)
Record StockRequest := mkStockRequest {
  req_stock : Js.Value;
  req_operation : option Operation
}.

(** [newStock] is the value the handler has computed, before the database
    casts it. *)
Record StockData := mkStockData {
  product : Product;
  previousStock : Z;
  newStock : Js.Value;
  operation : Operation
}.

Definition updateStock (id : ObjectId) (req : StockRequest)
    (products : gmap ObjectId Product)
    : gmap ObjectId Product * Response StockData :=
  (* body('stock').isInt({ min: 0 }) *)
  if negb (Js.isInt 0 (req_stock req)) then (products, failure 400 "Validation error")
  else
  let stock := req_stock req in
  let operation := default OpSet (req_operation req) in
  match products !! id with
  | None => (products, failure 404 "Product not found")
  | Some product =>
      let newStock :=
        match operation with
        | OpAdd => Js.add (Js.Num (ProductModel.stock product)) stock
        | OpSubtract =>
            Js.max (Js.Num 0) (Js.sub (Js.Num (ProductModel.stock product)) stock)
        | OpSet => stock
        end in
      (* findByIdAndUpdate casts [newStock] to the type of the path *)
      match Js.castNumber newStock with
      | None => (products, server_error "Cast to Number failed for path stock")
      | Some n =>
          let updatedProduct := set_stock product n in
          (<[id := updatedProduct]> products,
           mkResponse 200 true (Some "Product stock updated successfully") None
             (Some {| product := updatedProduct;
                      previousStock := ProductModel.stock product;
                      newStock := newStock;
                      operation := operation |}))
      end
  end.

End ProductsRoutes.

(** ** The order documents *)

Module OrderModel.

(** The values the validators of [PATCH /:id/status] and
    [PATCH /:id/payment] accept. *)
Inductive OrderStatus :=
| pending | confirmed | processing | shipped | delivered | cancelled.

Inductive PaymentStatus :=
| payment_pending | paid | failed | refunded.

#[global] Instance OrderStatus_eq_dec : EqDecision OrderStatus.
Proof. solve_decision. Defined.

#[global] Instance PaymentStatus_eq_dec : EqDecision PaymentStatus.
Proof. solve_decision. Defined.

Record Address := mkAddress {
  firstName : string;
  lastName : string;
  street : string;
  city : string;
  state : string;
  zipCode : string;
  country : string;
  phone : string
}.

(** An element of [order.items], as [POST /] builds it. *)
Record OrderItem := mkOrderItem {
  product : ObjectId;
  quantity : Z;
  price : Q;
  total : Q
}.

(** Modelled from the spec: the order schema ([orderModel.js] is not among
    the sources). The paths are those the routes write and the data model
    of the specification lists; a new order has status [pending] and
    payment status [pending], and its optional paths are absent. The
    [_id] of a document is its key in the collection. *)
Record Order := mkOrder {
  customer : ObjectId;
  items : list OrderItem;
  shippingAddress : Address;
  billingAddress : Address;
  subtotal : Q;
  taxAmount : Q;
  shippingCost : Q;
  totalAmount : Q;
  status : OrderStatus;
  paymentStatus : PaymentStatus;
  trackingNumber : option string;
  estimatedDelivery : option Z;
  cancelledAt : option Z;
  cancelReason : option string;
  deliveredAt : option Z;
  notes : option string;
  createdAt : Z
}.

(** The paths [Order.findByIdAndUpdate] is asked to set in the routes. *)
Record UpdateData := mkUpdateData {
  u_status : option OrderStatus;
  u_paymentStatus : option PaymentStatus;
  u_trackingNumber : option string;
  u_estimatedDelivery : option Z;
  u_cancelledAt : option Z;
  u_cancelReason : option string;
  u_deliveredAt : option Z
}.

Definition or_else {A : Type} (new old : option A) : option A :=
  match new with
  | Some x => Some x
  | None => old
  end.

(** The document after the update: a path the update names is replaced,
    the others are kept. *)
Definition apply_update (u : UpdateData) (o : Order) : Order :=
  {| customer := customer o;
     items := items o;
     shippingAddress := shippingAddress o;
     billingAddress := billingAddress o;
     subtotal := subtotal o;
     taxAmount := taxAmount o;
     shippingCost := shippingCost o;
     totalAmount := totalAmount o;
     status := default (status o) (u_status u);
     paymentStatus := default (paymentStatus o) (u_paymentStatus u);
     trackingNumber := or_else (u_trackingNumber u) (trackingNumber o);
     estimatedDelivery := or_else (u_estimatedDelivery u) (estimatedDelivery o);
     cancelledAt := or_else (u_cancelledAt u) (cancelledAt o);
     cancelReason := or_else (u_cancelReason u) (cancelReason o);
     deliveredAt := or_else (u_deliveredAt u) (deliveredAt o);
     notes := notes o;
     createdAt := createdAt o |}.

End OrderModel.

(** ** The order routes (third document of productModel.js) *)

Module OrdersRoutes.
Import Http OrderModel.

(** Modelled from the spec: [req.user], the identity the [protect]
    middleware of the absent [authController.js] supplies, a user id and
    a role that is [user] or [admin]. *)
Inductive Role := user_role | admin.

Record AuthUser := mkAuthUser {
  id : ObjectId;
  role : Role
}.

(** [req.user.role !== 'admin'] is [negb (is_admin req.user)]. *)
Definition is_admin (u : AuthUser) : bool :=
  match role u with
  | admin => true
  | user_role => false
  end.

(** The collections the routes touch, and the number of [/from-cart]
    handlers on the router: the source registers one with
    [router.post('/from-cart', ...)] inside the handler of [POST /], right
    after [Order.create]. *)
Record Store := mkStore {
  products : gmap ObjectId ProductModel.Product;
  orders : gmap ObjectId Order;
  fromCartRoutes : nat
}.

(** *** Queries on the order collection *)

(** The conditions of a query other than the one on [_id]; an absent
    condition is [None]. *)
Record Query := mkQuery {
  q_customer : option ObjectId;
  q_status : option OrderStatus;
  q_paymentStatus : option PaymentStatus;
  q_createdAt_gte : option Z;
  q_createdAt_lte : option Z
}.

Definition holds {A : Type} (cond : option A) (test : A -> bool) : bool :=
  match cond with
  | Some x => test x
  | None => true
  end.

Definition matches (q : Query) (o : Order) : bool :=
  holds (q_customer q) (fun c => bool_decide (customer o = c))
  && holds (q_status q) (fun st => bool_decide (status o = st))
  && holds (q_paymentStatus q) (fun ps => bool_decide (paymentStatus o = ps))
  && holds (q_createdAt_gte q) (fun d => d <=? createdAt o)
  && holds (q_createdAt_lte q) (fun d => createdAt o <=? d).

(** [Order.findOne({ _id: id, ...q })] *)
Definition findOne (order_id : ObjectId) (q : Query) (os : gmap ObjectId Order)
    : option Order :=
  match os !! order_id with
  | Some o => if matches q o then Some o else None
  | None => None
  end.

(** [Order.find(q)], each document with its [_id]. *)
Definition find (q : Query) (os : gmap ObjectId Order) : list (ObjectId * Order) :=
  List.filter (fun d => matches q d.2) (map_to_list os).

(** [.sort({ [sortBy]: 1 | -1 })]. The key of a document is the value of
    the path named by [sortBy]; a document without that path has the key
    [None], which comes before every value. Paths holding strings or
    subdocuments are not compared by this model: every document has the
    key [None] for them and the sort, which is stable, keeps the order of
    the collection. *)
Definition sort_key (sortBy : string) (d : ObjectId * Order) : option Q :=
  if String.eqb sortBy "createdAt" then Some (inject_Z (createdAt d.2))
  else if String.eqb sortBy "_id" then Some (inject_Z (Z.of_N d.1))
  else if String.eqb sortBy "customer" then Some (inject_Z (Z.of_N (customer d.2)))
  else if String.eqb sortBy "subtotal" then Some (subtotal d.2)
  else if String.eqb sortBy "taxAmount" then Some (taxAmount d.2)
  else if String.eqb sortBy "shippingCost" then Some (shippingCost d.2)
  else if String.eqb sortBy "totalAmount" then Some (totalAmount d.2)
  else if String.eqb sortBy "estimatedDelivery" then inject_Z <$> estimatedDelivery d.2
  else if String.eqb sortBy "cancelledAt" then inject_Z <$> cancelledAt d.2
  else if String.eqb sortBy "deliveredAt" then inject_Z <$> deliveredAt d.2
  else None.

Definition key_leb (a b : option Q) : bool :=
  match a, b with
  | None, _ => true
  | Some _, None => false
  | Some x, Some y => Qle_bool x y
  end.

Fixpoint insert_sorted {A : Type} (leb : A -> A -> bool) (x : A) (l : list A) : list A :=
  match l with
  | [] => [x]
  | y :: l' => if leb x y then x :: y :: l' else y :: insert_sorted leb x l'
  end.

Definition sort {A : Type} (leb : A -> A -> bool) (l : list A) : list A :=
  foldr (insert_sorted leb) [] l.

Definition sort_docs (sortBy : string) (ascending : bool)
    (l : list (ObjectId * Order)) : list (ObjectId * Order) :=
  if ascending
  then sort (fun x y => key_leb (sort_key sortBy x) (sort_key sortBy y)) l
  else sort (fun x y => key_leb (sort_key sortBy y) (sort_key sortBy x)) l.

(** [.limit(n)]: [0] is no limit, a negative limit counts as its absolute
    value. *)
Definition apply_limit {A : Type} (n : Z) (l : list A) : list A :=
  if n =? 0 then l else take (Z.to_nat (Z.abs n)) l.

(** *** Responses *)

Record Pagination := mkPagination {
  currentPage : Z;
  totalPages : option Z;
  totalItems : Z;
  itemsPerPage : Z
}.

(** The [data] of a response: one order, or a page of orders. The populated
    paths ([customer], [items.product]) are presentation and are left as
    the ids they are populated from. *)
Inductive Data :=
| OrderData (order_id : ObjectId) (order : Order)
| OrdersData (found : list (ObjectId * Order)) (pagination : Pagination).

(** *** [GET /] *)

Record ListRequest := mkListRequest {
  l_page : option Z;
  l_limit : option Z;
  l_status : option OrderStatus;
  l_paymentStatus : option PaymentStatus;
  l_startDate : option Z;
  l_endDate : option Z;
  l_sortBy : option string;
  l_sortOrder : option string
}.

Definition listOrders (user : AuthUser) (req : ListRequest) (s : Store)
    : Response Data :=
  let page := default 1 (l_page req) in
  let limit := default 10 (l_limit req) in
  let sortBy := default "createdAt" (l_sortBy req) in
  let sortOrder := default "desc" (l_sortOrder req) in
  let query :=
    {| q_customer := if is_admin user then None else Some (id user);
       q_status := l_status req;
       q_paymentStatus := l_paymentStatus req;
       q_createdAt_gte := l_startDate req;
       q_createdAt_lte := l_endDate req |} in
  let skip := (page - 1) * limit in
  (* a negative skip is refused by the database *)
  if skip <? 0 then server_error "Skip value must be non-negative" else
  let found :=
    apply_limit limit
      (drop (Z.to_nat skip)
         (sort_docs sortBy (String.eqb sortOrder "asc") (find query (orders s)))) in
  let total := Z.of_nat (length (find query (orders s))) in
  mkResponse 200 true None None
    (Some (OrdersData found
             {| currentPage := page;
                totalPages := if limit =? 0 then None else Some (- ((- total) / limit));
                totalItems := total;
                itemsPerPage := limit |})).

(** *** [GET /:id] *)

Definition getOrder (user : AuthUser) (order_id : ObjectId) (s : Store)
    : Response Data :=
  let query :=
    {| q_customer := if is_admin user then None else Some (id user);
       q_status := None;
       q_paymentStatus := None;
       q_createdAt_gte := None;
       q_createdAt_lte := None |} in
  match findOne order_id query (orders s) with
  | None => failure 404 "Order not found"
  | Some order => mkResponse 200 true None None (Some (OrderData order_id order))
  end.

(** *** [POST /] *)

(** An element of [req.body.items]: the id of the product as the client
    has written it, and the quantity, a number or a string. *)
Record ItemRequest := mkItemRequest {
  i_product : string;
  i_quantity : Js.Value
}.

(** [req.body]; [None] is a path the request leaves out. No validator
    looks at [taxRate] and [shippingCost]; they are taken to be JSON
    numbers when they are given. *)
Record CreateRequest := mkCreateRequest {
  c_items : list ItemRequest;
  c_shippingAddress : Address;
  c_billingAddress : option Address;
  c_notes : option string;
  c_taxRate : option Q;
  c_shippingCost : option Q
}.

(** The class [\s] of a regular expression, which [trim()] removes at
    both ends: tab, line feed, vertical tab, form feed, carriage return,
    space and no-break space are its characters below 256. *)
Definition is_space (a : ascii) : bool :=
  let n := N_of_ascii a in
  ((9 <=? n)%N && (n <=? 13)%N) || (n =? 32)%N || (n =? 160)%N.

Fixpoint ltrim (s : string) : string :=
  match s with
  | EmptyString => EmptyString
  | String a rest => if is_space a then ltrim rest else s
  end.

Fixpoint rtrim (s : string) : string :=
  match s with
  | EmptyString => EmptyString
  | String a rest =>
      match rtrim rest with
      | EmptyString => if is_space a then EmptyString else String a EmptyString
      | kept => String a kept
      end
  end.

(** The sanitizer [trim()]: it replaces the value in the request. *)
Definition trim (s : string) : string := rtrim (ltrim s).

(** [notEmpty()], on the trimmed value. *)
Definition notEmpty (s : string) : bool := negb (String.eqb s "").

(** [req.body.shippingAddress] after the sanitizers of the route. *)
Definition trim_address (a : Address) : Address :=
  {| firstName := trim (firstName a);
     lastName := trim (lastName a);
     street := trim (street a);
     city := trim (city a);
     state := trim (state a);
     zipCode := trim (zipCode a);
     country := trim (country a);
     phone := trim (phone a) |}.

Definition address_ok (a : Address) : bool :=
  notEmpty (firstName a) && notEmpty (lastName a) && notEmpty (street a)
  && notEmpty (city a) && notEmpty (state a) && notEmpty (zipCode a)
  && notEmpty (country a) && notEmpty (phone a).

(** The validators of the route: [errors.isEmpty()]. *)
Definition valid_request (req : CreateRequest) : bool :=
  (1 <=? length (c_items req))%nat
  && forallb (fun item => Oid.isMongoId (i_product item)) (c_items req)
  && forallb (fun item => Js.isInt 1 (i_quantity item)) (c_items req)
  && address_ok (trim_address (c_shippingAddress req)).

(** The message of the stock check; [${item.quantity}] is the text of
    the quantity as the request has it. *)
Definition insufficient_stock (product : ProductModel.Product) (requested : Js.Value)
    : string :=
  "Insufficient stock for " +:+ ProductModel.name product
  +:+ ". Available: " +:+ pretty (ProductModel.stock product)
  +:+ ", Requested: " +:+ Js.toString requested.

(** [Product.find({ _id: { $in: productIds }, isActive: true })], the ids
    already cast. *)
Definition find_active (productIds : list ObjectId)
    (ps : gmap ObjectId ProductModel.Product) : gmap ObjectId ProductModel.Product :=
  filter (fun d => d.1 ∈ productIds /\ ProductModel.isActive d.2 = true) ps.

(** [new Map(products.map(p => [p._id.toString(), p]))]: the products
    that were found, each with its [_id], under the text of that id. *)
Definition productMap_of (found : gmap ObjectId ProductModel.Product)
    : gmap string (ObjectId * ProductModel.Product) :=
  kmap Oid.toString (map_imap (fun _id p => Some (_id, p)) found).

(** The loop [for (const item of items)] that checks the stock and builds
    [orderItems] and [subtotal]; a [return res.status(400)] inside it is
    [inl]. [productMap.get(item.product.toString())] looks the string of
    the request up. The comparison and the product convert the quantity
    to a number; the validators have seen to it that it is one, and the
    branch for [NaN], with which [Order.create] would fail, is there for
    the function to be total. *)
Fixpoint process_items (productMap : gmap string (ObjectId * ProductModel.Product))
    (items : list ItemRequest) (orderItems : list OrderItem) (subtotal : Q)
    : Response Data + list OrderItem * Q :=
  match items with
  | [] => inr (orderItems, subtotal)
  | item :: rest =>
      match productMap !! i_product item with
      | None => inl (failure 400 ("Product not found: " +:+ i_product item))
      | Some (_id, product) =>
          match Js.toNumber (i_quantity item) with
          | None => inl (server_error "Order validation failed")
          | Some n =>
              if Js.lt (Js.Num (ProductModel.stock product)) (i_quantity item) then
                inl (failure 400 (insufficient_stock product (i_quantity item)))
              else
                let itemTotal := (ProductModel.price product * inject_Z n)%Q in
                process_items productMap rest
                  (orderItems ++ [ {| product := _id;
                                      quantity := n;
                                      price := ProductModel.price product;
                                      total := itemTotal |} ])
                  (subtotal + itemTotal)%Q
          end
      end
  end.

(** The loop [for (const item of items)] that updates the stock:
    [Product.findByIdAndUpdate(item.product, { $inc: { stock:
    -item.quantity } })], which casts the id. Every item that reaches
    this loop has an id that can be cast and a quantity that is a
    number. *)
Definition reserve_stock (items : list ItemRequest)
    (ps : gmap ObjectId ProductModel.Product) : gmap ObjectId ProductModel.Product :=
  fold_left
    (fun acc item =>
       match Oid.cast (i_product item), Js.toNumber (i_quantity item) with
       | Some _id, Some n => ProductModel.inc_stock _id (- n) acc
       | _, _ => acc
       end)
    items ps.

(** [Order.create] writes the document under the [_id] the driver has
    generated, here [new_id]; the write fails when that [_id] is taken.
    The query [Product.find] casts the ids of the request and throws when
    one of them cannot be cast. *)
Definition createOrder (now : Z) (new_id : ObjectId) (user : AuthUser)
    (req : CreateRequest) (s : Store) : Store * Response Data :=
  if negb (valid_request req) then (s, failure 400 "Validation error") else
  let items := c_items req in
  let shippingAddress := trim_address (c_shippingAddress req) in
  let taxRate := default 0.08%Q (c_taxRate req) in
  let shippingCost := default 0%Q (c_shippingCost req) in
  let productIds := map i_product items in
  match mapM Oid.cast productIds with
  | None => (s, server_error "Cast to ObjectId failed for path _id")
  | Some ids =>
  let found := find_active ids (products s) in
  if negb (size found =? length productIds)%nat then
    (s, failure 400 "One or more products are not available")
  else
  let productMap := productMap_of found in
  match process_items productMap items [] 0%Q with
  | inl response => (s, response)
  | inr (orderItems, subtotal) =>
      let taxAmount := (subtotal * taxRate)%Q in
      let totalAmount := (subtotal + taxAmount + shippingCost)%Q in
      let order :=
        {| customer := id user;
           items := orderItems;
           shippingAddress := shippingAddress;
           billingAddress := default shippingAddress (c_billingAddress req);
           subtotal := subtotal;
           taxAmount := taxAmount;
           shippingCost := shippingCost;
           totalAmount := totalAmount;
           status := pending;
           paymentStatus := payment_pending;
           trackingNumber := None;
           estimatedDelivery := None;
           cancelledAt := None;
           cancelReason := None;
           deliveredAt := None;
           notes := c_notes req;
           createdAt := now |} in
      match orders s !! new_id with
      | Some _ => (s, server_error "E11000 duplicate key error")
      | None =>
          ({| products := reserve_stock items (products s);
              orders := <[new_id := order]> (orders s);
              fromCartRoutes := S (fromCartRoutes s) |},
           mkResponse 201 true (Some "Order created successfully") None
             (Some (OrderData new_id order)))
      end
  end
  end.

(** *** [PATCH /:id/status] and [PATCH /:id/cancel] *)

(** The loop [for (const item of order.items)] that restores the stock. *)
Definition restore_stock (items : list OrderItem)
    (ps : gmap ObjectId ProductModel.Product) : gmap ObjectId ProductModel.Product :=
  fold_left (fun acc item => ProductModel.inc_stock (product item) (quantity item) acc)
    items ps.

Record StatusRequest := mkStatusRequest {
  s_status : OrderStatus;
  s_trackingNumber : option string;
  s_cancelReason : option string
}.

(** A string is truthy when it is not empty. *)
Definition truthy (o : option string) : bool :=
  match o with
  | Some EmptyString => false
  | Some _ => true
  | None => false
  end.

Definition three_days : Z := 3 * 24 * 60 * 60 * 1000.

(** The handler behind [protect] and [admin]. *)
Definition updateOrderStatus (now : Z) (order_id : ObjectId)
    (req : StatusRequest) (s : Store) : Store * Response Data :=
  match orders s !! order_id with
  | None => (s, failure 404 "Order not found")
  | Some order =>
      let shipping := bool_decide (s_status req = shipped) && truthy (s_trackingNumber req) in
      let delivering := bool_decide (s_status req = delivered) in
      let cancelling := bool_decide (s_status req = cancelled) in
      let updateData :=
        {| u_status := Some (s_status req);
           u_trackingNumber := if shipping then s_trackingNumber req else None;
           u_estimatedDelivery := if shipping then Some (now + three_days) else None;
           u_deliveredAt := if delivering then Some now else None;
           u_paymentStatus := if delivering then Some paid else None;
           u_cancelledAt := if cancelling then Some now else None;
           u_cancelReason := if cancelling then s_cancelReason req else None |} in
      let ps :=
        if cancelling then restore_stock (items order) (products s) else products s in
      let updatedOrder := apply_update updateData order in
      ({| products := ps;
          orders := <[order_id := updatedOrder]> (orders s);
          fromCartRoutes := fromCartRoutes s |},
       mkResponse 200 true (Some "Order status updated successfully") None
         (Some (OrderData order_id updatedOrder)))
  end.

Definition cancelOrder (now : Z) (user : AuthUser) (order_id : ObjectId)
    (reason : option string) (s : Store) : Store * Response Data :=
  let query :=
    {| q_customer := if is_admin user then None else Some (id user);
       q_status := if is_admin user then None else Some pending;
       q_paymentStatus := None;
       q_createdAt_gte := None;
       q_createdAt_lte := None |} in
  match findOne order_id query (orders s) with
  | None => (s, failure 404 "Order not found or cannot be cancelled")
  | Some order =>
      if bool_decide (status order = cancelled) then
        (s, failure 400 "Order is already cancelled")
      else
        let ps := restore_stock (items order) (products s) in
        let updatedOrder :=
          apply_update
            {| u_status := Some cancelled;
               u_paymentStatus := None;
               u_trackingNumber := None;
               u_estimatedDelivery := None;
               u_cancelledAt := Some now;
               u_cancelReason := reason;
               u_deliveredAt := None |} order in
        ({| products := ps;
            orders := <[order_id := updatedOrder]> (orders s);
            fromCartRoutes := fromCartRoutes s |},
         mkResponse 200 true (Some "Order cancelled successfully") None
           (Some (OrderData order_id updatedOrder)))
  end.

End OrdersRoutes.


(** ** The hooks of the product schema (first document of productModel.js) *)

Module ProductHooks.

(** A character is a UTF-16 code unit below 256. Lower-casing moves the
    letters A-Z and the capital letters of Latin-1 by 32 and leaves every
    other such character as it is. *)
Definition toLowerCase_char (a : ascii) : ascii :=
  let n := N_of_ascii a in
  if ((65 <=? n) && (n <=? 90) || (192 <=? n) && (n <=? 214)
      || (216 <=? n) && (n <=? 222))%N
  then ascii_of_N (n + 32)
  else a.

(** The class [[a-zA-Z0-9]]. *)
Definition is_alnum (a : ascii) : bool :=
  let n := N_of_ascii a in
  ((48 <=? n) && (n <=? 57) || (65 <=? n) && (n <=? 90)
   || (97 <=? n) && (n <=? 122))%N.

Definition is_hyphen (a : ascii) : bool := (N_of_ascii a =? 45)%N.

Fixpoint map_chars (f : ascii -> ascii) (s : string) : string :=
  match s with
  | EmptyString => EmptyString
  | String a rest => String (f a) (map_chars f rest)
  end.

(** [.toLowerCase()] *)
Definition toLowerCase (s : string) : string := map_chars toLowerCase_char s.

(** [.replace(/[^a-zA-Z0-9]/g, '-')] *)
Definition replace_other (s : string) : string :=
  map_chars (fun a => if is_alnum a then a else "-"%char) s.

(** [.replace(/-+/g, '-')]: every run of hyphens becomes one hyphen;
    [after_hyphen] tells that the character before [s] was one. *)
Fixpoint squeeze (after_hyphen : bool) (s : string) : string :=
  match s with
  | EmptyString => EmptyString
  | String a rest =>
      if is_hyphen a then
        if after_hyphen then squeeze true rest else String a (squeeze true rest)
      else String a (squeeze false rest)
  end.

(** The alternative [-$] of the last replacement: a hyphen that ends the
    string goes. *)
Fixpoint drop_last_hyphen (s : string) : string :=
  match s with
  | EmptyString => EmptyString
  | String a EmptyString => if is_hyphen a then EmptyString else s
  | String a rest => String a (drop_last_hyphen rest)
  end.

(** [.replace(/^-|-$/g, '')]: a hyphen that starts the string goes, and
    then one that ends what is left. *)
Definition strip_hyphens (s : string) : string :=
  match s with
  | String a rest => if is_hyphen a then drop_last_hyphen rest else drop_last_hyphen s
  | EmptyString => EmptyString
  end.

Definition slugify (name : string) : string :=
  strip_hyphens (squeeze false (replace_other (toLowerCase name))).

(** [productSchema], restricted to the paths its hooks read or write. *)
Record ProductDoc := mkProductDoc {
  name : string;
  slug : string;
  price : Q;
  comparePrice : option Q
}.

(** The first [productSchema.pre('save')]; [name_modified] is
    [this.isModified('name')]. *)
Definition slug_hook (name_modified : bool) (d : ProductDoc) : ProductDoc :=
  if name_modified then
    {| name := name d; slug := slugify (name d); price := price d;
       comparePrice := comparePrice d |}
  else d.

(** The second [productSchema.pre('save')]: [None] is [next(error)]. A
    number is truthy when it is not zero. *)
Definition compare_price_hook (d : ProductDoc) : option ProductDoc :=
  match comparePrice d with
  | Some cp =>
      if negb (Qeq_bool cp 0) && Qle_bool cp (price d) then None else Some d
  | None => Some d
  end.

(** The two hooks in the order of their registration. *)
Definition pre_save (name_modified : bool) (d : ProductDoc) : option ProductDoc :=
  compare_price_hook (slug_hook name_modified d).

End ProductHooks.

(** ** productsRoutes.js: [GET /:id] and [DELETE /:id] *)

Module CatalogRoutes.
Import Http.

(** [GET /:id]; the populated paths are presentation. *)
Definition getProduct (id : ObjectId) (products : gmap ObjectId ProductModel.Product)
    : Response ProductModel.Product :=
  match products !! id with
  | None => failure 404 "Product not found"
  | Some product => mkResponse 200 true None None (Some product)
  end.

(** [DELETE /:id], behind [protect] and [admin]. *)
Definition deleteProduct (id : ObjectId) (products : gmap ObjectId ProductModel.Product)
    : gmap ObjectId ProductModel.Product * Response unit :=
  match products !! id with
  | None => (products, failure 404 "Product not found")
  | Some _ =>
      (delete id products,
       mkResponse 200 true (Some "Product deleted successfully") None None)
  end.

End CatalogRoutes.

(** ** The order routes, continued: [PATCH /:id/payment] and
    [GET /admin/summary] *)

Module OrdersAdmin.
Import Http OrderModel OrdersRoutes.

(** [PATCH /:id/payment], behind [protect] and [admin]:
    [Order.findByIdAndUpdate(id, { paymentStatus })] gives [null] when no
    order has this id. *)
Definition updatePaymentStatus (order_id : ObjectId) (paymentStatus : PaymentStatus)
    (s : Store) : Store * Response Data :=
  match orders s !! order_id with
  | None => (s, failure 404 "Order not found")
  | Some order =>
      let updatedOrder :=
        apply_update
          {| u_status := None;
             u_paymentStatus := Some paymentStatus;
             u_trackingNumber := None;
             u_estimatedDelivery := None;
             u_cancelledAt := None;
             u_cancelReason := None;
             u_deliveredAt := None |} order in
      ({| products := products s;
          orders := <[order_id := updatedOrder]> (orders s);
          fromCartRoutes := fromCartRoutes s |},
       mkResponse 200 true (Some "Payment status updated successfully") None
         (Some (OrderData order_id updatedOrder)))
  end.

(** The documents of the collection, in the order of the collection. *)
Definition documents (s : Store) : list Order := map snd (map_to_list (orders s)).

(** [Order.countDocuments(filter)] *)
Definition countDocuments (test : Order -> bool) (s : Store) : Z :=
  Z.of_nat (length (List.filter test (documents s))).

(** [Order.aggregate([{ $match }, { $group: { _id: null, total: { $sum:
    '$totalAmount' } } }])] followed by [[0]?.total || 0]: the sum of the
    totals of the matching orders, [0] when there is none. *)
Definition sum_totalAmount (test : Order -> bool) (s : Store) : Q :=
  fold_left (fun sum o => (sum + totalAmount o)%Q) (List.filter test (documents s)) 0%Q.

Definition all_statuses : list OrderStatus :=
  [pending; confirmed; processing; shipped; delivered; cancelled].

Definition all_payment_statuses : list PaymentStatus :=
  [payment_pending; paid; failed; refunded].

(** [Order.aggregate([{ $group: { _id: '$path', count: { $sum: 1 } } }])]
    reduced into an object: one key for each value some order has, with
    the number of those orders. *)
Definition distribution {A : Type} `{EqDecision A} (values : list A)
    (path : Order -> A) (s : Store) : list (A * Z) :=
  List.filter (fun entry => 0 <? entry.2)
    (map (fun v => (v, countDocuments (fun o => bool_decide (path o = v)) s)) values).

Record Summary := mkSummary {
  totalOrders : Z;
  recentOrders : Z;
  totalRevenue : Q;
  recentRevenue : Q;
  period : string;
  statusDistribution : list (OrderStatus * Z);
  paymentDistribution : list (PaymentStatus * Z)
}.

Definition day : Z := 24 * 60 * 60 * 1000.

Definition not_cancelled (o : Order) : bool := negb (bool_decide (status o = cancelled)).

(** The [data] of the response of [GET /admin/summary], behind [protect]
    and [admin]; the status of the response is always 200. [days] is
    [parseInt(period)], 30 when the query has no period. The clock of the
    server is taken to be UTC, so that [setDate(getDate() - days)] moves
    the date by [days] times 24 hours. *)
Definition summary (now : Z) (period : option Z) (s : Store) : Summary :=
  let days := default 30 period in
  let startDate := now - days * day in
  let recent o := startDate <=? createdAt o in
  {| totalOrders := countDocuments (fun _ => true) s;
     recentOrders := countDocuments recent s;
     totalRevenue := sum_totalAmount not_cancelled s;
     recentRevenue := sum_totalAmount (fun o => recent o && not_cancelled o) s;
     period := pretty days +:+ " days";
     statusDistribution := distribution all_statuses status s;
     paymentDistribution := distribution all_payment_statuses paymentStatus s |}.

End OrdersAdmin.

(** ** The user routes (second document of productModel.js) *)

Module UsersRoutes.
Import Http.

Section Users.

(** The value of the path [address], whose shape the absent
    [userModel.js] fixes. *)
Context {AddressValue : Type}.

(** The validator [isMobilePhone()] of the library. *)
Variable isMobilePhone : string -> bool.

(** The user documents, restricted to the paths these routes read or
    write; the password is never part of a response. *)
Record User := mkUser {
  firstName : string;
  lastName : string;
  phone : option string;
  address : option AddressValue;
  role : OrdersRoutes.Role;
  isActive : bool
}.

(** [req.body] of [PUT /:id]; [None] is a path the request leaves
    out. *)
Record UpdateRequest := mkUpdateRequest {
  r_firstName : option string;
  r_lastName : option string;
  r_phone : option string;
  r_address : option AddressValue;
  r_role : option OrdersRoutes.Role;
  r_isActive : option bool
}.

(** [optional().trim().isLength({ min: 2 })] *)
Definition name_ok (o : option string) : bool :=
  match o with
  | Some v => (2 <=? String.length (OrdersRoutes.trim v))%nat
  | None => true
  end.

(** [optional().trim().isMobilePhone()] *)
Definition phone_ok (o : option string) : bool :=
  match o with
  | Some v => isMobilePhone (OrdersRoutes.trim v)
  | None => true
  end.

(** The validators of [PUT /:id]: [errors.isEmpty()]. *)
Definition valid_update (req : UpdateRequest) : bool :=
  name_ok (r_firstName req) && name_ok (r_lastName req) && phone_ok (r_phone req).

(** [PUT /:id]; [target] is [req.params.id] as the client has written
    it, which the guard compares with the text of the id of the caller
    and the database casts. A path the update leaves undefined is not
    written; the validators of the absent schema, which the update
    runs, are not modelled. *)
Definition updateUser (caller : OrdersRoutes.AuthUser) (target : string)
    (req : UpdateRequest) (users : gmap ObjectId User)
    : gmap ObjectId User * Response User :=
  if negb (valid_update req) then (users, failure 400 "Validation error") else
  if negb (String.eqb (Oid.toString (OrdersRoutes.id caller)) target)
     && negb (OrdersRoutes.is_admin caller)
  then (users, failure 403 "Access denied. You can only update your own profile.")
  else
  match Oid.cast target with
  | None => (users, server_error "Cast to ObjectId failed for path _id")
  | Some _id =>
  match users !! _id with
  | None => (users, failure 404 "User not found")
  | Some user =>
      let updatedUser :=
        {| firstName := default (firstName user) (OrdersRoutes.trim <$> r_firstName req);
           lastName := default (lastName user) (OrdersRoutes.trim <$> r_lastName req);
           phone := OrderModel.or_else (OrdersRoutes.trim <$> r_phone req) (phone user);
           address := OrderModel.or_else (r_address req) (address user);
           role :=
             if OrdersRoutes.is_admin caller
             then default (role user) (r_role req)
             else role user;
           isActive :=
             if OrdersRoutes.is_admin caller
             then default (isActive user) (r_isActive req)
             else isActive user |} in
      (<[_id := updatedUser]> users,
       mkResponse 200 true (Some "User updated successfully") None (Some updatedUser))
  end
  end.

Definition set_active (b : bool) (u : User) : User :=
  {| firstName := firstName u; lastName := lastName u; phone := phone u;
     address := address u; role := role u; isActive := b |}.

(** [PATCH /:id/deactivate], behind [protect] and [admin]. *)
Definition deactivateUser (target : ObjectId) (users : gmap ObjectId User)
    : gmap ObjectId User * Response User :=
  match users !! target with
  | None => (users, failure 404 "User not found")
  | Some user =>
      if negb (isActive user) then
        (users, failure 400 "User account is already deactivated")
      else
        (<[target := set_active false user]> users,
         mkResponse 200 true (Some "User account deactivated successfully") None None)
  end.

(** [PATCH /:id/activate], behind [protect] and [admin]. *)
Definition activateUser (target : ObjectId) (users : gmap ObjectId User)
    : gmap ObjectId User * Response User :=
  match users !! target with
  | None => (users, failure 404 "User not found")
  | Some user =>
      if isActive user then
        (users, failure 400 "User account is already active")
      else
        (<[target := set_active true user]> users,
         mkResponse 200 true (Some "User account activated successfully") None None)
  end.

(** [DELETE /:id], behind [protect] and [admin]; [target] is
    [req.params.id] as the client has written it. The guard
    [req.user.id === req.params.id] compares two strings. *)
Definition deleteUser (caller : OrdersRoutes.AuthUser) (target : string)
    (users : gmap ObjectId User) : gmap ObjectId User * Response User :=
  match Oid.cast target with
  | None => (users, server_error "Cast to ObjectId failed for path _id")
  | Some _id =>
  match users !! _id with
  | None => (users, failure 404 "User not found")
  | Some _ =>
      if String.eqb (Oid.toString (OrdersRoutes.id caller)) target then
        (users, failure 400 "You cannot delete your own account")
      else
        (delete _id users,
         mkResponse 200 true (Some "User deleted successfully") None None)
  end
  end.

End Users.

Arguments User : clear implicits.
Arguments UpdateRequest : clear implicits.

End UsersRoutes.

(** * Specification-level definitions *)

(** The sums the derived paths of carts and orders are specified by. *)
Definition Qsum (l : list Q) : Q := foldr Qplus 0%Q l.
Definition Zsum (l : list Z) : Z := foldr Z.add 0 l.

(** The lines of a cart for one product. *)
Definition cart_lines (productId : ObjectId) (c : CartModel.Cart) : list CartModel.CartItem :=
  filter (fun it => CartModel.product it = productId) (CartModel.items c).

(** A line of a cart once [addItem] has raised its quantity by a number
    and set its total from the price it was given. *)
Definition raised (q : Z) (unitPrice : Q) (it : CartModel.CartItem) : CartModel.CartItem :=
  {| CartModel.product := CartModel.product it;
     CartModel.quantity := CartModel.quantity it + q;
     CartModel.price := CartModel.price it;
     CartModel.total := (inject_Z (CartModel.quantity it + q) * unitPrice)%Q |}.

(** The units of one product a requested item takes from the stock: its
    quantity, when its id is that of the product. *)
Definition asked (productId : ObjectId) (item : OrdersRoutes.ItemRequest) : Z :=
  match Oid.cast (OrdersRoutes.i_product item),
        Js.toNumber (OrdersRoutes.i_quantity item) with
  | Some _id, Some n => if decide (_id = productId) then n else 0
  | _, _ => 0
  end.

(** The units of one product a list of requested items asks for. *)
Definition reserved (productId : ObjectId) (items : list OrdersRoutes.ItemRequest) : Z :=
  Zsum (map (asked productId) items).

(** The quantities of a list of requested items, when each of them is a
    number. *)
Definition quantities (items : list OrdersRoutes.ItemRequest) : option (list Z) :=
  mapM (fun item => Js.toNumber (OrdersRoutes.i_quantity item)) items.

(** The units of one product the lines of an order hold. *)
Definition held (productId : ObjectId) (lines : list OrderModel.OrderItem) : Z :=
  Zsum (map OrderModel.quantity
          (filter (fun line => OrderModel.product line = productId) lines)).

(** The line an order holds for a requested item: the product the item
    names, by the text of its id, and the quantity of the request, the
    price of the product in the catalog at that time, and their product as
    total. *)
Definition line_of (ps : gmap ObjectId ProductModel.Product)
    (item : OrdersRoutes.ItemRequest) (line : OrderModel.OrderItem) : Prop :=
  exists _id p n,
    OrdersRoutes.i_product item = Oid.toString _id
    /\ Oid.cast (OrdersRoutes.i_product item) = Some _id
    /\ Js.toNumber (OrdersRoutes.i_quantity item) = Some n
    /\ ps !! _id = Some p
    /\ OrderModel.product line = _id
    /\ OrderModel.quantity line = n
    /\ OrderModel.price line = ProductModel.price p
    /\ OrderModel.total line = (ProductModel.price p * inject_Z n)%Q.

(** * A running example

    A catalog of four products, the third no longer active, a customer who
    orders three units of the first and two of the second, and the states
    the order then goes through. The requests write the ids as the
    database prints them, but for the fourth product, whose id has letters
    and is also written in capitals. *)
Module Example.
Import OrdersRoutes OrderModel.

Definition home : Address :=
  mkAddress "Ada" "Obi" "12 Marina Road" "Lagos" "LA" "100001" "NG" "08000000000".

Definition apples : ProductModel.Product := ProductModel.mkProduct "Apples" 2.5 10 true.
Definition bread : ProductModel.Product := ProductModel.mkProduct "Bread" 1.2 5 true.
Definition retired : ProductModel.Product := ProductModel.mkProduct "Plums" 3 10 false.
Definition kale : ProductModel.Product := ProductModel.mkProduct "Kale" 4 6 true.

Definition catalog : gmap ObjectId ProductModel.Product :=
  <[1%N := apples]> (<[2%N := bread]> (<[3%N := retired]> (<[171%N := kale]> ∅))).

(** The id of the fourth product as the database prints it, and in
    capitals. *)
Definition kale_id : string := "0000000000000000000000ab".
Definition KALE_ID : string := "0000000000000000000000AB".

Definition shop : Store := mkStore catalog ∅ 0.

Definition ada : AuthUser := mkAuthUser 7%N user_role.
Definition ben : AuthUser := mkAuthUser 8%N user_role.
Definition root : AuthUser := mkAuthUser 9%N admin.

Definition request (items : list ItemRequest) : CreateRequest :=
  mkCreateRequest items home None None None None.

(** An item of a request: the id as the database prints it and the
    quantity as a JSON number. *)
Definition item (productId : ObjectId) (quantity : Z) : ItemRequest :=
  mkItemRequest (Oid.toString productId) (Js.Num quantity).

Definition basket : list ItemRequest := [item 1%N 3; item 2%N 2].

(** The shop after the customer's order, number 50, at time 100. *)
Definition ordered : Store := (createOrder 100 50%N ada (request basket) shop).1.

Definition advance (s : Store) (step : Z * OrderStatus) : Store :=
  (updateOrderStatus step.1 50%N (mkStatusRequest step.2 None None) s).1.

(** The shop after the order has gone through every status up to
    [delivered]. *)
Definition was_delivered : Store :=
  fold_left advance
    [(200, confirmed); (300, processing); (400, shipped); (500, delivered)] ordered.

(** The shop after the customer has cancelled the pending order. *)
Definition was_cancelled : Store := (cancelOrder 200 ada 50%N None ordered).1.

Definition empty_cart : CartModel.Cart := CartModel.mkCart 7%N [] 0 0 0.

(** A cart with two units of the first product. *)
Definition apples_line : CartModel.CartItem := CartModel.mkCartItem 1%N 2 2.5 5.
Definition cart_of_apples : CartModel.Cart := CartModel.mkCart 7%N [apples_line] 5 2 100.

(** A cart with two units of the fourth product. *)
Definition kale_line : CartModel.CartItem := CartModel.mkCartItem 171%N 2 4 8.
Definition cart_of_kale : CartModel.Cart := CartModel.mkCart 7%N [kale_line] 8 2 100.

End Example.

(** * Specification-level definitions for the further properties *)

(** The class [[a-z0-9]]. *)
Definition is_lower_or_digit (a : ascii) : bool :=
  let n := N_of_ascii a in
  ((48 <=? n) && (n <=? 57) || (97 <=? n) && (n <=? 122))%N.

(** A string of lower-case letters, digits and single hyphens that does not
    end with a hyphen and, when [after_hyphen] is set, neither is empty nor
    starts with one. *)
Fixpoint tidy (after_hyphen : bool) (s : string) : bool :=
  match s with
  | EmptyString => negb after_hyphen
  | String a rest =>
      if ProductHooks.is_hyphen a then negb after_hyphen && tidy true rest
      else is_lower_or_digit a && tidy false rest
  end.

(** What lower-casing and the replacement of the other characters leave of
    one character of a product name. *)
Definition slug_char (a : ascii) : ascii :=
  if ProductHooks.is_alnum (ProductHooks.toLowerCase_char a)
  then ProductHooks.toLowerCase_char a
  else "-"%char.

(** The characters of a string other than hyphens, in their order. *)
Definition letters (s : string) : list ascii :=
  List.filter (fun a => negb (ProductHooks.is_hyphen a)) (list_ascii_of_string s).

(** The characters a slug is made of. *)
Definition in_class (a : ascii) : Prop :=
  is_lower_or_digit a || ProductHooks.is_hyphen a = true.

(** What the routes keep true of the store: no product has a negative
    stock, and every order has lines of quantity one or more for distinct
    products. *)
Definition store_ok (s : OrdersRoutes.Store) : Prop :=
  (forall k p, OrdersRoutes.products s !! k = Some p -> 0 <= ProductModel.stock p)
  /\ (forall k o, OrdersRoutes.orders s !! k = Some o ->
        Forall (fun l => 1 <= OrderModel.quantity l) (OrderModel.items o)
        /\ NoDup (map OrderModel.product (OrderModel.items o))).

(** The requests that write to the products or to the orders. *)
Inductive Call :=
| CreateOrder (now : Z) (new_id : ObjectId) (user : OrdersRoutes.AuthUser)
    (req : OrdersRoutes.CreateRequest)
| UpdateOrderStatus (now : Z) (order_id : ObjectId) (req : OrdersRoutes.StatusRequest)
| CancelOrder (now : Z) (user : OrdersRoutes.AuthUser) (order_id : ObjectId)
    (reason : option string)
| UpdatePaymentStatus (order_id : ObjectId) (paymentStatus : OrderModel.PaymentStatus)
| UpdateStock (id : ObjectId) (req : ProductsRoutes.StockRequest)
| DeleteProduct (id : ObjectId).

Definition with_products (s : OrdersRoutes.Store)
    (ps : gmap ObjectId ProductModel.Product) : OrdersRoutes.Store :=
  {| OrdersRoutes.products := ps;
     OrdersRoutes.orders := OrdersRoutes.orders s;
     OrdersRoutes.fromCartRoutes := OrdersRoutes.fromCartRoutes s |}.

(** The store after a request. *)
Definition run (s : OrdersRoutes.Store) (c : Call) : OrdersRoutes.Store :=
  match c with
  | CreateOrder now new_id user req => (OrdersRoutes.createOrder now new_id user req s).1
  | UpdateOrderStatus now order_id req => (OrdersRoutes.updateOrderStatus now order_id req s).1
  | CancelOrder now user order_id reason =>
      (OrdersRoutes.cancelOrder now user order_id reason s).1
  | UpdatePaymentStatus order_id paymentStatus =>
      (OrdersAdmin.updatePaymentStatus order_id paymentStatus s).1
  | UpdateStock id req =>
      with_products s (ProductsRoutes.updateStock id req (OrdersRoutes.products s)).1
  | DeleteProduct id =>
      with_products s (CatalogRoutes.deleteProduct id (OrdersRoutes.products s)).1
  end.

(** The number of the orders of a list that pass a test. *)
Definition count_orders (test : OrderModel.Order -> bool) (l : list OrderModel.Order) : Z :=
  Z.of_nat (length (List.filter test l)).

(** The totals the summary adds up to the revenue: those of the orders
    that are not cancelled, in the order of the collection. *)
Definition revenue_terms (s : OrdersRoutes.Store) : list Q :=
  map OrderModel.totalAmount
    (List.filter OrdersAdmin.not_cancelled (OrdersAdmin.documents s)).

(** * The running example, continued *)
Module Accounts.

(** The accounts of the example: two customers and two administrators,
  the second with an id that has letters. The address is left out and
  every phone number passes. *)
Definition account (first last : string) (r : OrdersRoutes.Role)
  : UsersRoutes.User unit :=
UsersRoutes.mkUser first last None None r true.

Definition users : gmap ObjectId (UsersRoutes.User unit) :=
<[7%N := account "Ada" "Obi" OrdersRoutes.user_role]>
  (<[8%N := account "Ben" "Eze" OrdersRoutes.user_role]>
     (<[9%N := account "Root" "Admin" OrdersRoutes.admin]>
        (<[173%N := account "Chi" "Ude" OrdersRoutes.admin]> ∅))).

Definition chi : OrdersRoutes.AuthUser := OrdersRoutes.mkAuthUser 173%N OrdersRoutes.admin.

(** The id of the second administrator as the database prints it, and in
  capitals. *)
Definition chi_id : string := "0000000000000000000000ad".
Definition CHI_ID : string := "0000000000000000000000AD".

Definition any_phone (number : string) : bool := true.

(** A request to become an administrator. *)
Definition promote : UsersRoutes.UpdateRequest unit :=
UsersRoutes.mkUpdateRequest None None None None (Some OrdersRoutes.admin) None.

(** A product document whose compare price is zero. *)
Definition plain_apples : ProductHooks.ProductDoc :=
ProductHooks.mkProductDoc "Fresh  Apples (1kg)!" "" 2.5 (Some 0%Q).

End Accounts.
(** * Properties *)

(** ** Ids and integers as text *)

Section TextFacts.

Lemma hex_value_digit (d : N) :
  (d < 16)%N -> Oid.hex_value (Oid.hex_digit d) = Some d.
Proof.
  intros Hd. destruct d as [|p]; [reflexivity|].
  do 4 (destruct p as [p|p|]; try reflexivity; try lia).
Qed.

(** Reading the digits [hex_digits] has written gives the number back. *)
Lemma parse_hex_digits (n : nat) (v : N) (acc : string) (a : N) :
  (v < 16 ^ N.of_nat n)%N ->
  Oid.parse_hex (Oid.hex_digits n v acc) a
  = Oid.parse_hex acc (a * 16 ^ N.of_nat n + v)%N.
Proof.
  revert v acc a. induction n as [|n IH]; intros v acc a Hv.
  - simpl in *. f_equal. lia.
  - cbn [Oid.hex_digits].
    assert (Hpow : (16 ^ N.of_nat (S n) = 16 * 16 ^ N.of_nat n)%N).
    { rewrite Nat2N.inj_succ, N.pow_succ_r'. reflexivity. }
    rewrite IH.
    + cbn [Oid.parse_hex]. rewrite hex_value_digit by (apply N.mod_lt; lia).
      f_equal. rewrite Hpow. pose proof (N.div_mod v 16 ltac:(lia)). lia.
    + apply N.Div0.div_lt_upper_bound. rewrite <- Hpow. exact Hv.
Qed.

Lemma width_bound (v : N) : (v < 16 ^ N.of_nat (Oid.width v))%N.
Proof.
  assert (Hlog : (v < 2 ^ N.succ (N.log2 v))%N).
  { destruct v as [|p]; [reflexivity|]. apply N.log2_spec. reflexivity. }
  eapply N.lt_le_trans; [exact Hlog|].
  change 16%N with (2 ^ 4)%N. rewrite <- N.pow_mul_r.
  apply N.pow_le_mono_r; [lia|].
  unfold Oid.width.
  pose proof (N.div_mod (N.log2 v) 4 ltac:(lia)).
  pose proof (N.mod_lt (N.log2 v) 4 ltac:(lia)). lia.
Qed.

Lemma parse_toString (v : ObjectId) : Oid.parse_hex (Oid.toString v) 0 = Some v.
Proof.
  unfold Oid.toString. rewrite parse_hex_digits by apply width_bound. reflexivity.
Qed.

(** No two ids have the same text. *)
#[global] Instance toString_inj : Inj (=) (=) Oid.toString.
Proof.
  intros x y H. apply (f_equal (fun s => Oid.parse_hex s 0)) in H.
  rewrite !parse_toString in H. congruence.
Qed.

(** The only id the text of an id can be cast to is that id. *)
Lemma cast_toString_inv (k k' : ObjectId) :
  Oid.cast (Oid.toString k) = Some k' -> k' = k.
Proof.
  unfold Oid.cast. destruct (_ =? _)%nat; [|discriminate].
  rewrite parse_toString. congruence.
Qed.

(** The text of an id that passes the validator is cast to that id. *)
Lemma cast_valid_text (k : ObjectId) :
  Oid.isMongoId (Oid.toString k) = true -> Oid.cast (Oid.toString k) = Some k.
Proof.
  unfold Oid.isMongoId, Oid.cast. intros H. apply andb_true_iff in H as [_ ->].
  apply parse_toString.
Qed.

Lemma digits_value_nonneg (s : string) (acc n : Z) :
  Js.digits_value s acc = Some n -> 0 <= acc -> 0 <= n.
Proof.
  revert acc. induction s as [|a s IH]; intros acc; simpl.
  - intros [= <-]. auto.
  - destruct (Js.is_digit a); [|discriminate]. intros H Hacc.
    eapply IH; [exact H|]. lia.
Qed.

Lemma numeral_nonneg (s : string) (n : Z) : Js.numeral s = Some n -> 0 <= n.
Proof.
  destruct s as [|a s]; [discriminate|]. intros H.
  eapply digits_value_nonneg; [exact H | lia].
Qed.

(** A string that does not start with a minus sign stands for no
    negative number. *)
Lemma Number_nonneg (a : ascii) (s : string) (n : Z) :
  a <> "-"%char -> Js.Number (String a s) = Some n -> 0 <= n.
Proof.
  intros Ha. cbn [Js.Number].
  destruct (Ascii.eqb a "+"); [apply numeral_nonneg|].
  destruct (Ascii.eqb_spec a "-"); [contradiction|]. apply numeral_nonneg.
Qed.

Lemma pretty_N_go_nonempty (x : N) (s : string) :
  s <> EmptyString -> pretty_N_go x s <> EmptyString.
Proof.
  revert s. induction (N.lt_wf_0 x) as [x _ IH]; intros s Hs.
  destruct (decide (x = 0)%N) as [->|Hx]; [rewrite pretty_N_go_0; exact Hs|].
  rewrite pretty_N_go_step by lia.
  apply IH; [apply N.div_lt; lia | discriminate].
Qed.

(** The text of a number that is not negative starts with a digit. *)
Lemma pretty_nonneg_head (z : Z) :
  0 <= z -> exists a s, pretty z = String a s /\ a <> "-"%char.
Proof.
  intros Hz. destruct z as [|p|p]; [exists "0"%char, ""; split; [reflexivity | discriminate]| |lia].
  unfold pretty, pretty_Z, pretty, pretty_positive, pretty, pretty_N.
  destruct (decide (N.pos p = 0%N)); [discriminate|].
  destruct (pretty_N_go (N.pos p) "") as [|a s] eqn:Hgo.
  - exfalso. revert Hgo. rewrite pretty_N_go_step by lia.
    apply pretty_N_go_nonempty. discriminate.
  - exists a, s. split; [reflexivity|]. intros ->.
    apply (pretty_N_go_ne_dash (N.pos p) "" s); [discriminate | exact Hgo].
Qed.

(** What [isInt] lets through is a number of at least [min], as a number
    or as a string, and the cast gives that number. *)
Lemma isInt_number (min : Z) (v : Js.Value) :
  Js.isInt min v = true ->
  exists n, Js.toNumber v = Some n /\ Js.castNumber v = Some n /\ min <= n.
Proof.
  destruct v as [z|s|]; simpl; [| |discriminate].
  - intros H. apply andb_true_iff in H as [_ H]. apply Z.leb_le in H. eauto.
  - destruct s as [|a s]; [discriminate|].
    intros H. apply andb_true_iff in H as [_ H].
    destruct (Js.Number (String a s)) as [n|]; [|discriminate].
    apply Z.leb_le in H. eauto.
Qed.

(** The sum of a stock that is not negative and an amount that passes
    the validator, once cast, is not negative, also when the sum is a
    concatenation. *)
Lemma castNumber_add_nonneg (stock : Z) (v : Js.Value) (n : Z) :
  0 <= stock -> Js.isInt 0 v = true ->
  Js.castNumber (Js.add (Js.Num stock) v) = Some n -> 0 <= n.
Proof.
  intros Hstock Hv. destruct v as [z|s|]; simpl in *; [| |discriminate].
  - apply andb_true_iff in Hv as [_ Hv]. apply Z.leb_le in Hv. intros [= <-]. lia.
  - destruct (pretty_nonneg_head stock Hstock) as (a & rest & -> & Ha).
    cbn [String.append]. apply Number_nonneg. exact Ha.
Qed.

End TextFacts.

(** ** The cart *)

Section CartFacts.
Import CartModel.

Lemma fold_left_Qplus (l : list CartItem) (a : Q) :
  (fold_left (fun sum item => sum + total item) l a == a + Qsum (map total l))%Q.
Proof.
  revert a. induction l as [|i l IH]; intros a; simpl.
  - ring.
  - rewrite IH. ring.
Qed.

Lemma fold_left_Zplus (l : list CartItem) (a : Z) :
  fold_left (fun sum item => sum + quantity item) l a = a + Zsum (map quantity l).
Proof.
  revert a. induction l as [|i l IH]; intros a; simpl.
  - lia.
  - rewrite IH. lia.
Qed.

Lemma save_Ok now c :
  validate c = true ->
  save now c = Ok (cart_pre_save now (set_items c (map cartItem_pre_save (items c)))).
Proof. intros H. unfold save. rewrite H. reflexivity. Qed.

Lemma save_inv now c c' :
  save now c = Ok c' ->
  validate c = true /\
  c' = cart_pre_save now (set_items c (map cartItem_pre_save (items c))).
Proof.
  unfold save. destruct (validate c); [|discriminate].
  intros [= <-]. split; reflexivity.
Qed.

Lemma findIndex_None pid l :
  findIndex pid l = None <-> Forall (fun it => Oid.toString (product it) <> pid) l.
Proof.
  unfold findIndex. rewrite fmap_None. apply list_find_None.
Qed.

Lemma findIndex_Some pid l i :
  findIndex pid l = Some i <->
  exists it, l !! i = Some it /\ Oid.toString (product it) = pid /\
    forall j it', l !! j = Some it' -> (j < i)%nat -> Oid.toString (product it') <> pid.
Proof.
  unfold findIndex. rewrite fmap_Some. split.
  - intros [[j it] [H ->]]. apply list_find_Some in H. exists it. exact H.
  - intros [it H]. exists (i, it). split; [|reflexivity].
    apply list_find_Some. exact H.
Qed.

Lemma inject_Z_nonneg n : 0 <= n -> (0 <= inject_Z n)%Q.
Proof. intros H. unfold Qle. simpl. lia. Qed.

(** What every successful [save] establishes. *)
Lemma save_establishes now c c' :
  save now c = Ok c' ->
  Forall (fun it => total it = (price it * inject_Z (quantity it))%Q) (items c')
  /\ (subtotal c' == Qsum (map total (items c')))%Q
  /\ totalItems c' = Zsum (map quantity (items c'))
  /\ lastUpdated c' = now.
Proof.
  intros H. apply save_inv in H as [_ ->]. simpl. repeat split.
  - apply Forall_map. apply Forall_true. intros it. reflexivity.
  - rewrite fold_left_Qplus. ring.
  - rewrite fold_left_Zplus. lia.
Qed.

End CartFacts.

(** C8. After every cart mutation (add, update, remove, clear) that is
    persisted, every line total is the stored unit price times the quantity,
    the subtotal is the sum of the line totals, the item count is the sum of
    the quantities, and the last-modified time is the time of the save. *)
Theorem cart_mutation_invariant :
  forall (now : Z) (m : CartModel.Mutation) (c c' : CartModel.Cart),
    CartModel.mutate now m c = CartModel.Ok c' ->
    Forall (fun it => CartModel.total it
                      = (CartModel.price it * inject_Z (CartModel.quantity it))%Q)
           (CartModel.items c')
    /\ (CartModel.subtotal c' == Qsum (map CartModel.total (CartModel.items c')))%Q
    /\ CartModel.totalItems c' = Zsum (map CartModel.quantity (CartModel.items c'))
    /\ CartModel.lastUpdated c' = now.
Proof.
  intros now m c c' H. destruct m as [pid q p|pid q|pid|]; simpl in H.
  - unfold CartModel.addItem in H.
    destruct (CartModel.findIndex pid (CartModel.items c)) as [i|].
    + destruct (CartModel.items c !! i ≫= CartModel.add_quantity q p); [|discriminate].
      eapply save_establishes; exact H.
    + destruct (Oid.cast pid); [|discriminate].
      destruct (Js.castNumber q); [|discriminate].
      eapply save_establishes; exact H.
  - unfold CartModel.updateItem in H.
    destruct (CartModel.findIndex pid (CartModel.items c)); [|discriminate].
    destruct (Js.le q (Js.Num 0)); [eapply save_establishes; exact H|].
    destruct (Js.castNumber q); [|discriminate].
    eapply save_establishes; exact H.
  - eapply save_establishes; exact H.
  - eapply save_establishes; exact H.
Qed.
Section AddItemFacts.
Import CartModel.

Lemma map_is_fmap {A B : Type} (f : A -> B) (l : list A) : map f l = f <$> l.
Proof. reflexivity. Qed.

Lemma validate_Forall c :
  validate c = true <-> Forall (fun it => item_valid it = true) (items c).
Proof.
  unfold validate. rewrite forallb_forall, Forall_forall.
  split; intros H x Hx; apply H; apply list_elem_of_In; exact Hx.
Qed.

Lemma item_valid_spec it :
  item_valid it = true <->
  1 <= quantity it /\ (0 <= price it)%Q /\ (0 <= total it)%Q.
Proof.
  unfold item_valid. rewrite !andb_true_iff, Z.leb_le, !Qle_bool_iff. tauto.
Qed.

(** A line that passes validation still passes it after its hook. *)
Lemma item_valid_pre_save it :
  item_valid it = true -> item_valid (cartItem_pre_save it) = true.
Proof.
  rewrite !item_valid_spec. simpl. intros (Hq & Hp & _).
  repeat split; try assumption.
  apply Qmult_le_0_compat; [assumption | apply inject_Z_nonneg; lia].
Qed.

Lemma validate_saved now c c' : save now c = Ok c' -> validate c' = true.
Proof.
  intros H. apply save_inv in H as [Hv ->].
  apply validate_Forall. simpl. apply validate_Forall in Hv.
  rewrite map_is_fmap. apply Forall_fmap.
  eapply Forall_impl; [exact Hv|]. intros it. apply item_valid_pre_save.
Qed.

Lemma addItem_validates now pid qty unitPrice c c' :
  addItem now pid qty unitPrice c = Ok c' -> validate c' = true.
Proof.
  unfold addItem. destruct (findIndex pid (items c)) as [i|].
  - destruct (items c !! i ≫= add_quantity qty unitPrice); [|discriminate].
    apply validate_saved.
  - destruct (Oid.cast pid); [|discriminate].
    destruct (Js.castNumber qty); [|discriminate]. apply validate_saved.
Qed.

Lemma raised_valid q unitPrice it :
  1 <= q -> (0 <= unitPrice)%Q ->
  item_valid it = true -> item_valid (raised q unitPrice it) = true.
Proof.
  rewrite !item_valid_spec. simpl. intros Hq Hp (H1 & H2 & _).
  repeat split; [lia | assumption |].
  apply Qmult_le_0_compat; [apply inject_Z_nonneg; lia | assumption].
Qed.

Lemma addItem_present now pid q unitPrice c i it :
  validate c = true -> 1 <= q -> (0 <= unitPrice)%Q ->
  items c !! i = Some it -> Oid.toString (product it) = pid ->
  (forall j it', items c !! j = Some it' -> (j < i)%nat ->
                 Oid.toString (product it') <> pid) ->
  addItem now pid (Js.Num q) unitPrice c
  = Ok (cart_pre_save now
          (set_items c
             (map cartItem_pre_save (<[i := raised q unitPrice it]> (items c))))).
Proof.
  intros Hv Hq Hp Hi Hpid Hfirst. unfold addItem.
  assert (Hf : findIndex pid (items c) = Some i).
  { apply findIndex_Some. exists it. auto. }
  rewrite Hf, Hi. cbn. apply save_Ok.
  apply validate_Forall. simpl. apply Forall_insert.
  - apply validate_Forall. exact Hv.
  - apply raised_valid; [assumption | assumption |].
    apply validate_Forall in Hv. rewrite Forall_forall in Hv. apply Hv.
    apply list_elem_of_lookup. exists i. exact Hi.
Qed.

Lemma addItem_absent now k q unitPrice c :
  validate c = true -> 1 <= q -> (0 <= unitPrice)%Q ->
  Oid.cast (Oid.toString k) = Some k ->
  k ∉ map product (items c) ->
  addItem now (Oid.toString k) (Js.Num q) unitPrice c
  = Ok (cart_pre_save now
          (set_items c
             (map cartItem_pre_save (items c)
              ++ [ {| product := k; quantity := q; price := unitPrice;
                      total := (unitPrice * inject_Z q)%Q |} ]))).
Proof.
  intros Hv Hq Hp Hk Hnot. unfold addItem.
  assert (Hf : findIndex (Oid.toString k) (items c) = None).
  { apply findIndex_None. apply Forall_forall. intros x Hx Heq.
    apply toString_inj in Heq.
    apply Hnot. rewrite map_is_fmap. apply list_elem_of_fmap. exists x. auto. }
  rewrite Hf, Hk. cbn [Js.castNumber Js.toNumber]. rewrite save_Ok.
  - simpl. rewrite map_app. reflexivity.
  - apply validate_Forall. simpl. apply Forall_app. split.
    + apply validate_Forall. exact Hv.
    + apply Forall_cons. split; [|apply Forall_nil; exact I].
      apply item_valid_spec. simpl. repeat split; try assumption.
      apply Qmult_le_0_compat; [apply inject_Z_nonneg; lia | assumption].
Qed.

Lemma no_line_of pid (l : list CartItem) :
  Forall (fun it => product it <> pid) l ->
  filter (fun it => product it = pid) l = [].
Proof.
  induction 1 as [|x l Hx _ IH]; [reflexivity|].
  rewrite filter_cons_False by exact Hx. exact IH.
Qed.

Lemma product_pre_save l : map product (map cartItem_pre_save l) = map product l.
Proof. rewrite map_map. reflexivity. Qed.

End AddItemFacts.

(** C6 fails on the code. The route hands [req.body.productId] and
    [req.body.quantity] to [addItem] as they came. A product that is in the
    cart and whose id comes in capitals is not found among the lines, whose
    ids are printed in lower case, and gets a second line; and a quantity
    that comes as a string is appended to the digits of the quantity of the
    line: two units and then ["3"] make 23 units. *)
Theorem addItem_splits_or_concatenates :
  Oid.isMongoId Example.KALE_ID = true
  /\ Oid.cast Example.KALE_ID = Some 171%N
  /\ Js.isInt 1 (Js.Str "3") = true
  /\ (exists c1 c2,
        CartModel.addItem 300 Example.kale_id (Js.Num 2) 4 Example.empty_cart
        = CartModel.Ok c1
        /\ CartModel.addItem 400 Example.KALE_ID (Js.Num 3) 4 c1 = CartModel.Ok c2
        /\ cart_lines 171%N c2
           = [CartModel.mkCartItem 171%N 2 4 (4 * inject_Z 2)%Q;
              CartModel.mkCartItem 171%N 3 4 (4 * inject_Z 3)%Q])
  /\ (exists c1 c2,
        CartModel.addItem 300 Example.kale_id (Js.Num 2) 4 Example.empty_cart
        = CartModel.Ok c1
        /\ CartModel.addItem 400 Example.kale_id (Js.Str "3") 4 c1 = CartModel.Ok c2
        /\ cart_lines 171%N c2 = [CartModel.mkCartItem 171%N 23 4 (4 * inject_Z 23)%Q]).
Proof.
  split; [reflexivity|]. split; [reflexivity|]. split; [reflexivity|]. split.
  - do 2 eexists. split; [reflexivity|]. split; reflexivity.
  - do 2 eexists. split; [reflexivity|]. split; reflexivity.
Qed.

(** Where the id comes as the database prints it and the quantities come
    as numbers, [addItem] does what it is meant to do: with a product the
    cart already holds it raises the quantity of its line and adds no line;
    called twice with the same product, with quantities 2 and 3, on a cart
    without that product, it leaves exactly one line for the product, of
    quantity 5 and total 5 times the price. *)
Lemma addItem_merges_numbers_written_alike :
  forall (now1 now2 : Z) (k : ObjectId) (p : Q) (c : CartModel.Cart),
    CartModel.validate c = true ->
    (0 <= p)%Q ->
    Oid.cast (Oid.toString k) = Some k ->
    (forall (q : Z) (i : nat) (it : CartModel.CartItem),
        1 <= q ->
        CartModel.items c !! i = Some it ->
        CartModel.product it = k ->
        (forall j it', CartModel.items c !! j = Some it' -> (j < i)%nat ->
                       CartModel.product it' <> k) ->
        exists c',
          CartModel.addItem now1 (Oid.toString k) (Js.Num q) p c = CartModel.Ok c'
          /\ map CartModel.product (CartModel.items c')
             = map CartModel.product (CartModel.items c)
          /\ CartModel.items c' !! i
             = Some {| CartModel.product := k;
                       CartModel.quantity := CartModel.quantity it + q;
                       CartModel.price := CartModel.price it;
                       CartModel.total :=
                         (CartModel.price it * inject_Z (CartModel.quantity it + q))%Q |}
          /\ forall j, j <> i ->
               CartModel.items c' !! j
               = CartModel.cartItem_pre_save <$> CartModel.items c !! j)
    /\ (k ∉ map CartModel.product (CartModel.items c) ->
        exists c1 c2,
          CartModel.addItem now1 (Oid.toString k) (Js.Num 2) p c = CartModel.Ok c1
          /\ CartModel.addItem now2 (Oid.toString k) (Js.Num 3) p c1 = CartModel.Ok c2
          /\ cart_lines k c2
             = [ {| CartModel.product := k;
                    CartModel.quantity := 5;
                    CartModel.price := p;
                    CartModel.total := (p * inject_Z 5)%Q |} ]
          /\ length (CartModel.items c2) = S (length (CartModel.items c))).
Proof.
  intros now1 now2 k p c Hv Hp Hcast. split.
  - intros q i it Hq Hi Hpid Hfirst.
    eexists. split.
    { apply (addItem_present now1 (Oid.toString k) q p c i it); try assumption.
      - rewrite Hpid. reflexivity.
      - intros j it' Hj Hlt Heq. apply toString_inj in Heq.
        exact (Hfirst j it' Hj Hlt Heq). }
    simpl. split; [|split].
    + rewrite product_pre_save, !map_is_fmap. apply list_eq. intros j.
      rewrite !list_lookup_fmap.
      destruct (decide (i = j)) as [<-|Hne].
      * rewrite list_lookup_insert_eq by (eapply lookup_lt_Some; exact Hi).
        rewrite Hi. reflexivity.
      * rewrite list_lookup_insert_ne by exact Hne. reflexivity.
    + rewrite map_is_fmap, list_lookup_fmap.
      rewrite list_lookup_insert_eq by (eapply lookup_lt_Some; exact Hi). simpl.
      unfold CartModel.cartItem_pre_save. simpl. rewrite Hpid. reflexivity.
    + intros j Hne.
      rewrite map_is_fmap, list_lookup_fmap, list_lookup_insert_ne by auto.
      reflexivity.
  - intros Hnot.
    pose proof (addItem_absent now1 k 2 p c Hv ltac:(lia) Hp Hcast Hnot) as H1.
    set (l1 := map CartModel.cartItem_pre_save (CartModel.items c)) in *.
    set (new := {| CartModel.product := k; CartModel.quantity := 2;
                   CartModel.price := p;
                   CartModel.total := (p * inject_Z 2)%Q |}) in *.
    set (c1 := CartModel.cart_pre_save now1 (CartModel.set_items c (l1 ++ [new]))) in *.
    assert (Hl1 : Forall (fun it => CartModel.product it <> k) l1).
    { apply Forall_forall. intros x Hx Heq. apply Hnot.
      rewrite <- (product_pre_save (CartModel.items c)). fold l1.
      rewrite map_is_fmap. apply list_elem_of_fmap. exists x. auto. }
    assert (Hv1 : CartModel.validate c1 = true).
    { eapply addItem_validates. exact H1. }
    assert (Hlook : CartModel.items c1 !! length l1 = Some new).
    { simpl. rewrite lookup_app_r by lia. rewrite Nat.sub_diag. reflexivity. }
    pose proof (addItem_present now2 (Oid.toString k) 3 p c1 (length l1) new Hv1
                  ltac:(lia) Hp Hlook eq_refl) as H2.
    exists c1. eexists. split; [exact H1|]. split.
    { apply H2. simpl. intros j it' Hj Hlt Heq. apply toString_inj in Heq.
      rewrite lookup_app_l in Hj by exact Hlt.
      rewrite Forall_forall in Hl1. apply (Hl1 it'); [|exact Heq].
      apply list_elem_of_lookup. exists j. exact Hj. }
    simpl. split.
    + unfold cart_lines. simpl.
      replace (length l1) with (length l1 + 0)%nat by lia.
      rewrite insert_app_r. simpl. rewrite map_app. simpl.
      rewrite filter_app.
      rewrite no_line_of.
      * simpl. unfold CartModel.cartItem_pre_save at 1. simpl.
        rewrite filter_cons_True by reflexivity. reflexivity.
      * rewrite map_is_fmap. apply Forall_fmap.
        eapply Forall_impl; [exact Hl1|]. intros x Hx. exact Hx.
    + rewrite length_map, length_insert, length_app. unfold l1.
      rewrite length_map. simpl. lia.
Qed.

(** ** The stock route *)

(** C7 fails on the code. The validator [isInt] accepts the string ["15"]
    and leaves it a string, and [product.stock + stock] appends it to the
    digits of the stock: adding ["15"] to a stock of 10 answers with 200
    and stores 1015, not 25. *)
Theorem updateStock_add_concatenates :
  Js.isInt 0 (Js.Str "15") = true
  /\ ProductModel.stock <$> Example.catalog !! 1%N = Some 10
  /\ let out := ProductsRoutes.updateStock 1%N
                  (ProductsRoutes.mkStockRequest (Js.Str "15") (Some ProductsRoutes.OpAdd))
                  Example.catalog in
     Http.status out.2 = 200
     /\ ProductModel.stock <$> out.1 !! 1%N = Some 1015
     /\ ProductsRoutes.previousStock <$> Http.data out.2 = Some 10
     /\ ProductsRoutes.newStock <$> Http.data out.2 = Some (Js.Str "1015").
Proof. vm_compute. repeat split; reflexivity. Qed.

(** Where the amount comes as a JSON number, the three operations do what
    they are meant to do on an existing product: [set] (or none) replaces
    the stock by the given value, [add] raises it by the given amount,
    [subtract] lowers it by the given amount but not below zero; the
    request succeeds in each case, and the new stock is not negative. *)
Lemma updateStock_modes_of_numbers :
  forall (id : ObjectId) (amount : Z) (op : option ProductsRoutes.Operation)
         (ps : gmap ObjectId ProductModel.Product) (p : ProductModel.Product),
    ps !! id = Some p ->
    0 <= ProductModel.stock p ->
    0 <= amount < 10 ^ 21 ->
    let result :=
      ProductsRoutes.updateStock id (ProductsRoutes.mkStockRequest (Js.Num amount) op) ps in
    exists p',
      result.1 !! id = Some p'
      /\ Http.status result.2 = 200
      /\ (ProductsRoutes.newStock <$> Http.data result.2)
         = Some (Js.Num (ProductModel.stock p'))
      /\ (op = Some ProductsRoutes.OpSet \/ op = None -> ProductModel.stock p' = amount)
      /\ (op = Some ProductsRoutes.OpAdd ->
          ProductModel.stock p' = ProductModel.stock p + amount)
      /\ (op = Some ProductsRoutes.OpSubtract ->
          (amount <= ProductModel.stock p ->
           ProductModel.stock p' = ProductModel.stock p - amount)
          /\ (ProductModel.stock p < amount -> ProductModel.stock p' = 0))
      /\ 0 <= ProductModel.stock p'
      /\ (forall other, other <> id -> result.1 !! other = ps !! other).
Proof.
  intros id amount op ps p Hp Hstock Hamount result.
  unfold result, ProductsRoutes.updateStock. cbn [ProductsRoutes.req_stock Js.isInt].
  destruct (Z.leb_spec 0 amount) as [_|Hneg]; [|lia].
  destruct (Z.ltb_spec (Z.abs amount) (10 ^ 21)) as [_|Hbig]; [|lia]. cbn [negb andb].
  rewrite Hp.
  assert (Hcast : exists n,
    Js.castNumber
      match default ProductsRoutes.OpSet
              (ProductsRoutes.req_operation (ProductsRoutes.mkStockRequest (Js.Num amount) op))
      with
      | ProductsRoutes.OpSet => Js.Num amount
      | ProductsRoutes.OpAdd => Js.add (Js.Num (ProductModel.stock p)) (Js.Num amount)
      | ProductsRoutes.OpSubtract =>
          Js.max (Js.Num 0) (Js.sub (Js.Num (ProductModel.stock p)) (Js.Num amount))
      end = Some n
    /\ match op with
       | Some ProductsRoutes.OpAdd => n = ProductModel.stock p + amount
       | Some ProductsRoutes.OpSubtract => n = Z.max 0 (ProductModel.stock p - amount)
       | _ => n = amount
       end
    /\ match default ProductsRoutes.OpSet
              (ProductsRoutes.req_operation (ProductsRoutes.mkStockRequest (Js.Num amount) op))
       with
       | ProductsRoutes.OpSet => Js.Num amount
       | ProductsRoutes.OpAdd => Js.add (Js.Num (ProductModel.stock p)) (Js.Num amount)
       | ProductsRoutes.OpSubtract =>
           Js.max (Js.Num 0) (Js.sub (Js.Num (ProductModel.stock p)) (Js.Num amount))
       end = Js.Num n).
  { destruct op as [[]|]; simpl; eexists; repeat split. }
  destruct Hcast as (n & -> & Hn & ->). cbn [fst snd].
  eexists. split; [apply lookup_insert_eq|].
  split; [reflexivity|]. split; [reflexivity|]. simpl.
  split; [intros [-> | ->]; exact Hn|].
  split; [intros ->; exact Hn|].
  split; [intros ->; split; intros; lia|].
  split; [destruct op as [[]|]; lia|].
  intros other Hne. apply lookup_insert_ne. auto.
Qed.

(** ** Order creation *)

Section CreateFacts.
Import OrdersRoutes OrderModel.

Lemma find_active_lookup ids ps k p :
  find_active ids ps !! k = Some p <->
  ps !! k = Some p /\ k ∈ ids /\ ProductModel.isActive p = true.
Proof.
  unfold find_active. rewrite map_lookup_filter_Some. simpl. tauto.
Qed.

(** When the ids are distinct and each is an active product, the query
    finds as many products as there are ids. *)
Lemma find_active_size ids ps :
  NoDup ids ->
  (forall k, k ∈ ids -> exists p, ps !! k = Some p /\ ProductModel.isActive p = true) ->
  size (find_active ids ps) = length ids.
Proof.
  intros Hnd Hall.
  rewrite <- size_dom.
  assert (Hdom : dom (find_active ids ps) = list_to_set (C := gset ObjectId) ids).
  { apply set_eq. intros k. rewrite elem_of_dom, elem_of_list_to_set. split.
    - intros [p Hp]. apply find_active_lookup in Hp. tauto.
    - intros Hk. destruct (Hall k Hk) as (p & Hp & Ha).
      exists p. apply find_active_lookup. auto. }
  rewrite Hdom. apply size_list_to_set. exact Hnd.
Qed.

(** The map of the handler gives, for a string, the product whose id is
    printed as that string. *)
Lemma productMap_lookup found raw k p :
  productMap_of found !! raw = Some (k, p) <->
  raw = Oid.toString k /\ found !! k = Some p.
Proof.
  unfold productMap_of. rewrite lookup_kmap_Some by apply _. split.
  - intros (i & -> & H). rewrite map_lookup_imap in H.
    destruct (found !! i) as [q|] eqn:Hi; simpl in H; [|discriminate].
    injection H as <- <-. auto.
  - intros [-> H]. exists k. split; [reflexivity|].
    rewrite map_lookup_imap, H. reflexivity.
Qed.

Lemma productMap_lookup_text found k :
  productMap_of found !! Oid.toString k = (fun p => (k, p)) <$> found !! k.
Proof.
  destruct (found !! k) as [p|] eqn:Hk; simpl.
  - apply productMap_lookup. auto.
  - destruct (productMap_of found !! Oid.toString k) as [[k' p]|] eqn:H; [|reflexivity].
    apply productMap_lookup in H as [Heq H]. apply toString_inj in Heq. congruence.
Qed.

(** The ids the query is given, when every string can be cast. *)
Lemma cast_all (raws : list string) (ids : list ObjectId) :
  mapM Oid.cast raws = Some ids <-> Oid.cast <$> raws = Some <$> ids.
Proof.
  rewrite mapM_Some. split.
  - induction 1 as [|x y l k H _ IH]; [reflexivity|].
    rewrite !fmap_cons, H, IH. reflexivity.
  - revert ids. induction raws as [|x l IH]; intros [|y k] H; try discriminate.
    + constructor.
    + rewrite !fmap_cons in H. injection H as H1 H2. constructor; auto.
Qed.

(** Strings that are cast to distinct ids are distinct. *)
Lemma cast_all_NoDup raws ids :
  mapM Oid.cast raws = Some ids -> NoDup ids -> NoDup raws.
Proof.
  intros H Hnd. apply cast_all in H.
  apply (NoDup_fmap_1 Oid.cast). rewrite H. apply NoDup_fmap_2; [apply _ | exact Hnd].
Qed.

(** Strings that pass the validator and are the texts of ids are cast to
    these ids. *)
Lemma cast_all_texts (ids : list ObjectId) :
  Forall (fun k => Oid.isMongoId (Oid.toString k) = true) ids ->
  mapM Oid.cast (Oid.toString <$> ids) = Some ids.
Proof.
  intros H. apply cast_all. induction H as [|k l Hk _ IH]; [reflexivity|].
  rewrite !fmap_cons, IH, cast_valid_text by exact Hk. reflexivity.
Qed.

(** The result of the loop when it runs to its end: a line for every
    item, whose product is the one the string of the item is the text
    of, with at least the stock asked for. *)
Lemma process_items_inr found items acc sub lines subtotal :
  process_items (productMap_of found) items acc sub = inr (lines, subtotal) ->
  exists new,
    lines = acc ++ new
    /\ Forall2 (fun item line =>
                  exists p n,
                    i_product item = Oid.toString (product line)
                    /\ Js.toNumber (i_quantity item) = Some n
                    /\ found !! product line = Some p
                    /\ n <= ProductModel.stock p
                    /\ quantity line = n
                    /\ price line = ProductModel.price p
                    /\ total line = (ProductModel.price p * inject_Z n)%Q)
         items new
    /\ (subtotal == sub + Qsum (map (fun l => price l * inject_Z (quantity l)) new))%Q.
Proof.
  revert acc sub. induction items as [|item rest IH]; intros acc sub; simpl.
  - intros [= <- <-]. exists []. rewrite app_nil_r. simpl.
    repeat split; [constructor | ring].
  - destruct (productMap_of found !! i_product item) as [[k p]|] eqn:Hp; [|discriminate].
    apply productMap_lookup in Hp as [Hk Hp].
    destruct (Js.toNumber (i_quantity item)) as [n|] eqn:Hn; [|discriminate].
    unfold Js.lt. rewrite Hn. cbn [Js.toNumber].
    destruct (Z.ltb_spec (ProductModel.stock p) n); [discriminate|].
    intros H'. apply IH in H' as (new & -> & Hlines & Hsum).
    eexists (_ :: new). rewrite <- app_assoc. simpl. split; [reflexivity|].
    split.
    + constructor; [|exact Hlines]. exists p, n. simpl. auto 10.
    + rewrite Hsum. simpl. ring.
Qed.

(** The result of the loop when every item is in the map and is a
    number, and one of them asks for more than the stock. *)
Lemma process_items_shortfall found items acc sub :
  (forall item, item ∈ items ->
     exists k p n, i_product item = Oid.toString k /\ found !! k = Some p
                   /\ Js.toNumber (i_quantity item) = Some n) ->
  (exists item k p n,
     item ∈ items /\ i_product item = Oid.toString k /\ found !! k = Some p
     /\ Js.toNumber (i_quantity item) = Some n /\ ProductModel.stock p < n) ->
  exists item k p n,
    item ∈ items /\ i_product item = Oid.toString k /\ found !! k = Some p
    /\ Js.toNumber (i_quantity item) = Some n /\ ProductModel.stock p < n
    /\ process_items (productMap_of found) items acc sub
       = inl (Http.failure 400 (insufficient_stock p (i_quantity item))).
Proof.
  revert acc sub. induction items as [|item rest IH]; intros acc sub Hall Hshort.
  - destruct Hshort as (x & _ & _ & _ & Hx & _). apply elem_of_nil in Hx. contradiction.
  - simpl. destruct (Hall item) as (k & p & n & Hk & Hp & Hn); [left|].
    rewrite Hk, productMap_lookup_text, Hp, Hn. cbn [fmap option_fmap option_map].
    unfold Js.lt. rewrite Hn. cbn [Js.toNumber].
    destruct (Z.ltb_spec (ProductModel.stock p) n) as [Hlt|Hge].
    + exists item, k, p, n. repeat split; try assumption. left.
    + match goal with
      | |- context [process_items _ rest ?a ?b] =>
          destruct (IH a b) as (x & kx & px & nx & Hin & Hkx & Hlook & Hnx & Hlt & Heq)
      end.
      * intros x Hx. apply Hall. right. exact Hx.
      * destruct Hshort as (x & kx & px & nx & Hin & Hkx & Hlook & Hnx & Hlt).
        apply elem_of_cons in Hin as [-> | Hin].
        -- rewrite Hk in Hkx. apply toString_inj in Hkx. subst kx.
           rewrite Hp in Hlook. injection Hlook as <-.
           rewrite Hn in Hnx. injection Hnx as <-. lia.
        -- exists x, kx, px, nx. auto.
      * exists x, kx, px, nx. repeat split; try assumption. right. exact Hin.
Qed.

(** A response the loop returns is a rejection. *)
Lemma process_items_inl pm items acc sub r :
  process_items pm items acc sub = inl r -> Http.status r <> 201.
Proof.
  revert acc sub. induction items as [|item rest IH]; intros acc sub; simpl.
  - discriminate.
  - destruct (pm !! i_product item) as [[k p]|]; [|intros [= <-]; discriminate].
    destruct (Js.toNumber (i_quantity item)); [|intros [= <-]; discriminate].
    destruct (Js.lt _ _); [intros [= <-]; discriminate|]. apply IH.
Qed.

(** A failed creation leaves the store as it was. *)
Lemma createOrder_failure now new_id user req s :
  Http.status (createOrder now new_id user req s).2 <> 201 ->
  (createOrder now new_id user req s).1 = s.
Proof.
  unfold createOrder.
  destruct (negb (valid_request req)); [reflexivity|].
  destruct (mapM Oid.cast _) as [ids|]; [|reflexivity].
  destruct (negb (size _ =? length _)%nat); [reflexivity|].
  destruct (process_items _ _ _ _) as [r|[lines subtotal]]; [reflexivity|].
  destruct (orders s !! new_id); [reflexivity|].
  simpl. intros H. contradiction H. reflexivity.
Qed.

(** What the validators of the route let through. *)
Lemma valid_request_items req item :
  valid_request req = true -> item ∈ c_items req ->
  Oid.isMongoId (i_product item) = true
  /\ exists n, Js.toNumber (i_quantity item) = Some n /\ 1 <= n.
Proof.
  unfold valid_request. rewrite !andb_true_iff, !forallb_forall.
  intros [[[_ Hid] Hq] _] Hin. apply list_elem_of_In in Hin. split; [auto|].
  destruct (isInt_number 1 (i_quantity item) (Hq item Hin)) as (n & Hn & _ & Hle).
  eauto.
Qed.

(** The ids of a request that passes validation and writes every id as
    the database prints it. *)
Lemma texts_cast req :
  valid_request req = true ->
  (forall item, item ∈ c_items req -> exists k, i_product item = Oid.toString k) ->
  exists ids,
    map i_product (c_items req) = Oid.toString <$> ids
    /\ mapM Oid.cast (map i_product (c_items req)) = Some ids.
Proof.
  intros Hvalid Hall.
  assert (Hids : exists ids,
    map i_product (c_items req) = Oid.toString <$> ids
    /\ Forall (fun k => Oid.isMongoId (Oid.toString k) = true) ids).
  { assert (Hv : forall item, item ∈ c_items req -> Oid.isMongoId (i_product item) = true).
    { intros item Hin. apply (valid_request_items req item Hvalid Hin). }
    induction (c_items req) as [|item rest IH].
    - exists []. split; [reflexivity | constructor].
    - destruct IH as (ids & Hmap & Hok).
      + intros x Hx. apply Hall. right. exact Hx.
      + intros x Hx. apply Hv. right. exact Hx.
      + destruct (Hall item) as [k Hk]; [left|].
        exists (k :: ids). split.
        * simpl. rewrite Hk, Hmap. reflexivity.
        * constructor; [|exact Hok]. rewrite <- Hk. apply Hv. left. }
  destruct Hids as (ids & Hmap & Hok). exists ids. split; [exact Hmap|].
  rewrite Hmap. apply cast_all_texts. exact Hok.
Qed.

Lemma Forall2_and_l {A B : Type} (P : A -> B -> Prop) (Q : A -> Prop) l k :
  Forall2 P l k -> Forall Q l -> Forall2 (fun x y => P x y /\ Q x) l k.
Proof.
  induction 1 as [|x y l k H _ IH]; intros HQ; [constructor|].
  apply Forall_cons in HQ as [Hx HQ]. constructor; auto.
Qed.

(** The availability check passes exactly for distinct ids of active
    products. *)
Lemma size_list_to_set_le (l : list ObjectId) :
  (size (list_to_set (C := gset ObjectId) l) <= length l)%nat
  /\ (size (list_to_set (C := gset ObjectId) l) = length l -> NoDup l).
Proof.
  induction l as [|x l [IHle IHnd]].
  - split; [reflexivity | intros _; apply NoDup_nil; exact I].
  - rewrite list_to_set_cons. cbn [length].
    destruct (decide (x ∈ l)) as [Hin|Hnot].
    + assert (Heq : {[x]} ∪ list_to_set l = list_to_set (C := gset ObjectId) l).
      { apply set_eq. intros y. rewrite elem_of_union, elem_of_singleton.
        rewrite elem_of_list_to_set. split; [intros [->|H]; assumption | auto]. }
      rewrite Heq. split; [lia|]. intros H. lia.
    + rewrite size_union, size_singleton.
      * split; [lia|]. intros H. apply NoDup_cons. split; [exact Hnot|].
        apply IHnd. lia.
      * intros y Hy1 Hy2. apply elem_of_singleton in Hy1. subst y.
        apply elem_of_list_to_set in Hy2. contradiction.
Qed.

Lemma find_active_dom ids ps :
  dom (find_active ids ps) ⊆ list_to_set (C := gset ObjectId) ids.
Proof.
  intros k Hk. apply elem_of_dom in Hk as [p Hp].
  apply find_active_lookup in Hp. apply elem_of_list_to_set. tauto.
Qed.

Lemma find_active_size_iff ids ps :
  size (find_active ids ps) = length ids <->
  NoDup ids
  /\ forall k, k ∈ ids -> exists p, ps !! k = Some p /\ ProductModel.isActive p = true.
Proof.
  split; [|intros [Hnd Hall]; apply find_active_size; assumption].
  intros Hsize. rewrite <- size_dom in Hsize.
  pose proof (subseteq_size _ _ (find_active_dom ids ps)) as Hle.
  destruct (size_list_to_set_le ids) as [Hle' Hnd].
  split; [apply Hnd; lia|].
  assert (Heq : dom (find_active ids ps) = list_to_set (C := gset ObjectId) ids).
  { apply set_subseteq_size_eq; [apply find_active_dom | lia]. }
  intros k Hk.
  assert (Hd : k ∈ dom (find_active ids ps)).
  { rewrite Heq. apply elem_of_list_to_set. exact Hk. }
  apply elem_of_dom in Hd as [p Hp]. apply find_active_lookup in Hp.
  exists p. tauto.
Qed.

(** The store and the order a successful creation leaves, and what the
    success tells about the request and the store. *)
Lemma createOrder_success now new_id user req s :
  Http.status (createOrder now new_id user req s).2 = 201 ->
  exists order,
    createOrder now new_id user req s
    = ({| products := reserve_stock (c_items req) (products s);
          orders := <[new_id := order]> (orders s);
          fromCartRoutes := S (fromCartRoutes s) |},
       Http.mkResponse 201 true (Some "Order created successfully") None
         (Some (OrderData new_id order)))
    /\ valid_request req = true
    /\ orders s !! new_id = None
    /\ NoDup (map i_product (c_items req))
    /\ customer order = id user
    /\ status order = pending
    /\ Forall2 (fun item line =>
                  line_of (products s) item line
                  /\ 1 <= quantity line
                  /\ exists p, products s !! product line = Some p
                               /\ ProductModel.isActive p = true
                               /\ quantity line <= ProductModel.stock p)
         (c_items req) (items order)
    /\ (subtotal order
        == Qsum (map (fun l => price l * inject_Z (quantity l)) (items order)))%Q
    /\ taxAmount order = (subtotal order * default 0.08 (c_taxRate req))%Q
    /\ shippingCost order = default 0%Q (c_shippingCost req)
    /\ totalAmount order = (subtotal order + taxAmount order + shippingCost order)%Q.
Proof.
  unfold createOrder.
  destruct (valid_request req) eqn:Hvalid; [|discriminate]. cbn [negb].
  destruct (mapM Oid.cast _) as [ids|] eqn:Hcast; [|discriminate].
  destruct (size _ =? length _)%nat eqn:Hsize; [|discriminate]. cbn [negb].
  destruct (process_items _ _ _ _) as [r|[lines sub]] eqn:Hloop.
  { intros H. apply process_items_inl in Hloop. contradiction. }
  destruct (orders s !! new_id) eqn:Hfresh; [discriminate|].
  intros _. eexists. split; [reflexivity|].
  cbn [customer status items subtotal taxAmount shippingCost totalAmount].
  apply Nat.eqb_eq in Hsize.
  pose proof Hcast as Hcast'. apply cast_all in Hcast'.
  assert (Hlen : length ids = length (map i_product (c_items req))).
  { rewrite <- (length_fmap Some ids), <- Hcast', length_fmap. reflexivity. }
  assert (Hsize' : size (find_active ids (products s)) = length ids).
  { rewrite Hsize, Hlen. reflexivity. }
  apply find_active_size_iff in Hsize' as [Hnd Hactive].
  split; [reflexivity|]. split; [reflexivity|].
  split; [eapply cast_all_NoDup; eassumption|].
  split; [reflexivity|]. split; [reflexivity|].
  apply process_items_inr in Hloop as (new & -> & Hlines & Hsum).
  cbn [items subtotal taxAmount shippingCost totalAmount app].
  split; [|split; [rewrite Hsum; ring | repeat split]].
  assert (Hitems : Forall (fun item =>
            (exists k, Oid.cast (i_product item) = Some k)
            /\ exists n, Js.toNumber (i_quantity item) = Some n /\ 1 <= n) (c_items req)).
  { apply Forall_forall. intros item Hin. split.
    - assert (Hc : Oid.cast (i_product item) ∈ Some <$> ids).
      { rewrite <- Hcast'. apply list_elem_of_fmap. exists (i_product item).
        split; [reflexivity|]. rewrite map_is_fmap. apply list_elem_of_fmap. eauto. }
      apply list_elem_of_fmap in Hc as (k & Hk & _). eauto.
    - apply (valid_request_items req item Hvalid Hin). }
  eapply Forall2_impl; [apply (Forall2_and_l _ _ _ _ Hlines Hitems)|].
  intros item line [(p & n & Hk & Hn & Hp & Hle & Hq & Hpr & Ht)
                      [[k Hcastk] (n' & Hn' & Hone)]].
  rewrite Hn in Hn'. injection Hn' as <-.
  rewrite Hk in Hcastk. pose proof (cast_toString_inv _ _ Hcastk) as ->.
  apply find_active_lookup in Hp as (Hp & _ & Ha).
  split; [|split; [lia | exists p; split; [exact Hp|]; split; [exact Ha | lia]]].
  exists (product line), p, n. rewrite Hk. auto 10.
Qed.

End CreateFacts.

(** C1, as the code has it. A creation that fails changes no stock and
    creates no order. When the request passes validation and its items
    name distinct, existing, active products, each by the text of its id
    as the database prints it, and some item asks for more than the stock
    of its product, the creation fails with the insufficient-stock message
    naming such a product, its stock and the quantity asked for. *)
Theorem createOrder_all_or_nothing :
  forall (now : Z) (new_id : ObjectId) (user : OrdersRoutes.AuthUser)
         (req : OrdersRoutes.CreateRequest) (s : OrdersRoutes.Store),
    (Http.status (OrdersRoutes.createOrder now new_id user req s).2 <> 201 ->
     (OrdersRoutes.createOrder now new_id user req s).1 = s)
    /\ (OrdersRoutes.valid_request req = true ->
        NoDup (map OrdersRoutes.i_product (OrdersRoutes.c_items req)) ->
        (forall item, item ∈ OrdersRoutes.c_items req ->
           exists k p, OrdersRoutes.i_product item = Oid.toString k
                       /\ OrdersRoutes.products s !! k = Some p
                       /\ ProductModel.isActive p = true) ->
        (exists item k p n,
           item ∈ OrdersRoutes.c_items req
           /\ OrdersRoutes.i_product item = Oid.toString k
           /\ OrdersRoutes.products s !! k = Some p
           /\ Js.toNumber (OrdersRoutes.i_quantity item) = Some n
           /\ ProductModel.stock p < n) ->
        exists item k p n,
          item ∈ OrdersRoutes.c_items req
          /\ OrdersRoutes.i_product item = Oid.toString k
          /\ OrdersRoutes.products s !! k = Some p
          /\ Js.toNumber (OrdersRoutes.i_quantity item) = Some n
          /\ ProductModel.stock p < n
          /\ OrdersRoutes.createOrder now new_id user req s
             = (s, Http.failure 400
                     (OrdersRoutes.insufficient_stock p (OrdersRoutes.i_quantity item)))).
Proof.
  intros now new_id user req s. split; [apply createOrder_failure|].
  intros Hvalid Hnd Hall Hshort.
  destruct (texts_cast req Hvalid) as (ids & Hmap & Hcast).
  { intros item Hin. destruct (Hall item Hin) as (k & _ & Hk & _). eauto. }
  set (found := OrdersRoutes.find_active ids (OrdersRoutes.products s)).
  assert (Hids : forall item k, item ∈ OrdersRoutes.c_items req ->
                                OrdersRoutes.i_product item = Oid.toString k -> k ∈ ids).
  { intros item k Hin Hk.
    assert (Hraw : OrdersRoutes.i_product item ∈ map OrdersRoutes.i_product
                                                     (OrdersRoutes.c_items req)).
    { rewrite map_is_fmap. apply list_elem_of_fmap. eauto. }
    rewrite Hmap, Hk in Hraw. apply list_elem_of_fmap in Hraw as (k' & Heq & Hk').
    apply toString_inj in Heq. subst k'. exact Hk'. }
  assert (Hfound : forall item k p, item ∈ OrdersRoutes.c_items req ->
              OrdersRoutes.i_product item = Oid.toString k ->
              OrdersRoutes.products s !! k = Some p ->
              found !! k = Some p).
  { intros item k p Hin Hk Hp. apply find_active_lookup. split; [exact Hp|].
    split; [eapply Hids; eassumption|].
    destruct (Hall item Hin) as (k' & p' & Hk' & Hp' & Ha).
    rewrite Hk in Hk'. apply toString_inj in Hk'. subst k'. congruence. }
  destruct (process_items_shortfall found (OrdersRoutes.c_items req) [] 0%Q)
    as (item & k & p & n & Hin & Hk & Hlook & Hn & Hlt & Hloop).
  - intros item Hin. destruct (Hall item Hin) as (k & p & Hk & Hp & _).
    destruct (valid_request_items req item Hvalid Hin) as (_ & n & Hn & _).
    exists k, p, n. split; [exact Hk|]. split; [|exact Hn].
    eapply Hfound; eassumption.
  - destruct Hshort as (item & k & p & n & Hin & Hk & Hp & Hn & Hlt).
    exists item, k, p, n. split; [exact Hin|]. split; [exact Hk|].
    split; [eapply Hfound; eassumption|]. auto.
  - exists item, k, p, n. apply find_active_lookup in Hlook as Hlook'.
    split; [exact Hin|]. split; [exact Hk|]. split; [tauto|].
    split; [exact Hn|]. split; [exact Hlt|].
    unfold OrdersRoutes.createOrder. rewrite Hvalid, Hcast. cbn [negb].
    rewrite find_active_size.
    + rewrite Hmap, length_fmap, Nat.eqb_refl. cbn [negb]. fold found.
      rewrite Hloop. reflexivity.
    + apply (NoDup_fmap_1 Oid.toString). rewrite <- Hmap. exact Hnd.
    + intros k' Hk'.
      assert (Hraw : Oid.toString k' ∈ map OrdersRoutes.i_product
                                         (OrdersRoutes.c_items req)).
      { rewrite Hmap. apply list_elem_of_fmap. eauto. }
      rewrite map_is_fmap in Hraw. apply list_elem_of_fmap in Hraw as (item' & Heq & Hin').
      destruct (Hall item' Hin') as (k'' & p'' & Hk'' & Hp'' & Ha).
      rewrite <- Heq in Hk''. apply toString_inj in Hk''. subst k''. eauto.
Qed.


(** C5. A created order holds, for each requested item, a line with the
    price of the product in the catalog at that time; its subtotal is the
    sum over the lines of price times quantity, its tax is the subtotal
    times the tax rate, its total is subtotal plus tax plus shipping cost;
    a request without tax rate is taxed at 0.08 and one without shipping
    cost ships for 0. *)
Theorem createOrder_totals :
  forall (now : Z) (new_id : ObjectId) (user : OrdersRoutes.AuthUser)
         (req : OrdersRoutes.CreateRequest) (s : OrdersRoutes.Store),
    Http.status (OrdersRoutes.createOrder now new_id user req s).2 = 201 ->
    exists order,
      Http.data (OrdersRoutes.createOrder now new_id user req s).2
      = Some (OrdersRoutes.OrderData new_id order)
      /\ OrdersRoutes.orders (OrdersRoutes.createOrder now new_id user req s).1 !! new_id
         = Some order
      /\ Forall2 (line_of (OrdersRoutes.products s))
           (OrdersRoutes.c_items req) (OrderModel.items order)
      /\ (OrderModel.subtotal order
          == Qsum (map (fun l => OrderModel.price l * inject_Z (OrderModel.quantity l))
                       (OrderModel.items order)))%Q
      /\ OrderModel.taxAmount order
         = (OrderModel.subtotal order * default 0.08 (OrdersRoutes.c_taxRate req))%Q
      /\ OrderModel.shippingCost order = default 0%Q (OrdersRoutes.c_shippingCost req)
      /\ OrderModel.totalAmount order
         = (OrderModel.subtotal order + OrderModel.taxAmount order
            + OrderModel.shippingCost order)%Q
      /\ (OrdersRoutes.c_taxRate req = None ->
          OrderModel.taxAmount order = (OrderModel.subtotal order * 0.08)%Q)
      /\ (OrdersRoutes.c_shippingCost req = None -> OrderModel.shippingCost order = 0%Q).
Proof.
  intros now new_id user req s Hcreated.
  destruct (createOrder_success now new_id user req s Hcreated)
    as (order & Heq & _ & _ & _ & _ & _ & Hlines & Hsum & Htax & Hship & Htotal).
  rewrite Heq. cbn [fst snd Http.data OrdersRoutes.orders].
  exists order. split; [reflexivity|]. split; [apply lookup_insert_eq|].
  split.
  { eapply Forall2_impl; [exact Hlines|]. intros item line [Hline _]. exact Hline. }
  split; [exact Hsum|]. split; [exact Htax|]. split; [exact Hship|].
  split; [exact Htotal|].
  split; intros Hnone; [rewrite Htax, Hnone | rewrite Hship, Hnone]; reflexivity.
Qed.

(** ** Reserving and releasing stock *)

Section StockFacts.
Import OrdersRoutes OrderModel.

Lemma inc_stock_lookup id d (ps : gmap ObjectId ProductModel.Product) k :
  ProductModel.inc_stock id d ps !! k
  = if decide (id = k)
    then (fun p => ProductModel.set_stock p (ProductModel.stock p + d)) <$> ps !! k
    else ps !! k.
Proof.
  unfold ProductModel.inc_stock. destruct (decide (id = k)) as [->|Hne].
  - apply lookup_alter_eq.
  - apply lookup_alter_ne. exact Hne.
Qed.

Lemma reserved_cons item rest k :
  reserved k (item :: rest) = asked k item + reserved k rest.
Proof. reflexivity. Qed.

Lemma held_cons line rest k :
  held k (line :: rest)
  = (if decide (product line = k) then quantity line else 0) + held k rest.
Proof.
  unfold held. rewrite filter_cons.
  destruct (decide (product line = k)); simpl; lia.
Qed.

(** After the reservation loop, every product has lost the units the
    items ask of it. *)
Lemma reserve_stock_lookup items ps k :
  reserve_stock items ps !! k
  = (fun p => ProductModel.set_stock p (ProductModel.stock p - reserved k items))
      <$> ps !! k.
Proof.
  revert ps. induction items as [|item rest IH]; intros ps.
  - simpl. destruct (ps !! k) as [[n pr st a]|]; simpl; [|reflexivity].
    unfold ProductModel.set_stock, reserved. simpl. do 2 f_equal; lia.
  - unfold reserve_stock in *. cbn [fold_left]. rewrite IH, reserved_cons.
    unfold asked.
    destruct (Oid.cast (i_product item)) as [k'|];
      [destruct (Js.toNumber (i_quantity item)) as [n|]|].
    + rewrite inc_stock_lookup. destruct (decide (k' = k)).
      * destruct (ps !! k) as [p|]; simpl; [|reflexivity].
        unfold ProductModel.set_stock. simpl. do 2 f_equal; lia.
      * destruct (ps !! k) as [p|]; simpl; [|reflexivity].
        do 2 f_equal; lia.
    + destruct (ps !! k) as [p|]; simpl; [|reflexivity]. do 2 f_equal; lia.
    + destruct (ps !! k) as [p|]; simpl; [|reflexivity]. do 2 f_equal; lia.
Qed.

(** After the restoring loop, every product has gained the units the
    lines of the order hold of it. *)
Lemma restore_stock_lookup lines ps k :
  restore_stock lines ps !! k
  = (fun p => ProductModel.set_stock p (ProductModel.stock p + held k lines))
      <$> ps !! k.
Proof.
  revert ps. induction lines as [|line rest IH]; intros ps.
  - simpl. destruct (ps !! k) as [[n pr st a]|]; simpl; [|reflexivity].
    unfold ProductModel.set_stock, held. simpl. do 2 f_equal; lia.
  - unfold restore_stock in *. simpl. rewrite IH, inc_stock_lookup, held_cons.
    destruct (decide (product line = k)).
    + destruct (ps !! k) as [p|]; simpl; [|reflexivity].
      unfold ProductModel.set_stock. simpl. do 2 f_equal; lia.
    + destruct (ps !! k) as [p|]; simpl; [|reflexivity].
      do 2 f_equal; lia.
Qed.

(** The lines of an order hold what its items asked for. *)
Lemma held_reserved ps items lines k :
  Forall2 (line_of ps) items lines -> held k lines = reserved k items.
Proof.
  induction 1 as [|item line items lines
                    (k' & p & n & _ & Hcast & Hn & _ & Hp & Hq & _) _ IH].
  - reflexivity.
  - rewrite held_cons, reserved_cons, IH. unfold asked.
    rewrite Hcast, Hn, Hp, Hq. reflexivity.
Qed.

Lemma total_held ps items lines :
  Forall2 (line_of ps) items lines ->
  quantities items = Some (map quantity lines).
Proof.
  intros H. apply mapM_Some.
  induction H as [|item line items lines
                    (k' & p & n & _ & _ & Hn & _ & _ & Hq & _) _ IH].
  - constructor.
  - simpl. constructor; [congruence | exact IH].
Qed.

(** Releasing what was reserved gives the products back as they were. *)
Lemma restore_reserve ps items lines :
  Forall2 (line_of ps) items lines ->
  restore_stock lines (reserve_stock items ps) = ps.
Proof.
  intros H. apply map_eq. intros k.
  rewrite restore_stock_lookup, reserve_stock_lookup, (held_reserved ps items lines k H).
  destruct (ps !! k) as [[n pr st a]|]; simpl; [|reflexivity].
  unfold ProductModel.set_stock. simpl. do 2 f_equal; lia.
Qed.

End StockFacts.
(** C3. The lines of a created order hold, in total and product by
    product, the units its creation has taken from the stock. Whenever the
    order is later cancelled, while it is not yet cancelled and through
    either cancelling route, every product gets back exactly the units
    reserved for it; and when the cancellation follows the creation, the
    stock of every product is back at its value before the order. *)
Theorem cancel_releases_what_was_reserved :
  forall (now : Z) (new_id : ObjectId) (user : OrdersRoutes.AuthUser)
         (req : OrdersRoutes.CreateRequest) (s : OrdersRoutes.Store),
    Http.status (OrdersRoutes.createOrder now new_id user req s).2 = 201 ->
    let s1 := (OrdersRoutes.createOrder now new_id user req s).1 in
    exists order,
      OrdersRoutes.orders s1 !! new_id = Some order
      /\ Zsum <$> quantities (OrdersRoutes.c_items req)
         = Some (Zsum (map OrderModel.quantity (OrderModel.items order)))
      /\ (forall k, held k (OrderModel.items order)
                    = reserved k (OrdersRoutes.c_items req))
      /\ (forall k p,
            OrdersRoutes.products s !! k = Some p ->
            ProductModel.stock <$> OrdersRoutes.products s1 !! k
            = Some (ProductModel.stock p - reserved k (OrdersRoutes.c_items req)))
      /\ (forall now' who reason s' order',
            OrdersRoutes.orders s' !! new_id = Some order' ->
            OrderModel.items order' = OrderModel.items order ->
            let out := OrdersRoutes.cancelOrder now' who new_id reason s' in
            Http.status out.2 = 200 ->
            forall k p,
              OrdersRoutes.products s' !! k = Some p ->
              ProductModel.stock <$> OrdersRoutes.products out.1 !! k
              = Some (ProductModel.stock p + reserved k (OrdersRoutes.c_items req)))
      /\ (forall now' tracking reason s' order',
            OrdersRoutes.orders s' !! new_id = Some order' ->
            OrderModel.items order' = OrderModel.items order ->
            let out := OrdersRoutes.updateOrderStatus now' new_id
                         (OrdersRoutes.mkStatusRequest OrderModel.cancelled tracking reason)
                         s' in
            forall k p,
              OrdersRoutes.products s' !! k = Some p ->
              ProductModel.stock <$> OrdersRoutes.products out.1 !! k
              = Some (ProductModel.stock p + reserved k (OrdersRoutes.c_items req)))
      /\ (forall now' who reason,
            OrdersRoutes.is_admin who = true \/ OrdersRoutes.id who = OrdersRoutes.id user ->
            let out := OrdersRoutes.cancelOrder now' who new_id reason s1 in
            Http.status out.2 = 200
            /\ OrderModel.status <$> OrdersRoutes.orders out.1 !! new_id
               = Some OrderModel.cancelled
            /\ OrdersRoutes.products out.1 = OrdersRoutes.products s)
      /\ (forall now' tracking reason,
            let out := OrdersRoutes.updateOrderStatus now' new_id
                         (OrdersRoutes.mkStatusRequest OrderModel.cancelled tracking reason)
                         s1 in
            Http.status out.2 = 200
            /\ OrderModel.status <$> OrdersRoutes.orders out.1 !! new_id
               = Some OrderModel.cancelled
            /\ OrdersRoutes.products out.1 = OrdersRoutes.products s).
Proof.
  intros now new_id user req s Hcreated s1.
  destruct (createOrder_success now new_id user req s Hcreated)
    as (order & Hs1 & _ & _ & _ & Hcust & Hpending & Hlines' & _).
  assert (Hlines : Forall2 (line_of (OrdersRoutes.products s))
                     (OrdersRoutes.c_items req) (OrderModel.items order)).
  { eapply Forall2_impl; [exact Hlines'|]. intros item line [Hline _]. exact Hline. }
  clear Hlines'. unfold s1. rewrite Hs1. clear s1 Hs1. simpl.
  exists order. split; [apply lookup_insert_eq|].
  split; [rewrite (total_held _ _ _ Hlines); reflexivity|].
  split; [intros k; eapply held_reserved; exact Hlines|].
  split.
  { intros k p Hp. rewrite reserve_stock_lookup, Hp. reflexivity. }
  split.
  { intros now' who reason s' order' Horder' Hitems.
    unfold OrdersRoutes.cancelOrder, OrdersRoutes.findOne. rewrite Horder'.
    destruct (OrdersRoutes.matches _ order'); [|discriminate].
    destruct (bool_decide _); [discriminate|]. simpl.
    intros _ k p Hp.
    rewrite restore_stock_lookup, Hp, Hitems, (held_reserved _ _ _ k Hlines).
    reflexivity. }
  split.
  { intros now' tracking reason s' order' Horder' Hitems.
    unfold OrdersRoutes.updateOrderStatus. rewrite Horder'. simpl.
    intros k p Hp.
    rewrite restore_stock_lookup, Hp, Hitems, (held_reserved _ _ _ k Hlines).
    reflexivity. }
  split.
  - intros now' who reason Hwho.
    unfold OrdersRoutes.cancelOrder, OrdersRoutes.findOne. simpl.
    rewrite lookup_insert_eq.
    assert (Hm : OrdersRoutes.matches
                   {| OrdersRoutes.q_customer :=
                        if OrdersRoutes.is_admin who then None
                        else Some (OrdersRoutes.id who);
                      OrdersRoutes.q_status :=
                        if OrdersRoutes.is_admin who then None
                        else Some OrderModel.pending;
                      OrdersRoutes.q_paymentStatus := None;
                      OrdersRoutes.q_createdAt_gte := None;
                      OrdersRoutes.q_createdAt_lte := None |} order = true).
    { unfold OrdersRoutes.matches. simpl.
      destruct (OrdersRoutes.is_admin who) eqn:Hadm; simpl; [reflexivity|].
      destruct Hwho as [Hw|Hw]; [discriminate|].
      rewrite Hcust, Hw, Hpending, !bool_decide_eq_true_2 by reflexivity. reflexivity. }
    rewrite Hm, Hpending. simpl.
    split; [reflexivity|]. split; [rewrite lookup_insert_eq; reflexivity|].
    eapply restore_reserve. exact Hlines.
  - intros now' tracking reason.
    unfold OrdersRoutes.updateOrderStatus. simpl. rewrite lookup_insert_eq. simpl.
    split; [reflexivity|]. split; [rewrite lookup_insert_eq; reflexivity|].
    eapply restore_reserve. exact Hlines.
Qed.

(** ** The status of an order *)



(** C4, as stated, fails twice on the cancelled order of the example: its
    owner, cancelling again, is told that the order is not found; and the
    status route accepts a second cancellation and releases the three
    units of the first product once more. *)
Lemma second_cancellation_not_refused_as_such :
  OrderModel.status <$> OrdersRoutes.orders Example.was_cancelled !! 50%N
  = Some OrderModel.cancelled
  /\ ProductModel.stock <$> OrdersRoutes.products Example.was_cancelled !! 1%N = Some 10
  /\ (OrdersRoutes.cancelOrder 300 Example.ada 50%N None Example.was_cancelled).2
     = Http.failure 404 "Order not found or cannot be cancelled"
  /\ let out := OrdersRoutes.updateOrderStatus 300 50%N
                  (OrdersRoutes.mkStatusRequest OrderModel.cancelled None None)
                  Example.was_cancelled in
     Http.status out.2 = 200
     /\ ProductModel.stock <$> OrdersRoutes.products out.1 !! 1%N = Some 13.
Proof. vm_compute. repeat split; reflexivity. Qed.

(** C4, as the code has it. Cancelling a cancelled order through the cancel
    route fails and changes nothing: an administrator is told that the
    order is already cancelled, any other caller that it is not found or
    cannot be cancelled. *)
Theorem cancelOrder_refuses_cancelled_order :
  forall (now : Z) (who : OrdersRoutes.AuthUser) (order_id : ObjectId)
         (reason : option string) (s : OrdersRoutes.Store) (order : OrderModel.Order),
    OrdersRoutes.orders s !! order_id = Some order ->
    OrderModel.status order = OrderModel.cancelled ->
    OrdersRoutes.cancelOrder now who order_id reason s
    = (s, if OrdersRoutes.is_admin who
          then Http.failure 400 "Order is already cancelled"
          else Http.failure 404 "Order not found or cannot be cancelled").
Proof.
  intros now who order_id reason s order Horder Hst.
  unfold OrdersRoutes.cancelOrder, OrdersRoutes.findOne. rewrite Horder.
  unfold OrdersRoutes.matches. simpl.
  destruct (OrdersRoutes.is_admin who); simpl.
  - rewrite Hst. reflexivity.
  - rewrite Hst. rewrite (bool_decide_eq_false_2 (OrderModel.cancelled = OrderModel.pending))
      by discriminate.
    rewrite andb_false_r. reflexivity.
Qed.

(** C9. A caller who is not an administrator and asks to cancel an order
    of another customer, pending or not, or an order of their own that is
    no longer pending, gets the very response a request for an order that
    does not exist gets, and nothing changes. *)
Theorem cancel_rejections_are_indistinguishable :
  forall (now : Z) (who : OrdersRoutes.AuthUser) (order_id : ObjectId)
         (reason : option string) (s s' : OrdersRoutes.Store) (order : OrderModel.Order),
    OrdersRoutes.is_admin who = false ->
    OrdersRoutes.orders s !! order_id = Some order ->
    OrderModel.customer order <> OrdersRoutes.id who
      \/ OrderModel.status order <> OrderModel.pending ->
    OrdersRoutes.orders s' !! order_id = None ->
    (OrdersRoutes.cancelOrder now who order_id reason s).2
    = (OrdersRoutes.cancelOrder now who order_id reason s').2
    /\ OrdersRoutes.cancelOrder now who order_id reason s
       = (s, Http.failure 404 "Order not found or cannot be cancelled")
    /\ OrdersRoutes.cancelOrder now who order_id reason s'
       = (s', Http.failure 404 "Order not found or cannot be cancelled").
Proof.
  intros now who order_id reason s s' order Hwho Horder Hother Hnone.
  assert (H1 : OrdersRoutes.cancelOrder now who order_id reason s
               = (s, Http.failure 404 "Order not found or cannot be cancelled")).
  { unfold OrdersRoutes.cancelOrder, OrdersRoutes.findOne. rewrite Horder, Hwho.
    unfold OrdersRoutes.matches. simpl.
    destruct Hother as [Hc|Hp].
    - rewrite (bool_decide_eq_false_2 _ Hc). reflexivity.
    - rewrite (bool_decide_eq_false_2 _ Hp), andb_false_r. reflexivity. }
  assert (H2 : OrdersRoutes.cancelOrder now who order_id reason s'
               = (s', Http.failure 404 "Order not found or cannot be cancelled")).
  { unfold OrdersRoutes.cancelOrder, OrdersRoutes.findOne. rewrite Hnone. reflexivity. }
  rewrite H1, H2. auto.
Qed.

(** ** Reading orders *)

Section ReadFacts.
Import OrdersRoutes OrderModel.

Lemma insert_sorted_elem {A : Type} (leb : A -> A -> bool) (x y : A) (l : list A) :
  x ∈ insert_sorted leb y l -> x = y \/ x ∈ l.
Proof.
  induction l as [|z l IH]; simpl.
  - intros H. apply list_elem_of_singleton in H. auto.
  - destruct (leb y z).
    + intros H. apply elem_of_cons in H. exact H.
    + intros H. apply elem_of_cons in H as [->|H].
      * right. left.
      * destruct (IH H) as [->|Hl]; [auto|]. right. right. exact Hl.
Qed.

Lemma sort_elem {A : Type} (leb : A -> A -> bool) (x : A) (l : list A) :
  x ∈ sort leb l -> x ∈ l.
Proof.
  unfold sort. induction l as [|y l IH]; simpl.
  - intros H. exact H.
  - intros H. apply insert_sorted_elem in H as [->|H]; [left|right; auto].
Qed.

Lemma sort_docs_elem sortBy ascending d l :
  d ∈ sort_docs sortBy ascending l -> d ∈ l.
Proof. unfold sort_docs. destruct ascending; apply sort_elem. Qed.

Lemma apply_limit_elem {A : Type} (n : Z) (x : A) (l : list A) :
  x ∈ apply_limit n l -> x ∈ l.
Proof.
  unfold apply_limit. destruct (n =? 0); [auto|]. apply subseteq_take.
Qed.

Lemma find_elem q os d :
  d ∈ find q os -> os !! d.1 = Some d.2 /\ matches q d.2 = true.
Proof.
  unfold find. rewrite list_elem_of_In, filter_In, <- list_elem_of_In.
  intros [Hin Hm]. split; [|exact Hm].
  destruct d as [k o]. apply elem_of_map_to_list in Hin. exact Hin.
Qed.

Lemma matches_customer q o c :
  q_customer q = Some c -> matches q o = true -> customer o = c.
Proof.
  unfold matches. intros ->. simpl. rewrite !andb_true_iff.
  intros [[[[H _] _] _] _]. apply bool_decide_eq_true in H. exact H.
Qed.

End ReadFacts.

(** C10. For a caller who is not an administrator: asking for an order of
    another customer gives the response asking for an order that does not
    exist gives; an order the caller is given is in the store and is the
    caller's own; and every order of a listing is in the store and is the
    caller's own, whatever the filters, the sorting and the page asked
    for. *)
Theorem orders_are_scoped_to_the_caller :
  forall (who : OrdersRoutes.AuthUser),
    OrdersRoutes.is_admin who = false ->
    (forall order_id s s' order,
        OrdersRoutes.orders s !! order_id = Some order ->
        OrderModel.customer order <> OrdersRoutes.id who ->
        OrdersRoutes.orders s' !! order_id = None ->
        OrdersRoutes.getOrder who order_id s = OrdersRoutes.getOrder who order_id s'
        /\ OrdersRoutes.getOrder who order_id s = Http.failure 404 "Order not found")
    /\ (forall order_id s k order,
          Http.data (OrdersRoutes.getOrder who order_id s)
          = Some (OrdersRoutes.OrderData k order) ->
          k = order_id
          /\ OrdersRoutes.orders s !! order_id = Some order
          /\ OrderModel.customer order = OrdersRoutes.id who)
    /\ (forall req s found pagination,
          Http.data (OrdersRoutes.listOrders who req s)
          = Some (OrdersRoutes.OrdersData found pagination) ->
          forall d, d ∈ found ->
            OrdersRoutes.orders s !! d.1 = Some d.2
            /\ OrderModel.customer d.2 = OrdersRoutes.id who).
Proof.
  intros who Hwho. split; [|split].
  - intros order_id s s' order Horder Hother Hnone.
    unfold OrdersRoutes.getOrder, OrdersRoutes.findOne.
    rewrite Horder, Hnone, Hwho. unfold OrdersRoutes.matches. simpl.
    rewrite (bool_decide_eq_false_2 _ Hother). simpl. split; reflexivity.
  - intros order_id s k order.
    unfold OrdersRoutes.getOrder, OrdersRoutes.findOne. rewrite Hwho.
    destruct (OrdersRoutes.orders s !! order_id) as [o|]; [|discriminate].
    destruct (OrdersRoutes.matches _ o) eqn:Hm; [|discriminate].
    simpl. intros [= <- <-]. split; [reflexivity|]. split; [reflexivity|].
    eapply matches_customer; [|exact Hm]. reflexivity.
  - intros req s found pagination. unfold OrdersRoutes.listOrders. rewrite Hwho.
    destruct (_ <? 0); [discriminate|]. simpl.
    intros [= <- _] d Hd.
    apply apply_limit_elem in Hd. apply subseteq_drop in Hd.
    apply sort_docs_elem in Hd. apply find_elem in Hd as [Hlook Hm].
    split; [exact Hlook|]. eapply matches_customer; [|exact Hm]. reflexivity.
Qed.

(** ** The properties on the running example *)

(** C1 fails as stated: a request that asks for more bread than there is
    is answered with the message of the availability check, not with the
    insufficient-stock message, when it also names a product that is not
    active, and when it names the same product twice; and it is answered
    that a product was not found when it also names an active product by
    its id in capitals. *)
Lemma shortfall_not_reported_as_such :
  OrdersRoutes.products Example.shop !! 2%N = Some Example.bread
  /\ ProductModel.stock Example.bread < 1000
  /\ (OrdersRoutes.createOrder 100 50%N Example.ada
        (Example.request [Example.item 3%N 1; Example.item 2%N 1000]) Example.shop).2
     = Http.failure 400 "One or more products are not available"
  /\ (OrdersRoutes.createOrder 100 50%N Example.ada
        (Example.request [Example.item 2%N 1000; Example.item 2%N 1]) Example.shop).2
     = Http.failure 400 "One or more products are not available"
  /\ OrdersRoutes.valid_request
       (Example.request [OrdersRoutes.mkItemRequest Example.KALE_ID (Js.Num 1);
                         Example.item 2%N 1000]) = true
  /\ (OrdersRoutes.createOrder 100 50%N Example.ada
        (Example.request [OrdersRoutes.mkItemRequest Example.KALE_ID (Js.Num 1);
                          Example.item 2%N 1000]) Example.shop).2
     = Http.failure 400 "Product not found: 0000000000000000000000AB".
Proof. vm_compute. repeat split; reflexivity. Qed.

Lemma createOrder_all_or_nothing_witness :
  exists item k p n,
    item ∈ [Example.item 1%N 3; Example.item 2%N 1000]
    /\ OrdersRoutes.i_product item = Oid.toString k
    /\ OrdersRoutes.products Example.shop !! k = Some p
    /\ Js.toNumber (OrdersRoutes.i_quantity item) = Some n
    /\ ProductModel.stock p < n
    /\ OrdersRoutes.createOrder 100 50%N Example.ada
         (Example.request [Example.item 1%N 3; Example.item 2%N 1000]) Example.shop
       = (Example.shop,
          Http.failure 400
            (OrdersRoutes.insufficient_stock p (OrdersRoutes.i_quantity item))).
Proof.
  apply (proj2 (createOrder_all_or_nothing 100 50%N Example.ada
                  (Example.request [Example.item 1%N 3; Example.item 2%N 1000])
                  Example.shop)).
  - reflexivity.
  - apply (bool_decide_unpack
             (NoDup [Oid.toString 1%N; Oid.toString 2%N])). vm_compute. exact I.
  - intros item Hin. simpl in Hin.
    apply elem_of_cons in Hin as [->|Hin];
      [exists 1%N, Example.apples; repeat split; reflexivity|].
    apply elem_of_cons in Hin as [->|Hin];
      [exists 2%N, Example.bread; repeat split; reflexivity|].
    apply elem_of_nil in Hin. contradiction.
  - exists (Example.item 2%N 1000), 2%N, Example.bread, 1000.
    split; [right; left|]. split; [reflexivity|]. split; [reflexivity|].
    split; [reflexivity|]. simpl. lia.
Defined.

Lemma createOrder_totals_witness :
  exists order,
    OrdersRoutes.orders Example.ordered !! 50%N = Some order
    /\ OrderModel.taxAmount order = (OrderModel.subtotal order * 0.08)%Q
    /\ OrderModel.shippingCost order = 0%Q
    /\ OrderModel.totalAmount order
       = (OrderModel.subtotal order + OrderModel.taxAmount order
          + OrderModel.shippingCost order)%Q.
Proof.
  destruct (createOrder_totals 100 50%N Example.ada (Example.request Example.basket)
              Example.shop eq_refl)
    as (order & _ & Hstored & _ & _ & _ & _ & Htotal & Htax & Hship).
  exists order. split; [exact Hstored|]. split; [apply Htax; reflexivity|].
  split; [apply Hship; reflexivity | exact Htotal].
Defined.

Lemma cancel_releases_what_was_reserved_witness :
  OrdersRoutes.products (OrdersRoutes.cancelOrder 200 Example.ada 50%N None Example.ordered).1
  = OrdersRoutes.products Example.shop.
Proof.
  destruct (cancel_releases_what_was_reserved 100 50%N Example.ada
              (Example.request Example.basket) Example.shop eq_refl)
    as (order & _ & _ & _ & _ & _ & _ & Hcancel & _).
  apply (Hcancel 200 Example.ada None). right. reflexivity.
Defined.


Lemma cancelOrder_refuses_cancelled_order_witness :
  OrdersRoutes.cancelOrder 300 Example.root 50%N None Example.was_cancelled
  = (Example.was_cancelled, Http.failure 400 "Order is already cancelled").
Proof.
  eapply (cancelOrder_refuses_cancelled_order 300 Example.root 50%N None
            Example.was_cancelled).
  - vm_compute. reflexivity.
  - reflexivity.
Defined.

Lemma cancel_rejections_are_indistinguishable_witness :
  (OrdersRoutes.cancelOrder 200 Example.ben 50%N None Example.ordered).2
  = (OrdersRoutes.cancelOrder 200 Example.ben 50%N None Example.shop).2.
Proof.
  refine (proj1 (cancel_rejections_are_indistinguishable 200 Example.ben 50%N None
                   Example.ordered Example.shop _ _ _ _ _)).
  - reflexivity.
  - vm_compute. reflexivity.
  - left. simpl. discriminate.
  - reflexivity.
Defined.

Lemma orders_are_scoped_to_the_caller_witness :
  OrdersRoutes.getOrder Example.ben 50%N Example.ordered
  = OrdersRoutes.getOrder Example.ben 50%N Example.shop.
Proof.
  refine (proj1 (proj1 (orders_are_scoped_to_the_caller Example.ben eq_refl)
                   50%N Example.ordered Example.shop _ _ _ _)).
  - vm_compute. reflexivity.
  - simpl. discriminate.
  - reflexivity.
Defined.

Lemma cart_mutation_invariant_witness :
  exists c',
    CartModel.mutate 100 (CartModel.AddItem (Oid.toString 1%N) (Js.Num 2) 2.5)
      Example.empty_cart = CartModel.Ok c'
    /\ CartModel.totalItems c' = Zsum (map CartModel.quantity (CartModel.items c'))
    /\ CartModel.lastUpdated c' = 100.
Proof.
  eexists. split; [reflexivity|].
  eapply (cart_mutation_invariant 100
            (CartModel.AddItem (Oid.toString 1%N) (Js.Num 2) 2.5) Example.empty_cart).
  reflexivity.
Defined.

(** When the price passed to the second call differs from the price of
    the line, the total that is saved is computed from the price of the
    line: the hook of the line runs after the assignment of [addItem]. *)
Lemma addItem_total_uses_stored_price :
  exists c1 c2,
    CartModel.addItem 300 (Oid.toString 1%N) (Js.Num 2) 2.5 Example.empty_cart
    = CartModel.Ok c1
    /\ CartModel.addItem 400 (Oid.toString 1%N) (Js.Num 3) 3 c1 = CartModel.Ok c2
    /\ CartModel.items c2 = [CartModel.mkCartItem 1%N 5 2.5 (2.5 * inject_Z 5)%Q].
Proof. do 2 eexists. split; [reflexivity|]. split; reflexivity. Qed.
(** * Further properties of the modelled code *)

(** ** The other cart methods *)

Section CartMethods.
Import CartModel.

Lemma Forall_sub {A : Type} (P : A -> Prop) (l k : list A) :
  l `sublist_of` k -> Forall P k -> Forall P l.
Proof.
  intros Hsub Hk. apply Forall_forall. intros x Hx.
  rewrite Forall_forall in Hk. apply Hk. eapply elem_of_sublist; eassumption.
Qed.

Lemma product_alter (f : CartItem -> CartItem) i l :
  (forall x, product (f x) = product x) ->
  map product (alter f i l) = map product l.
Proof.
  intros Hf. rewrite !map_is_fmap. apply list_eq. intros j.
  rewrite !list_lookup_fmap. destruct (decide (i = j)) as [<-|Hne].
  - rewrite list_lookup_alter_eq. destruct (l !! i); simpl; [|reflexivity].
    rewrite Hf. reflexivity.
  - rewrite list_lookup_alter_ne by exact Hne. reflexivity.
Qed.

Lemma product_insert i (it it' : CartItem) l :
  l !! i = Some it -> product it' = product it ->
  map product (<[i := it']> l) = map product l.
Proof.
  intros Hi Hp. rewrite !map_is_fmap. apply list_eq. intros j.
  rewrite !list_lookup_fmap. destruct (decide (i = j)) as [<-|Hne].
  - rewrite list_lookup_insert_eq by (eapply lookup_lt_Some; exact Hi).
    rewrite Hi. simpl. rewrite Hp. reflexivity.
  - rewrite list_lookup_insert_ne by exact Hne. reflexivity.
Qed.

Lemma add_quantity_product qty unitPrice it it' :
  add_quantity qty unitPrice it = Some it' -> product it' = product it.
Proof.
  unfold add_quantity. destruct (Js.castNumber _); [|discriminate].
  intros [= <-]. reflexivity.
Qed.

Lemma castNumber_toNumber v n : Js.castNumber v = Some n -> Js.toNumber v = Some n.
Proof. destruct v as [z|[|a s]|]; simpl; congruence. Qed.

Lemma set_quantity_valid qty it :
  1 <= qty -> item_valid it = true -> item_valid (set_quantity qty it) = true.
Proof.
  rewrite !item_valid_spec. simpl. intros Hq (_ & Hp & _).
  repeat split; [assumption | assumption |].
  apply Qmult_le_0_compat; [apply inject_Z_nonneg; lia | assumption].
Qed.

Lemma Qsum_nonneg (l : list Q) : Forall (fun x => (0 <= x)%Q) l -> (0 <= Qsum l)%Q.
Proof.
  induction 1 as [|x l Hx _ IH]; simpl.
  - apply Qle_refl.
  - replace 0%Q with (0 + 0)%Q by reflexivity. apply Qplus_le_compat; assumption.
Qed.

Lemma Zsum_at_least_length (l : list Z) :
  Forall (fun x => 1 <= x) l -> Z.of_nat (length l) <= Zsum l.
Proof.
  induction 1 as [|x l Hx _ IH]; simpl; lia.
Qed.

End CartMethods.

(** X1. [updateItem] looks for the first line whose product id is printed
    as the string it is given: with a string that is the text of the id of
    no line, as the id of a line in capitals is, it throws, whatever the
    quantity. With the text of the id of a line, on a cart that passes
    validation, and a quantity that is a number or a string of digits, a
    quantity of zero or less removes that line and nothing else, and a
    quantity of one or more becomes the quantity of that line, whose total
    is the price of the line times the new quantity. *)
Theorem updateItem_sets_or_removes_the_line :
  forall (now : Z) (pid : string) (q : Js.Value) (c : CartModel.Cart),
    (Forall (fun it => Oid.toString (CartModel.product it) <> pid) (CartModel.items c) ->
     CartModel.updateItem now pid q c = CartModel.Err CartModel.ItemNotFound)
    /\ (CartModel.validate c = true ->
        forall (i : nat) (it : CartModel.CartItem) (n : Z),
          CartModel.items c !! i = Some it ->
          Oid.toString (CartModel.product it) = pid ->
          (forall j it', CartModel.items c !! j = Some it' -> (j < i)%nat ->
                         Oid.toString (CartModel.product it') <> pid) ->
          Js.castNumber q = Some n ->
          exists c',
            CartModel.updateItem now pid q c = CartModel.Ok c'
            /\ (n <= 0 ->
                CartModel.items c'
                = map CartModel.cartItem_pre_save (delete i (CartModel.items c)))
            /\ (1 <= n ->
                map CartModel.product (CartModel.items c')
                = map CartModel.product (CartModel.items c)
                /\ CartModel.items c' !! i
                   = Some {| CartModel.product := CartModel.product it;
                             CartModel.quantity := n;
                             CartModel.price := CartModel.price it;
                             CartModel.total :=
                               (CartModel.price it * inject_Z n)%Q |}
                /\ forall j, j <> i ->
                     CartModel.items c' !! j
                     = CartModel.cartItem_pre_save <$> CartModel.items c !! j)).
Proof.
  intros now pid q c. split.
  - intros Hnot. unfold CartModel.updateItem.
    assert (Hf : CartModel.findIndex pid (CartModel.items c) = None).
    { apply findIndex_None. exact Hnot. }
    rewrite Hf. reflexivity.
  - intros Hv i it n Hi Hpid Hfirst Hq. unfold CartModel.updateItem.
    assert (Hf : CartModel.findIndex pid (CartModel.items c) = Some i).
    { apply findIndex_Some. exists it. auto. }
    rewrite Hf. apply validate_Forall in Hv.
    unfold Js.le. rewrite (castNumber_toNumber _ _ Hq). cbn [Js.toNumber].
    destruct (Z.leb_spec n 0) as [Hn|Hn].
    + rewrite save_Ok.
      * eexists. split; [reflexivity|]. split; [intros _; reflexivity | lia].
      * apply validate_Forall. simpl.
        apply Forall_delete. exact Hv.
    + rewrite Hq, save_Ok.
      * eexists. split; [reflexivity|]. split; [lia|]. intros _. simpl.
        split; [|split].
        -- rewrite product_pre_save. apply product_alter. reflexivity.
        -- rewrite map_is_fmap, list_lookup_fmap, list_lookup_alter_eq, Hi. simpl.
           reflexivity.
        -- intros j Hne.
           rewrite map_is_fmap, list_lookup_fmap, list_lookup_alter_ne by auto.
           reflexivity.
      * apply validate_Forall. simpl. apply Forall_alter; [exact Hv|].
        intros x _ Hx. apply set_quantity_valid; [lia | exact Hx].
Qed.

(** X2. On a cart that passes validation, [removeItem] never fails: it
    removes the lines whose product id is printed as the string it is
    given and keeps the other lines in their order, so that a string that
    is the text of the id of no line, as the id of a line in capitals is,
    removes nothing. When the string is the text of an id, no line of that
    product is left. [clearCart] succeeds on every cart and leaves no line,
    a subtotal of 0 and an item count of 0. *)
Theorem removeItem_and_clearCart_succeed :
  forall (now : Z) (pid : string) (c : CartModel.Cart),
    (CartModel.validate c = true ->
     exists c',
       CartModel.removeItem now pid c = CartModel.Ok c'
       /\ CartModel.items c'
          = map CartModel.cartItem_pre_save
              (filter (fun it => Oid.toString (CartModel.product it) <> pid)
                 (CartModel.items c))
       /\ (forall k, pid = Oid.toString k ->
             k ∉ map CartModel.product (CartModel.items c'))
       /\ (Forall (fun it => Oid.toString (CartModel.product it) <> pid)
             (CartModel.items c) ->
           CartModel.items c' = map CartModel.cartItem_pre_save (CartModel.items c)))
    /\ CartModel.clearCart now c
       = CartModel.Ok {| CartModel.user := CartModel.user c;
                         CartModel.items := [];
                         CartModel.subtotal := 0%Q;
                         CartModel.totalItems := 0;
                         CartModel.lastUpdated := now |}.
Proof.
  intros now pid c. split; [|reflexivity].
  intros Hv. unfold CartModel.removeItem. rewrite save_Ok.
  - eexists. split; [reflexivity|]. simpl. split; [reflexivity|]. split.
    + intros k -> Hin. rewrite product_pre_save, map_is_fmap in Hin.
      apply list_elem_of_fmap in Hin as (x & Hx & Hin).
      apply list_elem_of_filter in Hin as [Hne _]. congruence.
    + intros Hnot. f_equal. induction Hnot as [|x l Hx _ IH]; [reflexivity|].
      rewrite filter_cons_True by exact Hx. f_equal. exact IH.
  - apply validate_Forall. simpl. apply validate_Forall in Hv.
    eapply Forall_sub; [apply sublist_filter | exact Hv].
Qed.

Section CartInvariants.
Import CartModel.

(** Every mutation that succeeds has saved a list of lines that passed
    validation and that holds no product twice if the cart did not and
    the id of a product to add came as the database prints it. *)
Lemma mutate_saved now m c c' :
  mutate now m c = Ok c' ->
  exists l,
    c' = cart_pre_save now (set_items c (map cartItem_pre_save l))
    /\ Forall (fun it => item_valid it = true) l
    /\ ((forall pid q p, m = AddItem pid q p -> exists k, pid = Oid.toString k) ->
        NoDup (map product (items c)) -> NoDup (map product l)).
Proof.
  assert (Hsave : forall l,
    save now (set_items c l) = Ok c' ->
    c' = cart_pre_save now (set_items c (map cartItem_pre_save l))
    /\ Forall (fun it => item_valid it = true) l).
  { intros l H. apply save_inv in H as [Hv ->]. split; [reflexivity|].
    apply validate_Forall in Hv. exact Hv. }
  destruct m as [pid q p|pid q|pid|]; simpl.
  - unfold addItem. destruct (findIndex pid (items c)) as [i|] eqn:Hf.
    + destruct (items c !! i) as [it|] eqn:Hi; [|discriminate]. cbn [mbind option_bind].
      destruct (add_quantity q p it) as [it'|] eqn:Hadd; [|discriminate]. intros H.
      eexists. split; [apply Hsave, H|]. split; [apply Hsave, H|].
      intros _ Hnd. erewrite product_insert; [exact Hnd | exact Hi |].
      eapply add_quantity_product. exact Hadd.
    + destruct (Oid.cast pid) as [k|] eqn:Hk; [|discriminate].
      destruct (Js.castNumber q) as [n|]; [|discriminate]. intros H.
      eexists. split; [apply Hsave, H|]. split; [apply Hsave, H|].
      intros Hpid Hnd. destruct (Hpid pid q p eq_refl) as [k' ->].
      apply cast_toString_inv in Hk. subst k'.
      rewrite map_app. simpl. apply NoDup_app.
      split; [exact Hnd|]. split; [|apply NoDup_singleton].
      intros x Hx Hin. apply list_elem_of_singleton in Hin. subst x.
      apply findIndex_None in Hf. rewrite Forall_forall in Hf.
      rewrite map_is_fmap in Hx. apply list_elem_of_fmap in Hx as (y & Hy & Hin).
      apply (Hf y Hin). congruence.
  - unfold updateItem. destruct (findIndex pid (items c)) as [i|]; [|discriminate].
    destruct (Js.le q (Js.Num 0)).
    + intros H. eexists. split; [apply Hsave, H|]. split; [apply Hsave, H|].
      intros _ Hnd. rewrite map_is_fmap, list_fmap_delete.
      eapply sublist_NoDup; [exact Hnd | apply sublist_delete].
    + destruct (Js.castNumber q) as [n|]; [|discriminate]. intros H.
      eexists. split; [apply Hsave, H|]. split; [apply Hsave, H|].
      intros _ Hnd. rewrite product_alter; [exact Hnd | reflexivity].
  - unfold removeItem. intros H.
    eexists. split; [apply Hsave, H|]. split; [apply Hsave, H|].
    intros _ Hnd. rewrite map_is_fmap. eapply sublist_NoDup; [exact Hnd|].
    apply fmap_sublist. apply sublist_filter.
  - unfold clearCart. intros H.
    eexists. split; [apply Hsave, H|]. split; [apply Hsave, H|].
    intros _ _. apply NoDup_nil. exact I.
Qed.

End CartInvariants.

(** X3. A cart that holds one line for each of its products still does so
    after every mutation that is saved, provided that the id of a product
    to add comes as the database prints it, in lower case; an id in
    capitals adds a second line for its product. *)
Theorem cart_keeps_one_line_per_product :
  forall (now : Z) (m : CartModel.Mutation) (c c' : CartModel.Cart),
    NoDup (map CartModel.product (CartModel.items c)) ->
    (forall pid q p, m = CartModel.AddItem pid q p -> exists k, pid = Oid.toString k) ->
    CartModel.mutate now m c = CartModel.Ok c' ->
    NoDup (map CartModel.product (CartModel.items c')).
Proof.
  intros now m c c' Hnd Hpid H.
  apply mutate_saved in H as (l & -> & _ & Hl). simpl.
  rewrite product_pre_save. apply Hl; assumption.
Qed.

(** X4. The cart a mutation has saved passes the validators of the schema
    again, has a subtotal that is not negative and counts at least one item
    for each of its lines. *)
Theorem saved_cart_is_within_bounds :
  forall (now : Z) (m : CartModel.Mutation) (c c' : CartModel.Cart),
    CartModel.mutate now m c = CartModel.Ok c' ->
    CartModel.validate c' = true
    /\ (0 <= CartModel.subtotal c')%Q
    /\ Z.of_nat (length (CartModel.items c')) <= CartModel.totalItems c'.
Proof.
  intros now m c c' H.
  apply mutate_saved in H as (l & -> & Hl & _).
  assert (Hsaved : Forall (fun it => CartModel.item_valid it = true)
                     (map CartModel.cartItem_pre_save l)).
  { rewrite map_is_fmap. apply Forall_fmap.
    eapply Forall_impl; [exact Hl|]. intros it. apply item_valid_pre_save. }
  split; [apply validate_Forall; exact Hsaved|]. simpl. split.
  - rewrite fold_left_Qplus. rewrite Qplus_0_l. apply Qsum_nonneg.
    rewrite map_is_fmap. apply Forall_fmap.
    eapply Forall_impl; [exact Hsaved|]. intros it Hit.
    apply item_valid_spec in Hit. apply Hit.
  - rewrite fold_left_Zplus, Z.add_0_l.
    rewrite <- (length_map CartModel.quantity).
    apply Zsum_at_least_length.
    rewrite map_is_fmap. apply Forall_fmap.
    eapply Forall_impl; [exact Hsaved|]. intros it Hit.
    apply item_valid_spec in Hit. apply Hit.
Qed.


(** ** The slug of a product *)

Section SlugFacts.
Import ProductHooks.

Lemma is_hyphen_spec a : is_hyphen a = true <-> a = "-"%char.
Proof.
  unfold is_hyphen. rewrite N.eqb_eq. split.
  - intros H. rewrite <- (ascii_N_embedding a), H. reflexivity.
  - intros ->. reflexivity.
Qed.

Lemma slug_char_class a :
  is_hyphen (slug_char a) = negb (is_alnum a)
  /\ (is_alnum a = true -> is_lower_or_digit (slug_char a) = true
                           /\ slug_char a = toLowerCase_char a).
Proof.
  destruct a as [[] [] [] [] [] [] [] []]; vm_compute;
    (split; [reflexivity | intros H; try discriminate H; split; reflexivity]).
Qed.

Lemma slug_char_fixed a :
  is_lower_or_digit a || is_hyphen a = true -> slug_char a = a.
Proof. destruct a as [[] [] [] [] [] [] [] []]; vm_compute; auto; discriminate. Qed.

Lemma lower_fixed a :
  is_lower_or_digit a || is_hyphen a = true -> toLowerCase_char a = a.
Proof. destruct a as [[] [] [] [] [] [] [] []]; vm_compute; auto; discriminate. Qed.

Lemma class_disjoint a : is_lower_or_digit a = true -> is_hyphen a = false.
Proof. destruct a as [[] [] [] [] [] [] [] []]; vm_compute; auto; discriminate. Qed.

Lemma replace_lower s : replace_other (toLowerCase s) = map_chars slug_char s.
Proof.
  unfold replace_other, toLowerCase. induction s as [|a s IH]; simpl.
  - reflexivity.
  - rewrite IH. reflexivity.
Qed.

Lemma squeeze_true_start s a rest :
  squeeze true s = String a rest -> is_hyphen a = false.
Proof.
  revert a rest. induction s as [|c s IH]; intros a rest; simpl; [discriminate|].
  destruct (is_hyphen c) eqn:Hc.
  - apply IH.
  - intros [= <- _]. exact Hc.
Qed.

Lemma drop_last_hyphen_empty s :
  drop_last_hyphen s = EmptyString ->
  s = EmptyString \/ exists a, s = String a EmptyString /\ is_hyphen a = true.
Proof.
  destruct s as [|a [|b s]]; simpl; [auto| |discriminate].
  destruct (is_hyphen a) eqn:Ha; [eauto | discriminate].
Qed.

Lemma drop_last_hyphen_cons a s :
  s <> EmptyString -> drop_last_hyphen (String a s) = String a (drop_last_hyphen s).
Proof. destruct s; [congruence | reflexivity]. Qed.

Lemma tidy_letter b a t :
  is_hyphen a = false -> tidy b (String a t) = is_lower_or_digit a && tidy false t.
Proof. intros H. simpl. rewrite H. reflexivity. Qed.

Lemma tidy_hyphen b a t :
  is_hyphen a = true -> tidy b (String a t) = negb b && tidy true t.
Proof. intros H. simpl. rewrite H. reflexivity. Qed.

(** Squeezing and dropping a last hyphen leave nothing or a tidy string. *)
Lemma squeeze_drop_tidy b s :
  Forall in_class (list_ascii_of_string s) ->
  drop_last_hyphen (squeeze b s) = EmptyString
  \/ tidy b (drop_last_hyphen (squeeze b s)) = true.
Proof.
  revert b. induction s as [|a s IH]; intros b Hs; [simpl; auto|].
  simpl in Hs. apply Forall_cons in Hs as [Ha Hs]. unfold in_class in Ha.
  cbn [squeeze]. destruct (is_hyphen a) eqn:Hh.
  - destruct b; [apply IH; exact Hs|].
    destruct (IH true Hs) as [He|Ht].
    + destruct (squeeze true s) as [|c u] eqn:Hu.
      * left. simpl. rewrite Hh. reflexivity.
      * apply drop_last_hyphen_empty in He as [He|(x & [= -> ->] & Hx)]; [discriminate|].
        apply squeeze_true_start in Hu. congruence.
    + right. destruct (squeeze true s) as [|c u] eqn:Hu; [discriminate|].
      rewrite drop_last_hyphen_cons by discriminate.
      rewrite tidy_hyphen by exact Hh. exact Ht.
  - rewrite orb_false_r in Ha. right.
    destruct (squeeze false s) as [|c u] eqn:Hu.
    + simpl. rewrite Hh. simpl. rewrite Hh, Ha. reflexivity.
    + rewrite drop_last_hyphen_cons by discriminate.
      rewrite tidy_letter, Ha by exact Hh.
      destruct (IH false Hs) as [He|Ht]; rewrite Hu in *;
        [rewrite He; reflexivity | exact Ht].
Qed.

Lemma slug_chars_in_class s :
  Forall in_class (list_ascii_of_string (map_chars slug_char s)).
Proof.
  induction s as [|a s IH]; simpl; constructor; [|exact IH].
  unfold in_class. destruct (slug_char_class a) as [Hh Hl].
  destruct (is_alnum a).
  - destruct (Hl eq_refl) as [-> _]. reflexivity.
  - rewrite Hh. apply orb_true_r.
Qed.

(** A slug is empty or tidy. *)
Lemma slugify_tidy name :
  slugify name = EmptyString \/ tidy true (slugify name) = true.
Proof.
  unfold slugify. rewrite replace_lower.
  pose proof (slug_chars_in_class name) as Hc.
  destruct (map_chars slug_char name) as [|a s] eqn:Hs; [left; reflexivity|].
  simpl in Hc. apply Forall_cons in Hc as [Ha Hc]. unfold in_class in Ha.
  cbn [squeeze]. destruct (is_hyphen a) eqn:Hh.
  - unfold strip_hyphens. rewrite Hh. apply squeeze_drop_tidy. exact Hc.
  - unfold strip_hyphens. rewrite Hh. rewrite orb_false_r in Ha. right.
    destruct (squeeze false s) as [|c u] eqn:Hu.
    + simpl. rewrite Hh. simpl. rewrite Hh, Ha. reflexivity.
    + rewrite drop_last_hyphen_cons by discriminate.
      rewrite tidy_letter, Ha by exact Hh.
      destruct (squeeze_drop_tidy false s Hc) as [He|Ht]; rewrite Hu in *;
        [rewrite He; reflexivity | exact Ht].
Qed.

(** What a tidy string looks like. *)
Lemma tidy_chars b s :
  tidy b s = true ->
  Forall (fun a => is_lower_or_digit a = true \/ a = "-"%char) (list_ascii_of_string s).
Proof.
  revert b. induction s as [|a s IH]; intros b; simpl; [constructor|].
  destruct (is_hyphen a) eqn:Hh.
  - intros [_ H]%andb_true_iff. constructor; [|eapply IH; exact H].
    right. apply is_hyphen_spec. exact Hh.
  - intros [Ha H]%andb_true_iff. constructor; [auto | eapply IH; exact H].
Qed.

Lemma tidy_start s :
  tidy true s = true -> head (list_ascii_of_string s) <> Some "-"%char.
Proof.
  destruct s as [|a s]; simpl; [discriminate|].
  destruct (is_hyphen a) eqn:Hh; [discriminate|].
  intros _ [= ->]. vm_compute in Hh. discriminate.
Qed.

Lemma tidy_end b s :
  tidy b s = true -> last (list_ascii_of_string s) <> Some "-"%char.
Proof.
  revert b. induction s as [|a s IH]; intros b; simpl; [discriminate|].
  destruct s as [|c s].
  - simpl. destruct (is_hyphen a) eqn:Hh.
    + rewrite andb_false_r. discriminate.
    + intros _ [= ->]. vm_compute in Hh. discriminate.
  - intros H. change (last (list_ascii_of_string (String c s)) <> Some "-"%char).
    destruct (is_hyphen a); apply andb_true_iff in H as [_ H]; eapply IH; exact H.
Qed.

Lemma tidy_no_run b s i :
  tidy b s = true ->
  list_ascii_of_string s !! i = Some "-"%char ->
  list_ascii_of_string s !! S i <> Some "-"%char.
Proof.
  revert b i. induction s as [|a s IH]; intros b i; simpl; [discriminate|].
  destruct i as [|i].
  - simpl. intros H [= ->]. simpl in H. apply andb_true_iff in H as [_ H].
    destruct s as [|c s]; [discriminate|]. simpl in *.
    destruct (is_hyphen c) eqn:Hc; [discriminate|].
    intros [= ->]. vm_compute in Hc. discriminate.
  - intros H. simpl. destruct (is_hyphen a); apply andb_true_iff in H as [_ H];
      eapply IH; exact H.
Qed.

(** A tidy string is its own slug. *)
Lemma tidy_squeeze b s : tidy b s = true -> squeeze b s = s.
Proof.
  revert b. induction s as [|a s IH]; intros b; simpl; [reflexivity|].
  destruct (is_hyphen a).
  - destruct b; [discriminate|]. simpl. intros H. rewrite IH by exact H. reflexivity.
  - intros [_ H]%andb_true_iff. rewrite IH by exact H. reflexivity.
Qed.

Lemma tidy_drop b s : tidy b s = true -> drop_last_hyphen s = s.
Proof.
  revert b. induction s as [|a s IH]; intros b; [reflexivity|].
  destruct s as [|c s].
  - simpl. destruct (is_hyphen a); [rewrite andb_false_r; discriminate | reflexivity].
  - intros H. rewrite drop_last_hyphen_cons by discriminate.
    destruct (is_hyphen a) eqn:Hh;
      [rewrite tidy_hyphen in H by exact Hh | rewrite tidy_letter in H by exact Hh];
      apply andb_true_iff in H as [_ H]; (rewrite (IH _ H); reflexivity).
Qed.

Lemma tidy_map b s : tidy b s = true -> map_chars slug_char s = s.
Proof.
  intros H. apply tidy_chars in H.
  induction s as [|a s IH]; simpl; [reflexivity|].
  simpl in H. apply Forall_cons in H as [Ha H]. rewrite IH by exact H.
  rewrite slug_char_fixed; [reflexivity|].
  destruct Ha as [->| ->]; reflexivity.
Qed.

Lemma tidy_slugify s : tidy true s = true -> slugify s = s.
Proof.
  intros H. unfold slugify. rewrite replace_lower, (tidy_map true s H).
  destruct s as [|a s]; [discriminate|].
  assert (Hh : is_hyphen a = false).
  { simpl in H. destruct (is_hyphen a); [discriminate | reflexivity]. }
  assert (Hf : tidy false (String a s) = true).
  { simpl in *. rewrite Hh in *. exact H. }
  rewrite (tidy_squeeze false _ Hf). unfold strip_hyphens. rewrite Hh.
  apply (tidy_drop false). exact Hf.
Qed.

End SlugFacts.

(** X5. The slug of every name consists of lower-case letters, digits and
    hyphens, neither starts nor ends with a hyphen, and holds no two
    hyphens in a row. *)
Theorem slug_is_well_formed :
  forall (name : string),
    let l := list_ascii_of_string (ProductHooks.slugify name) in
    Forall (fun a => is_lower_or_digit a = true \/ a = "-"%char) l
    /\ head l <> Some "-"%char
    /\ last l <> Some "-"%char
    /\ forall i, l !! i = Some "-"%char -> l !! S i <> Some "-"%char.
Proof.
  intros name l. unfold l.
  destruct (slugify_tidy name) as [->|H].
  - simpl. repeat split; [constructor | discriminate | discriminate | discriminate].
  - split; [eapply tidy_chars; exact H|].
    split; [apply tidy_start; exact H|].
    split; [eapply tidy_end; exact H|].
    intros i. eapply tidy_no_run. exact H.
Qed.

(** X6. Making the slug of a slug changes nothing. *)
Theorem slugify_is_idempotent :
  forall (name : string),
    ProductHooks.slugify (ProductHooks.slugify name) = ProductHooks.slugify name.
Proof.
  intros name. destruct (slugify_tidy name) as [->|H].
  - reflexivity.
  - apply tidy_slugify. exact H.
Qed.

Section SlugLetters.
Import ProductHooks.

Lemma letters_cons a s :
  letters (String a s) = if is_hyphen a then letters s else a :: letters s.
Proof. unfold letters. simpl. destruct (is_hyphen a); reflexivity. Qed.

Lemma letters_map s :
  letters (map_chars slug_char s)
  = map toLowerCase_char (List.filter is_alnum (list_ascii_of_string s)).
Proof.
  induction s as [|a s IH]; [reflexivity|].
  cbn [map_chars list_ascii_of_string List.filter]. rewrite letters_cons, IH.
  destruct (slug_char_class a) as [Hh Hl]. rewrite Hh.
  destruct (is_alnum a); simpl; [|reflexivity].
  destruct (Hl eq_refl) as [_ ->]. reflexivity.
Qed.

Lemma letters_squeeze b s : letters (squeeze b s) = letters s.
Proof.
  revert b. induction s as [|a s IH]; intros b; [reflexivity|].
  cbn [squeeze]. destruct (is_hyphen a) eqn:Hh.
  - destruct b.
    + rewrite IH, letters_cons, Hh. reflexivity.
    + rewrite !letters_cons, Hh, IH. reflexivity.
  - rewrite !letters_cons, Hh, IH. reflexivity.
Qed.

Lemma letters_drop s : letters (drop_last_hyphen s) = letters s.
Proof.
  induction s as [|a s IH]; [reflexivity|].
  destruct s as [|c s].
  - simpl. destruct (is_hyphen a) eqn:Hh; [|reflexivity].
    rewrite letters_cons, Hh. reflexivity.
  - rewrite drop_last_hyphen_cons by discriminate.
    rewrite !(letters_cons a), IH. reflexivity.
Qed.

Lemma letters_strip s : letters (strip_hyphens s) = letters s.
Proof.
  destruct s as [|a s]; [reflexivity|]. unfold strip_hyphens.
  destruct (is_hyphen a) eqn:Hh; rewrite letters_drop; [|reflexivity].
  rewrite letters_cons, Hh. reflexivity.
Qed.

End SlugLetters.

(** X7. For a name whose characters are code units below 256 (Latin-1),
    the characters of the slug other than hyphens are the letters A-Z and
    a-z and the digits of the name, lower-cased and in their order; so the
    slug of such a name is empty exactly when the name holds none of these
    letters and no digit. *)
Theorem slug_keeps_letters_and_digits :
  forall (name : string),
    letters (ProductHooks.slugify name)
    = map ProductHooks.toLowerCase_char
        (List.filter ProductHooks.is_alnum (list_ascii_of_string name))
    /\ (ProductHooks.slugify name = EmptyString
        <-> Forall (fun a => ProductHooks.is_alnum a = false) (list_ascii_of_string name)).
Proof.
  intros name.
  assert (Hl : letters (ProductHooks.slugify name)
               = map ProductHooks.toLowerCase_char
                   (List.filter ProductHooks.is_alnum (list_ascii_of_string name))).
  { unfold ProductHooks.slugify.
    rewrite letters_strip, letters_squeeze, replace_lower, letters_map. reflexivity. }
  split; [exact Hl|]. split.
  - intros He. rewrite He in Hl. simpl in Hl.
    symmetry in Hl. apply map_eq_nil in Hl.
    apply Forall_forall. intros a Ha.
    destruct (ProductHooks.is_alnum a) eqn:Hal; [|reflexivity].
    assert (Hin : In a (List.filter ProductHooks.is_alnum (list_ascii_of_string name))).
    { apply filter_In. split; [apply list_elem_of_In; exact Ha | exact Hal]. }
    rewrite Hl in Hin. contradiction.
  - intros Hall.
    assert (Hnone : List.filter ProductHooks.is_alnum (list_ascii_of_string name) = []).
    { clear Hl. induction Hall as [|a l Ha _ IH]; [reflexivity|].
      simpl. rewrite Ha. exact IH. }
    rewrite Hnone in Hl. simpl in Hl.
    destruct (slugify_tidy name) as [He|Ht]; [exact He|].
    destruct (ProductHooks.slugify name) as [|a s]; [reflexivity|].
    rewrite letters_cons in Hl. simpl in Ht.
    destruct (ProductHooks.is_hyphen a); discriminate.
Qed.

(** ** The catalog *)

(** X8. A product document passes the hooks of the schema unless its
    compare price is a number other than zero that does not exceed the
    price; a compare price of zero always passes. A document that passes
    keeps its name, price and compare price, and its slug is made anew
    from the name exactly when the name was modified. *)
Theorem compare_price_guard :
  forall (name_modified : bool) (d : ProductHooks.ProductDoc),
    (ProductHooks.pre_save name_modified d = None
     <-> exists cp, ProductHooks.comparePrice d = Some cp
                    /\ ~ (cp == 0)%Q /\ (cp <= ProductHooks.price d)%Q)
    /\ (forall d', ProductHooks.pre_save name_modified d = Some d' ->
          ProductHooks.name d' = ProductHooks.name d
          /\ ProductHooks.price d' = ProductHooks.price d
          /\ ProductHooks.comparePrice d' = ProductHooks.comparePrice d
          /\ ProductHooks.slug d'
             = if name_modified then ProductHooks.slugify (ProductHooks.name d)
               else ProductHooks.slug d).
Proof.
  intros nm d. unfold ProductHooks.pre_save, ProductHooks.compare_price_hook.
  assert (Hc : ProductHooks.comparePrice (ProductHooks.slug_hook nm d)
               = ProductHooks.comparePrice d) by (destruct nm; reflexivity).
  assert (Hp : ProductHooks.price (ProductHooks.slug_hook nm d)
               = ProductHooks.price d) by (destruct nm; reflexivity).
  rewrite Hc, Hp. split.
  - destruct (ProductHooks.comparePrice d) as [cp|].
    + destruct (Qeq_bool cp 0) eqn:Hz; simpl.
      * apply Qeq_bool_iff in Hz. split; [discriminate|].
        intros (cp' & [= <-] & Hnz & _). contradiction.
      * destruct (Qle_bool cp (ProductHooks.price d)) eqn:Hle.
        -- split; [|reflexivity]. intros _. exists cp.
           split; [reflexivity|]. split; [|apply Qle_bool_iff; exact Hle].
           intros Heq. apply Qeq_bool_iff in Heq. congruence.
        -- split; [discriminate|]. intros (cp' & [= <-] & _ & Hle').
           apply Qle_bool_iff in Hle'. congruence.
    + split; [discriminate|]. intros (cp & Hcp & _). discriminate.
  - intros d' H.
    assert (Hd : d' = ProductHooks.slug_hook nm d).
    { destruct (ProductHooks.comparePrice d) as [cp|]; [|congruence].
      destruct (negb _ && _); congruence. }
    subst d'. destruct nm; repeat split.
Qed.

(** X9. On a product whose stock is not negative, with an amount that is
    sent as a JSON number and with stock and amount together within the
    integers a JavaScript number holds exactly (up to 2^53), adding the
    amount to the stock and then subtracting it gives the stock back;
    subtracting first and adding then gives the larger of the stock and
    the amount, because the subtraction stops at zero. *)
Theorem stock_add_and_subtract_compose :
  forall (id : ObjectId) (amount : Z)
         (ps : gmap ObjectId ProductModel.Product) (p : ProductModel.Product),
    ps !! id = Some p ->
    0 <= ProductModel.stock p ->
    0 <= amount ->
    ProductModel.stock p + amount <= 2 ^ 53 ->
    let add :=
      ProductsRoutes.mkStockRequest (Js.Num amount) (Some ProductsRoutes.OpAdd) in
    let subtract :=
      ProductsRoutes.mkStockRequest (Js.Num amount) (Some ProductsRoutes.OpSubtract) in
    (ProductsRoutes.updateStock id subtract (ProductsRoutes.updateStock id add ps).1).1 = ps
    /\ ProductModel.stock
         <$> (ProductsRoutes.updateStock id add
                (ProductsRoutes.updateStock id subtract ps).1).1 !! id
       = Some (Z.max (ProductModel.stock p) amount).
Proof.
  intros id amount ps p Hp Hstock Hamount Hexact add subtract.
  unfold add, subtract, ProductsRoutes.updateStock.
  cbn [ProductsRoutes.req_stock ProductsRoutes.req_operation Js.isInt default].
  destruct (Z.leb_spec 0 amount) as [_|Hneg]; [|lia].
  destruct (Z.ltb_spec (Z.abs amount) (10 ^ 21)) as [_|Hbig]; [|lia]. cbn [negb andb].
  rewrite Hp. cbn. rewrite !lookup_insert_eq. cbn. split.
  - rewrite insert_insert_eq. apply insert_id. rewrite Hp. f_equal.
    destruct p as [n pr st a]. unfold ProductModel.set_stock. simpl in *.
    f_equal. lia.
  - rewrite lookup_insert_eq. simpl. f_equal. lia.
Qed.

Section AvailabilityFacts.
Import OrdersRoutes.

(** The loop runs to its end when every item is in the map, with a
    quantity that is a number within the stock. *)
Lemma process_items_runs found items acc sub :
  Forall (fun item =>
            exists k p n, i_product item = Oid.toString k /\ found !! k = Some p
                          /\ Js.toNumber (i_quantity item) = Some n
                          /\ n <= ProductModel.stock p) items ->
  exists lines subtotal,
    process_items (productMap_of found) items acc sub = inr (lines, subtotal).
Proof.
  revert acc sub. induction items as [|item rest IH]; intros acc sub H; simpl.
  - eauto.
  - apply Forall_cons in H as [(k & p & n & Hk & Hp & Hn & Hq) H].
    rewrite Hk, productMap_lookup_text, Hp, Hn. cbn [fmap option_fmap option_map].
    unfold Js.lt. rewrite Hn. cbn [Js.toNumber].
    destruct (Z.ltb_spec (ProductModel.stock p) n); [lia|].
    apply IH. exact H.
Qed.

Lemma Forall2_elem_l {A B : Type} (P : A -> B -> Prop) l k x :
  Forall2 P l k -> x ∈ l -> exists y, y ∈ k /\ P x y.
Proof.
  induction 1 as [|a b l k H _ IH]; intros Hx.
  - apply elem_of_nil in Hx. contradiction.
  - apply elem_of_cons in Hx as [->|Hx].
    + exists b. split; [left | exact H].
    + destruct (IH Hx) as (y & Hy & HP). exists y. split; [right; exact Hy | exact HP].
Qed.

End AvailabilityFacts.

(** X10. An order is created exactly when the request passes validation,
    its items name distinct products, each by the text of its id as the
    database prints it (24 hexadecimal digits, the letters in lower case),
    each of them is an active product of the catalog with at least the
    stock asked for, and the id of the new order is not taken. The strings
    of the request are strings of characters below 256. *)
Theorem createOrder_succeeds_exactly_when :
  forall (now : Z) (new_id : ObjectId) (user : OrdersRoutes.AuthUser)
         (req : OrdersRoutes.CreateRequest) (s : OrdersRoutes.Store),
    Http.status (OrdersRoutes.createOrder now new_id user req s).2 = 201
    <-> OrdersRoutes.valid_request req = true
        /\ NoDup (map OrdersRoutes.i_product (OrdersRoutes.c_items req))
        /\ (forall item, item ∈ OrdersRoutes.c_items req ->
              exists k p n,
                OrdersRoutes.i_product item = Oid.toString k
                /\ OrdersRoutes.products s !! k = Some p
                /\ ProductModel.isActive p = true
                /\ Js.toNumber (OrdersRoutes.i_quantity item) = Some n
                /\ n <= ProductModel.stock p)
        /\ OrdersRoutes.orders s !! new_id = None.
Proof.
  intros now new_id user req s. split.
  - intros Hcreated.
    destruct (createOrder_success now new_id user req s Hcreated)
      as (order & _ & Hvalid & Hfresh & Hnd & _ & _ & Hlines & _).
    split; [exact Hvalid|]. split; [exact Hnd|]. split; [|exact Hfresh].
    intros item Hin.
    destruct (Forall2_elem_l _ _ _ _ Hlines Hin)
      as (line & _ & (k & p & n & Hk & _ & Hn & Hp & Hline & Hq & _) & _
          & (p' & Hp' & Ha & Hle)).
    rewrite Hline, Hp in Hp'. injection Hp' as <-.
    exists k, p, n. rewrite Hq in Hle. auto 10.
  - intros (Hvalid & Hnd & Hall & Hfresh).
    destruct (texts_cast req Hvalid) as (ids & Hmap & Hcast).
    { intros item Hin. destruct (Hall item Hin) as (k & _ & _ & Hk & _). eauto. }
    set (found := OrdersRoutes.find_active ids (OrdersRoutes.products s)).
    assert (Hids : forall item k, item ∈ OrdersRoutes.c_items req ->
                                  OrdersRoutes.i_product item = Oid.toString k -> k ∈ ids).
    { intros item k Hin Hk.
      assert (Hraw : OrdersRoutes.i_product item ∈ map OrdersRoutes.i_product
                                                       (OrdersRoutes.c_items req)).
      { rewrite map_is_fmap. apply list_elem_of_fmap. eauto. }
      rewrite Hmap, Hk in Hraw. apply list_elem_of_fmap in Hraw as (k' & Heq & Hk').
      apply toString_inj in Heq. subst k'. exact Hk'. }
    assert (Hsize : size found = length ids).
    { apply find_active_size.
      - apply (NoDup_fmap_1 Oid.toString). rewrite <- Hmap. exact Hnd.
      - intros k' Hk'.
        assert (Hraw : Oid.toString k' ∈ map OrdersRoutes.i_product
                                           (OrdersRoutes.c_items req)).
        { rewrite Hmap. apply list_elem_of_fmap. eauto. }
        rewrite map_is_fmap in Hraw.
        apply list_elem_of_fmap in Hraw as (item' & Heq & Hin').
        destruct (Hall item' Hin') as (k'' & p'' & n'' & Hk'' & Hp'' & Ha & _).
        rewrite <- Heq in Hk''. apply toString_inj in Hk''. subst k''. eauto. }
    destruct (process_items_runs found (OrdersRoutes.c_items req) [] 0%Q)
      as (lines & subtotal & Hloop).
    { apply Forall_forall. intros item Hin.
      destruct (Hall item Hin) as (k & p & n & Hk & Hp & Ha & Hn & Hq).
      exists k, p, n. split; [exact Hk|]. split; [|auto].
      apply find_active_lookup. split; [exact Hp|].
      split; [eapply Hids; eassumption | exact Ha]. }
    unfold OrdersRoutes.createOrder. rewrite Hvalid, Hcast. cbn [negb].
    fold found. rewrite Hsize, Hmap, length_fmap, Nat.eqb_refl. cbn [negb].
    rewrite Hloop, Hfresh. reflexivity.
Qed.

(** X11. Deleting a product of the catalog removes it and no other product;
    from then on a request for it is answered with 404, and an order that
    names it, in whatever case the letters of its id are written, is
    refused and changes nothing: with the message of the availability
    check when every id of the request can be read as an id. *)
Theorem deleted_product_is_gone :
  forall (id : ObjectId) (s : OrdersRoutes.Store) (p : ProductModel.Product),
    OrdersRoutes.products s !! id = Some p ->
    let out := CatalogRoutes.deleteProduct id (OrdersRoutes.products s) in
    let s' := {| OrdersRoutes.products := out.1;
                 OrdersRoutes.orders := OrdersRoutes.orders s;
                 OrdersRoutes.fromCartRoutes := OrdersRoutes.fromCartRoutes s |} in
    Http.status out.2 = 200
    /\ out.1 !! id = None
    /\ (forall k, k <> id -> out.1 !! k = OrdersRoutes.products s !! k)
    /\ CatalogRoutes.getProduct id out.1 = Http.failure 404 "Product not found"
    /\ (forall now new_id user req,
          OrdersRoutes.valid_request req = true ->
          (exists item, item ∈ OrdersRoutes.c_items req
                        /\ Oid.cast (OrdersRoutes.i_product item) = Some id) ->
          (OrdersRoutes.createOrder now new_id user req s').1 = s'
          /\ Http.status (OrdersRoutes.createOrder now new_id user req s').2 <> 201
          /\ ((forall item, item ∈ OrdersRoutes.c_items req ->
                  is_Some (Oid.cast (OrdersRoutes.i_product item))) ->
              OrdersRoutes.createOrder now new_id user req s'
              = (s', Http.failure 400 "One or more products are not available"))).
Proof.
  intros id s p Hp out s'. unfold out, CatalogRoutes.deleteProduct. rewrite Hp. simpl.
  split; [reflexivity|]. split; [apply lookup_delete_eq|].
  split; [intros k Hk; apply lookup_delete_ne; auto|].
  split; [unfold CatalogRoutes.getProduct; rewrite lookup_delete_eq; reflexivity|].
  intros now new_id user req Hvalid (item & Hin & Hitem).
  unfold s', out, CatalogRoutes.deleteProduct. rewrite Hp. cbn [fst].
  set (s1 := OrdersRoutes.mkStore _ _ _).
  assert (Hrefused : forall ids,
            mapM Oid.cast (map OrdersRoutes.i_product (OrdersRoutes.c_items req)) = Some ids ->
            OrdersRoutes.createOrder now new_id user req s1
            = (s1, Http.failure 400 "One or more products are not available")).
  { intros ids Hcast. unfold OrdersRoutes.createOrder. rewrite Hvalid, Hcast. cbn [negb].
    destruct (size _ =? length _)%nat eqn:Hsize; [|reflexivity].
    apply Nat.eqb_eq in Hsize.
    pose proof Hcast as Hcast'. apply cast_all in Hcast'.
    assert (Hlen : length ids = length (map OrdersRoutes.i_product (OrdersRoutes.c_items req))).
    { rewrite <- (length_fmap Some ids), <- Hcast', length_fmap. reflexivity. }
    rewrite <- Hlen in Hsize. apply find_active_size_iff in Hsize as [_ Hall].
    assert (Hid : id ∈ ids).
    { assert (Hc : Some id ∈ Some <$> ids).
      { rewrite <- Hcast', <- Hitem. apply list_elem_of_fmap.
        exists (OrdersRoutes.i_product item). split; [reflexivity|].
        rewrite map_is_fmap. apply list_elem_of_fmap. eauto. }
      apply list_elem_of_fmap in Hc as (k & [= <-] & Hk). exact Hk. }
    destruct (Hall id Hid) as (q & Hq & _). unfold s1 in Hq. cbn in Hq.
    rewrite lookup_delete_eq in Hq. discriminate. }
  destruct (mapM Oid.cast (map OrdersRoutes.i_product (OrdersRoutes.c_items req)))
    as [ids|] eqn:Hcast.
  - rewrite (Hrefused ids eq_refl). split; [reflexivity|]. split; [discriminate|].
    intros _. reflexivity.
  - split; [|split].
    + unfold OrdersRoutes.createOrder. rewrite Hvalid, Hcast. reflexivity.
    + unfold OrdersRoutes.createOrder. rewrite Hvalid, Hcast. discriminate.
    + intros Hall. exfalso.
      assert (Hsome : is_Some (mapM Oid.cast (map OrdersRoutes.i_product
                                                (OrdersRoutes.c_items req)))).
      { apply mapM_is_Some. apply Forall_forall. intros raw Hraw.
        rewrite map_is_fmap in Hraw. apply list_elem_of_fmap in Hraw as (x & -> & Hx).
        apply Hall. exact Hx. }
      rewrite Hcast in Hsome. destruct Hsome as [? Hsome]. discriminate.
Qed.

(** ** What every request keeps true of the store *)

Section InvariantFacts.
Import OrdersRoutes OrderModel.

Lemma held_absent lines k :
  k ∉ map product lines -> held k lines = 0.
Proof.
  induction lines as [|line rest IH]; intros Hk; [reflexivity|].
  rewrite held_cons. simpl in Hk.
  apply not_elem_of_cons in Hk as [Hne Hk].
  destruct (decide (product line = k)); [congruence|]. rewrite IH by exact Hk. lia.
Qed.

(** With distinct products, what the lines hold of one product is within
    its stock when each line is. *)
Lemma held_within_stock (ps : gmap ObjectId ProductModel.Product) lines k p :
  NoDup (map product lines) ->
  Forall (fun line => exists q, ps !! product line = Some q
                                /\ quantity line <= ProductModel.stock q) lines ->
  ps !! k = Some p ->
  0 <= ProductModel.stock p ->
  held k lines <= ProductModel.stock p.
Proof.
  intros Hnd Hall Hp Hpos. induction Hall as [|line rest (q & Hq & Hle) _ IH].
  - unfold held. simpl. exact Hpos.
  - simpl in Hnd. apply NoDup_cons in Hnd as [Hnot Hnd].
    rewrite held_cons. destruct (decide (product line = k)) as [Heq|Hne].
    + rewrite Heq in *. rewrite held_absent by exact Hnot.
      rewrite Hp in Hq. injection Hq as <-. lia.
    + specialize (IH Hnd). lia.
Qed.

Lemma held_nonneg lines k :
  Forall (fun l => 1 <= quantity l) lines -> 0 <= held k lines.
Proof.
  induction 1 as [|l rest Hl _ IH]; [unfold held; simpl; lia|].
  rewrite held_cons. destruct (decide (product l = k)); lia.
Qed.

(** What the lines of a created order are, read off line by line. *)
Lemma lines_of_success (ps : gmap ObjectId ProductModel.Product) items lines :
  Forall2 (fun item line =>
             line_of ps item line
             /\ 1 <= quantity line
             /\ exists p, ps !! product line = Some p
                          /\ ProductModel.isActive p = true
                          /\ quantity line <= ProductModel.stock p) items lines ->
  Forall2 (line_of ps) items lines
  /\ map i_product items = Oid.toString <$> map product lines
  /\ Forall (fun line => 1 <= quantity line) lines
  /\ Forall (fun line => exists q, ps !! product line = Some q
                                   /\ quantity line <= ProductModel.stock q) lines.
Proof.
  induction 1 as [|item line items lines
                    [Hline [Hone (p & Hp & _ & Hle)]] _ (IH1 & IH2 & IH3 & IH4)].
  - repeat split; constructor.
  - split; [constructor; assumption|]. split; [|split].
    + destruct Hline as (k & _ & _ & Hk & _ & _ & _ & Hprod & _).
      simpl. rewrite IH2, Hk, Hprod. reflexivity.
    + constructor; assumption.
    + constructor; [eauto | assumption].
Qed.

Lemma restore_keeps_ok lines (ps : gmap ObjectId ProductModel.Product) :
  Forall (fun l => 1 <= quantity l) lines ->
  (forall k p, ps !! k = Some p -> 0 <= ProductModel.stock p) ->
  forall k p, restore_stock lines ps !! k = Some p -> 0 <= ProductModel.stock p.
Proof.
  intros Hl Hps k p. rewrite restore_stock_lookup.
  destruct (ps !! k) as [q|] eqn:Hq; [|discriminate]. simpl.
  intros [= <-]. simpl. pose proof (Hps k q Hq). pose proof (held_nonneg lines k Hl). lia.
Qed.

Lemma orders_insert_ok (os : gmap ObjectId Order) id o :
  (forall k o', os !! k = Some o' ->
     Forall (fun l => 1 <= quantity l) (items o') /\ NoDup (map product (items o'))) ->
  Forall (fun l => 1 <= quantity l) (items o) /\ NoDup (map product (items o)) ->
  forall k o', <[id := o]> os !! k = Some o' ->
    Forall (fun l => 1 <= quantity l) (items o') /\ NoDup (map product (items o')).
Proof.
  intros Hos Ho k o'. destruct (decide (id = k)) as [->|Hne].
  - rewrite lookup_insert_eq. intros [= <-]. exact Ho.
  - rewrite lookup_insert_ne by exact Hne. apply Hos.
Qed.

Lemma createOrder_keeps_ok now new_id user req s :
  store_ok s -> store_ok (createOrder now new_id user req s).1.
Proof.
  intros [Hps Hos].
  destruct (decide (Http.status (createOrder now new_id user req s).2 = 201))
    as [Hok|Hfail].
  - destruct (createOrder_success now new_id user req s Hok)
      as (order & -> & _ & _ & Hnd & _ & _ & Hlines & _).
    apply lines_of_success in Hlines as (Hlines & Hprod & Hone & Hwithin).
    assert (Hdistinct : NoDup (map product (items order))).
    { apply (NoDup_fmap_1 Oid.toString). rewrite <- Hprod. exact Hnd. }
    split; cbn [fst products orders].
    + intros k p. rewrite reserve_stock_lookup.
      destruct (products s !! k) as [q|] eqn:Hq; [|discriminate]. simpl.
      intros [= <-]. simpl.
      rewrite <- (held_reserved _ _ _ k Hlines).
      assert (held k (items order) <= ProductModel.stock q); [|lia].
      eapply held_within_stock; [exact Hdistinct | exact Hwithin | exact Hq |].
      eapply Hps; exact Hq.
    + apply orders_insert_ok; [exact Hos|]. split; assumption.
  - rewrite createOrder_failure by exact Hfail. split; assumption.
Qed.

Lemma updateOrderStatus_keeps_ok now order_id req s :
  store_ok s -> store_ok (updateOrderStatus now order_id req s).1.
Proof.
  intros [Hps Hos]. unfold updateOrderStatus.
  destruct (orders s !! order_id) as [order|] eqn:Ho; [|split; assumption].
  simpl. split; simpl.
  - destruct (bool_decide (s_status req = cancelled)); [|exact Hps].
    apply restore_keeps_ok; [apply (Hos _ _ Ho) | exact Hps].
  - apply orders_insert_ok; [exact Hos|]. simpl. apply (Hos _ _ Ho).
Qed.

Lemma cancelOrder_keeps_ok now user order_id reason s :
  store_ok s -> store_ok (cancelOrder now user order_id reason s).1.
Proof.
  intros [Hps Hos]. unfold cancelOrder, findOne.
  destruct (orders s !! order_id) as [order|] eqn:Ho; [|split; assumption].
  destruct (matches _ order); [|split; assumption].
  destruct (bool_decide (status order = cancelled)); [split; assumption|].
  simpl. split; simpl.
  - apply restore_keeps_ok; [apply (Hos _ _ Ho) | exact Hps].
  - apply orders_insert_ok; [exact Hos|]. simpl. apply (Hos _ _ Ho).
Qed.

Lemma updatePaymentStatus_keeps_ok order_id ps s :
  store_ok s -> store_ok (OrdersAdmin.updatePaymentStatus order_id ps s).1.
Proof.
  intros [Hps Hos]. unfold OrdersAdmin.updatePaymentStatus.
  destruct (orders s !! order_id) as [order|] eqn:Ho; [|split; assumption].
  simpl. split; simpl; [exact Hps|].
  apply orders_insert_ok; [exact Hos|]. simpl. apply (Hos _ _ Ho).
Qed.

Lemma updateStock_keeps_ok id req s :
  store_ok s ->
  store_ok (with_products s (ProductsRoutes.updateStock id req (products s)).1).
Proof.
  intros [Hps Hos]. split; [|exact Hos]. simpl.
  unfold ProductsRoutes.updateStock.
  destruct (Js.isInt 0 (ProductsRoutes.req_stock req)) eqn:Hvalid; [|exact Hps].
  cbn [negb].
  destruct (products s !! id) as [p|] eqn:Hp; [|exact Hps].
  destruct (Js.castNumber _) as [n|] eqn:Hn; [|exact Hps]. cbn [fst].
  intros k q. destruct (decide (id = k)) as [->|Hne].
  - rewrite lookup_insert_eq. intros [= <-]. simpl.
    pose proof (Hps _ _ Hp) as Hstock.
    destruct (isInt_number 0 _ Hvalid) as (m & Hm & Hcast & Hle).
    destruct (default _ (ProductsRoutes.req_operation req)).
    + rewrite Hcast in Hn. injection Hn as <-. exact Hle.
    + exact (castNumber_add_nonneg _ _ _ Hstock Hvalid Hn).
    + unfold Js.sub, Js.max in Hn. rewrite Hm in Hn. cbn in Hn.
      injection Hn as <-. lia.
  - rewrite lookup_insert_ne by exact Hne. apply Hps.
Qed.

Lemma deleteProduct_keeps_ok id s :
  store_ok s ->
  store_ok (with_products s (CatalogRoutes.deleteProduct id (products s)).1).
Proof.
  intros [Hps Hos]. split; [|exact Hos]. simpl.
  unfold CatalogRoutes.deleteProduct.
  destruct (products s !! id) as [p|] eqn:Hp; [|exact Hps]. simpl.
  intros k q Hq. apply lookup_delete_Some in Hq as [_ Hq]. eapply Hps. exact Hq.
Qed.

End InvariantFacts.

(** X12. Starting from a store in which no stock is negative and every
    order has lines of quantity one or more for distinct products, the
    same holds after every sequence of requests that create, move or
    cancel orders, set payment statuses, adjust stock or delete products;
    in particular no order ever takes a stock below zero. *)
Theorem requests_keep_the_store_sound :
  forall (calls : list Call) (s : OrdersRoutes.Store),
    store_ok s -> store_ok (fold_left run calls s).
Proof.
  induction calls as [|c calls IH]; intros s Hs; [exact Hs|].
  simpl. apply IH. destruct c; simpl.
  - apply createOrder_keeps_ok. exact Hs.
  - apply updateOrderStatus_keeps_ok. exact Hs.
  - apply cancelOrder_keeps_ok. exact Hs.
  - apply updatePaymentStatus_keeps_ok. exact Hs.
  - apply updateStock_keeps_ok. exact Hs.
  - apply deleteProduct_keeps_ok. exact Hs.
Qed.

(** ** The other effects of the order routes *)

(** X13. Moving an existing order to a status other than [cancelled]
    leaves every product as it is. Moving it to [delivered] stamps the
    delivery and marks the payment as paid; moving it to [shipped] with a
    tracking number that is not empty stores the number and an estimated
    delivery three days later, and without one leaves both as they are;
    moving it to [cancelled] stamps the cancellation. No other order
    changes. *)
Theorem status_change_side_effects :
  forall (now : Z) (order_id : ObjectId) (req : OrdersRoutes.StatusRequest)
         (s : OrdersRoutes.Store) (order : OrderModel.Order),
    OrdersRoutes.orders s !! order_id = Some order ->
    let out := OrdersRoutes.updateOrderStatus now order_id req s in
    exists updated,
      OrdersRoutes.orders out.1 !! order_id = Some updated
      /\ (OrdersRoutes.s_status req <> OrderModel.cancelled ->
          OrdersRoutes.products out.1 = OrdersRoutes.products s)
      /\ (OrdersRoutes.s_status req = OrderModel.delivered ->
          OrderModel.deliveredAt updated = Some now
          /\ OrderModel.paymentStatus updated = OrderModel.paid)
      /\ (OrdersRoutes.s_status req <> OrderModel.delivered ->
          OrderModel.deliveredAt updated = OrderModel.deliveredAt order
          /\ OrderModel.paymentStatus updated = OrderModel.paymentStatus order)
      /\ (OrdersRoutes.s_status req = OrderModel.shipped ->
          forall number, OrdersRoutes.s_trackingNumber req = Some number ->
                         number <> EmptyString ->
            OrderModel.trackingNumber updated = Some number
            /\ OrderModel.estimatedDelivery updated = Some (now + 259200000))
      /\ (OrdersRoutes.s_status req <> OrderModel.shipped
          \/ OrdersRoutes.s_trackingNumber req = None
          \/ OrdersRoutes.s_trackingNumber req = Some EmptyString ->
          OrderModel.trackingNumber updated = OrderModel.trackingNumber order
          /\ OrderModel.estimatedDelivery updated = OrderModel.estimatedDelivery order)
      /\ (OrdersRoutes.s_status req = OrderModel.cancelled ->
          OrderModel.cancelledAt updated = Some now)
      /\ (forall k, k <> order_id ->
            OrdersRoutes.orders out.1 !! k = OrdersRoutes.orders s !! k).
Proof.
  intros now order_id req s order Horder out.
  unfold out, OrdersRoutes.updateOrderStatus. rewrite Horder. simpl.
  eexists. split; [apply lookup_insert_eq|].
  split.
  { intros Hne. rewrite bool_decide_eq_false_2 by exact Hne. reflexivity. }
  split.
  { intros ->. simpl. split; reflexivity. }
  split.
  { intros Hne. simpl. rewrite bool_decide_eq_false_2 by exact Hne. split; reflexivity. }
  split.
  { intros -> number -> Hnumber. simpl.
    destruct number as [|a rest]; [congruence|]. simpl. split; reflexivity. }
  split.
  { intros [Hne|[->| ->]]; simpl.
    - rewrite bool_decide_eq_false_2 by exact Hne. split; reflexivity.
    - rewrite andb_false_r. split; reflexivity.
    - rewrite andb_false_r. split; reflexivity. }
  split.
  { intros ->. reflexivity. }
  intros k Hk. apply lookup_insert_ne. auto.
Qed.

(** X14. The payment status of an order can be set to each of its four
    values whatever the status of the order is; doing so changes neither
    the status, the lines or the totals of the order nor any product or
    other order. For an id no order has, the answer is 404 and nothing
    changes. *)
Theorem payment_status_is_independent :
  forall (order_id : ObjectId) (paymentStatus : OrderModel.PaymentStatus)
         (s : OrdersRoutes.Store),
    (OrdersRoutes.orders s !! order_id = None ->
     OrdersAdmin.updatePaymentStatus order_id paymentStatus s
     = (s, Http.failure 404 "Order not found"))
    /\ (forall order,
          OrdersRoutes.orders s !! order_id = Some order ->
          let out := OrdersAdmin.updatePaymentStatus order_id paymentStatus s in
          Http.status out.2 = 200
          /\ OrdersRoutes.products out.1 = OrdersRoutes.products s
          /\ (forall k, k <> order_id ->
                OrdersRoutes.orders out.1 !! k = OrdersRoutes.orders s !! k)
          /\ exists updated,
               OrdersRoutes.orders out.1 !! order_id = Some updated
               /\ OrderModel.paymentStatus updated = paymentStatus
               /\ OrderModel.status updated = OrderModel.status order
               /\ OrderModel.items updated = OrderModel.items order
               /\ OrderModel.totalAmount updated = OrderModel.totalAmount order
               /\ OrderModel.customer updated = OrderModel.customer order).
Proof.
  intros order_id paymentStatus s. unfold OrdersAdmin.updatePaymentStatus. split.
  - intros ->. reflexivity.
  - intros order ->. simpl. split; [reflexivity|]. split; [reflexivity|].
    split; [intros k Hk; apply lookup_insert_ne; auto|].
    eexists. split; [apply lookup_insert_eq|]. repeat split.
Qed.

(** X15. A cancellation succeeds exactly when the order exists, is not yet
    cancelled, and the caller is an administrator or the customer of the
    order while it is still pending; a cancellation that does not succeed
    changes nothing. *)
Theorem cancelOrder_succeeds_exactly_when :
  forall (now : Z) (who : OrdersRoutes.AuthUser) (order_id : ObjectId)
         (reason : option string) (s : OrdersRoutes.Store),
    (Http.status (OrdersRoutes.cancelOrder now who order_id reason s).2 = 200
     <-> exists order,
           OrdersRoutes.orders s !! order_id = Some order
           /\ OrderModel.status order <> OrderModel.cancelled
           /\ (OrdersRoutes.is_admin who = true
               \/ (OrderModel.customer order = OrdersRoutes.id who
                   /\ OrderModel.status order = OrderModel.pending)))
    /\ (Http.status (OrdersRoutes.cancelOrder now who order_id reason s).2 <> 200 ->
        (OrdersRoutes.cancelOrder now who order_id reason s).1 = s).
Proof.
  intros now who order_id reason s.
  unfold OrdersRoutes.cancelOrder, OrdersRoutes.findOne, OrdersRoutes.matches. simpl.
  destruct (OrdersRoutes.orders s !! order_id) as [order|] eqn:Horder.
  2:{ simpl. split; [|reflexivity]. split; [discriminate|].
      intros (o & Ho & _). discriminate. }
  destruct (OrdersRoutes.is_admin who) eqn:Hadm; simpl.
  - destruct (decide (OrderModel.status order = OrderModel.cancelled)) as [Hc|Hc].
    + rewrite bool_decide_eq_true_2 by exact Hc. simpl. split; [|reflexivity].
      split; [discriminate|]. intros (o & [= <-] & Hn & _). contradiction.
    + rewrite bool_decide_eq_false_2 by exact Hc. simpl.
      split; [|intros H; contradiction H; reflexivity].
      split; [|reflexivity]. intros _. exists order. auto.
  - rewrite !andb_true_r.
    destruct (decide (OrderModel.customer order = OrdersRoutes.id who)) as [Hcu|Hcu];
      [rewrite bool_decide_eq_true_2 by exact Hcu
      |rewrite bool_decide_eq_false_2 by exact Hcu]; simpl.
    + destruct (decide (OrderModel.status order = OrderModel.pending)) as [Hp|Hp];
        [rewrite bool_decide_eq_true_2 by exact Hp
        |rewrite bool_decide_eq_false_2 by exact Hp]; simpl.
      * rewrite Hp. simpl. split; [|intros H; contradiction H; reflexivity].
        split; [|reflexivity]. intros _. exists order.
        split; [reflexivity|]. split; [rewrite Hp; discriminate|]. right. auto.
      * split; [|reflexivity]. split; [discriminate|].
        intros (o & [= <-] & _ & [Ha|[_ Hp']]); [discriminate | contradiction].
    + split; [|reflexivity]. split; [discriminate|].
      intros (o & [= <-] & _ & [Ha|[Hcu' _]]); [discriminate | contradiction].
Qed.

(** ** What a caller gets to see *)

Section ListingFacts.
Import OrdersRoutes OrderModel.

Lemma insert_sorted_perm {A : Type} (leb : A -> A -> bool) (x : A) (l : list A) :
  insert_sorted leb x l ≡ₚ x :: l.
Proof.
  induction l as [|y l IH]; simpl; [reflexivity|].
  destruct (leb x y); [reflexivity|].
  rewrite IH. apply perm_swap.
Qed.

Lemma sort_perm {A : Type} (leb : A -> A -> bool) (l : list A) : sort leb l ≡ₚ l.
Proof.
  unfold sort. induction l as [|x l IH]; simpl; [reflexivity|].
  rewrite insert_sorted_perm, IH. reflexivity.
Qed.

Lemma sort_docs_perm sortBy ascending l : sort_docs sortBy ascending l ≡ₚ l.
Proof. unfold sort_docs. destruct ascending; apply sort_perm. Qed.

Lemma Stdlib_filter_NoDup {A : Type} (f : A -> bool) (l : list A) :
  NoDup l -> NoDup (List.filter f l).
Proof.
  induction 1 as [|x l Hx _ IH]; simpl; [apply NoDup_nil; exact I|].
  destruct (f x); [|exact IH]. apply NoDup_cons. split; [|exact IH].
  rewrite list_elem_of_In, filter_In, <- list_elem_of_In. tauto.
Qed.

Lemma find_spec q os d :
  d ∈ find q os <-> os !! d.1 = Some d.2 /\ matches q d.2 = true.
Proof.
  unfold find. rewrite list_elem_of_In, filter_In, <- list_elem_of_In.
  destruct d as [k o]. rewrite elem_of_map_to_list. reflexivity.
Qed.

Lemma holds_spec {A : Type} (cond : option A) (test : A -> bool) :
  holds cond test = true <-> forall x, cond = Some x -> test x = true.
Proof.
  destruct cond as [x|]; simpl.
  - split; [intros H y [= <-]; exact H | auto].
  - split; [discriminate | reflexivity].
Qed.

(** The query a listing runs. *)
Lemma listOrders_unlimited who req s :
  l_limit req = Some 0 ->
  exists sortBy ascending pagination,
    listOrders who req s
    = Http.mkResponse 200 true None None
        (Some (OrdersData
                 (sort_docs sortBy ascending
                    (find {| q_customer := if is_admin who then None else Some (id who);
                             q_status := l_status req;
                             q_paymentStatus := l_paymentStatus req;
                             q_createdAt_gte := l_startDate req;
                             q_createdAt_lte := l_endDate req |} (orders s)))
                 pagination))
    /\ totalItems pagination
       = Z.of_nat (length
           (find {| q_customer := if is_admin who then None else Some (id who);
                    q_status := l_status req;
                    q_paymentStatus := l_paymentStatus req;
                    q_createdAt_gte := l_startDate req;
                    q_createdAt_lte := l_endDate req |} (orders s))).
Proof.
  intros Hlimit. unfold listOrders. rewrite Hlimit.
  cbn [default]. rewrite Z.mul_0_r.
  change (0 <? 0) with false. cbv iota. unfold apply_limit.
  change (0 =? 0) with true. cbv iota. rewrite drop_0.
  eexists _, _, _. split; reflexivity.
Qed.

End ListingFacts.

(** X16. A caller is given an order by its id exactly when it exists and
    the caller is an administrator or its customer. A listing without
    limit holds, once each, exactly the orders of the store that the
    caller may see and that pass the filters of the request, and reports
    their number as total. *)
Theorem caller_sees_all_visible_orders :
  forall (who : OrdersRoutes.AuthUser) (s : OrdersRoutes.Store),
    (forall order_id,
        Http.status (OrdersRoutes.getOrder who order_id s) = 200
        <-> exists order,
              OrdersRoutes.orders s !! order_id = Some order
              /\ (OrdersRoutes.is_admin who = true
                  \/ OrderModel.customer order = OrdersRoutes.id who))
    /\ (forall req,
          OrdersRoutes.l_limit req = Some 0 ->
          exists found pagination,
            Http.data (OrdersRoutes.listOrders who req s)
            = Some (OrdersRoutes.OrdersData found pagination)
            /\ NoDup found
            /\ OrdersRoutes.totalItems pagination = Z.of_nat (length found)
            /\ forall d,
                 d ∈ found
                 <-> OrdersRoutes.orders s !! d.1 = Some d.2
                     /\ (OrdersRoutes.is_admin who = true
                         \/ OrderModel.customer d.2 = OrdersRoutes.id who)
                     /\ (forall st, OrdersRoutes.l_status req = Some st ->
                                    OrderModel.status d.2 = st)
                     /\ (forall ps, OrdersRoutes.l_paymentStatus req = Some ps ->
                                    OrderModel.paymentStatus d.2 = ps)
                     /\ (forall t, OrdersRoutes.l_startDate req = Some t ->
                                   t <= OrderModel.createdAt d.2)
                     /\ (forall t, OrdersRoutes.l_endDate req = Some t ->
                                   OrderModel.createdAt d.2 <= t)).
Proof.
  intros who s. split.
  - intros order_id. unfold OrdersRoutes.getOrder, OrdersRoutes.findOne,
      OrdersRoutes.matches. simpl.
    destruct (OrdersRoutes.orders s !! order_id) as [order|].
    2:{ simpl. split; [discriminate | intros (o & Ho & _); discriminate]. }
    destruct (OrdersRoutes.is_admin who); simpl.
    + split; [|reflexivity]. intros _. exists order. auto.
    + rewrite !andb_true_r.
      destruct (decide (OrderModel.customer order = OrdersRoutes.id who)) as [Hc|Hc];
        [rewrite bool_decide_eq_true_2 by exact Hc
        |rewrite bool_decide_eq_false_2 by exact Hc]; simpl.
      * split; [|reflexivity]. intros _. exists order. auto.
      * split; [discriminate|].
        intros (o & [= <-] & [Ha|Hc']); [discriminate | contradiction].
  - intros req Hlimit.
    destruct (listOrders_unlimited who req s Hlimit)
      as (sortBy & ascending & pagination & -> & Htotal).
    set (q := OrdersRoutes.mkQuery _ _ _ _ _) in *.
    eexists _, _. split; [reflexivity|].
    split.
    { rewrite sort_docs_perm. apply Stdlib_filter_NoDup. apply NoDup_map_to_list. }
    split.
    { rewrite Htotal, sort_docs_perm. reflexivity. }
    intros d. rewrite sort_docs_perm, find_spec.
    unfold OrdersRoutes.matches, q. simpl.
    rewrite !andb_true_iff, !holds_spec.
    split.
    + intros (Hd & ((((Hc & Hs) & Hp) & Hg) & Hl)). split; [exact Hd|].
      split.
      { destruct (OrdersRoutes.is_admin who); [auto|]. right.
        specialize (Hc _ eq_refl). apply bool_decide_eq_true in Hc. exact Hc. }
      split; [intros st Hst; specialize (Hs _ Hst);
              apply bool_decide_eq_true in Hs; exact Hs|].
      split; [intros ps Hps; specialize (Hp _ Hps);
              apply bool_decide_eq_true in Hp; exact Hp|].
      split; [intros t Ht; specialize (Hg _ Ht); apply Z.leb_le in Hg; exact Hg|].
      intros t Ht. specialize (Hl _ Ht). apply Z.leb_le in Hl. exact Hl.
    + intros (Hd & Hv & Hs & Hp & Hg & Hl). split; [exact Hd|].
      repeat split.
      * intros c Hc. apply bool_decide_eq_true.
        destruct (OrdersRoutes.is_admin who); [discriminate|].
        injection Hc as <-. destruct Hv as [Ha|Hv]; [discriminate | exact Hv].
      * intros st Hst. apply bool_decide_eq_true. auto.
      * intros ps Hps. apply bool_decide_eq_true. auto.
      * intros t Ht. apply Z.leb_le. auto.
      * intros t Ht. apply Z.leb_le. auto.
Qed.

(** X17. The order routes write no path of a product but its stock, and
    neither add nor remove a product: after creating, moving or cancelling
    an order or setting its payment status, the catalog holds the same
    products with the same names, prices and activity. *)
Theorem order_routes_only_touch_stock :
  forall (c : Call) (s : OrdersRoutes.Store),
    (forall id req, c <> UpdateStock id req) ->
    (forall id, c <> DeleteProduct id) ->
    forall k,
      (OrdersRoutes.products (run s c) !! k = None
       <-> OrdersRoutes.products s !! k = None)
      /\ forall p p',
           OrdersRoutes.products s !! k = Some p ->
           OrdersRoutes.products (run s c) !! k = Some p' ->
           ProductModel.name p' = ProductModel.name p
           /\ ProductModel.price p' = ProductModel.price p
           /\ ProductModel.isActive p' = ProductModel.isActive p.
Proof.
  assert (Hsame : forall (ps : gmap ObjectId ProductModel.Product) k,
            match ps !! k, ps !! k with
            | Some p, Some p' =>
                ProductModel.name p' = ProductModel.name p
                /\ ProductModel.price p' = ProductModel.price p
                /\ ProductModel.isActive p' = ProductModel.isActive p
            | None, None => True
            | _, _ => False
            end).
  { intros ps k. destruct (ps !! k); auto. }
  assert (Hrestore : forall lines (ps : gmap ObjectId ProductModel.Product) k,
            match ps !! k, OrdersRoutes.restore_stock lines ps !! k with
            | Some p, Some p' =>
                ProductModel.name p' = ProductModel.name p
                /\ ProductModel.price p' = ProductModel.price p
                /\ ProductModel.isActive p' = ProductModel.isActive p
            | None, None => True
            | _, _ => False
            end).
  { intros lines ps k. rewrite restore_stock_lookup. destruct (ps !! k); simpl; auto. }
  intros c s Hstock Hdelete k.
  cut (match OrdersRoutes.products s !! k, OrdersRoutes.products (run s c) !! k with
       | Some p, Some p' =>
           ProductModel.name p' = ProductModel.name p
           /\ ProductModel.price p' = ProductModel.price p
           /\ ProductModel.isActive p' = ProductModel.isActive p
       | None, None => True
       | _, _ => False
       end).
  { destruct (OrdersRoutes.products s !! k), (OrdersRoutes.products (run s c) !! k);
      intros H; try contradiction.
    - split; [split; discriminate|]. intros p1 p2 [= <-] [= <-]. exact H.
    - split; [split; reflexivity|]. intros p1 p2 Hp. discriminate. }
  destruct c as [now new_id user req|now id req|now user id reason|id ps|id req|id]; simpl.
  - destruct (decide (Http.status (OrdersRoutes.createOrder now new_id user req s).2 = 201))
      as [Hok|Hfail].
    + destruct (createOrder_success now new_id user req s Hok) as (order & -> & _).
      simpl. rewrite reserve_stock_lookup.
      destruct (OrdersRoutes.products s !! k); simpl; auto.
    + rewrite createOrder_failure by exact Hfail. apply Hsame.
  - unfold OrdersRoutes.updateOrderStatus.
    destruct (OrdersRoutes.orders s !! id); [|apply Hsame]. simpl.
    destruct (bool_decide _); [apply Hrestore | apply Hsame].
  - unfold OrdersRoutes.cancelOrder, OrdersRoutes.findOne.
    destruct (OrdersRoutes.orders s !! id) as [order|]; [|apply Hsame].
    destruct (OrdersRoutes.matches _ order); [|apply Hsame].
    destruct (bool_decide _); [apply Hsame|]. simpl. apply Hrestore.
  - unfold OrdersAdmin.updatePaymentStatus.
    destruct (OrdersRoutes.orders s !! id); apply Hsame.
  - contradiction (Hstock id req). reflexivity.
  - contradiction (Hdelete id). reflexivity.
Qed.

(** ** The summary for administrators *)

Section SummaryFacts.
Import OrdersRoutes OrderModel OrdersAdmin.

Lemma count_cons test o l :
  count_orders test (o :: l) = (if test o then 1 else 0) + count_orders test l.
Proof. unfold count_orders. simpl. destruct (test o); simpl; lia. Qed.

Lemma count_nonneg test l : 0 <= count_orders test l.
Proof. unfold count_orders. lia. Qed.

Lemma count_le test l : count_orders test l <= count_orders (fun _ => true) l.
Proof.
  induction l as [|o l IH]; [reflexivity|].
  rewrite !count_cons. destruct (test o); lia.
Qed.

(** Leaving out the entries without orders does not change the sum. *)
Lemma Zsum_positive_entries {A : Type} (entries : list (A * Z)) :
  Forall (fun e => 0 <= e.2) entries ->
  Zsum (map snd (List.filter (fun e => 0 <? e.2) entries)) = Zsum (map snd entries).
Proof.
  induction 1 as [|e l He _ IH]; [reflexivity|]. simpl.
  destruct (Z.ltb_spec 0 e.2); simpl; lia.
Qed.

Lemma statuses_partition l :
  Zsum (map (fun v => count_orders (fun o => bool_decide (status o = v)) l) all_statuses)
  = count_orders (fun _ => true) l.
Proof.
  induction l as [|o l IH]; [reflexivity|].
  unfold all_statuses in *. cbn [map Zsum foldr] in *.
  rewrite !count_cons. destruct (status o); simpl bool_decide; cbv iota; lia.
Qed.

Lemma payment_statuses_partition l :
  Zsum (map (fun v => count_orders (fun o => bool_decide (paymentStatus o = v)) l)
            all_payment_statuses)
  = count_orders (fun _ => true) l.
Proof.
  induction l as [|o l IH]; [reflexivity|].
  unfold all_payment_statuses in *. cbn [map Zsum foldr] in *.
  rewrite !count_cons. destruct (paymentStatus o); simpl bool_decide; cbv iota; lia.
Qed.

Lemma distribution_sum {A : Type} `{EqDecision A} (values : list A)
    (path : Order -> A) s :
  Zsum (map snd (distribution values path s))
  = Zsum (map (fun v => count_orders (fun o => bool_decide (path o = v)) (documents s)) values).
Proof.
  unfold distribution. rewrite Zsum_positive_entries.
  - rewrite map_map. reflexivity.
  - rewrite map_is_fmap. apply Forall_fmap. apply Forall_true. intros v. simpl.
    apply count_nonneg.
Qed.

Lemma summary_size now period s :
  totalOrders (summary now period s) = Z.of_nat (size (orders s)).
Proof.
  simpl. unfold countDocuments, documents. f_equal.
  assert (Hall : forall l : list Order, List.filter (fun _ => true) l = l).
  { induction l as [|o l IH]; [reflexivity|]. simpl. rewrite IH. reflexivity. }
  rewrite Hall, length_map. apply length_map_to_list.
Qed.

End SummaryFacts.

(** X18. In the summary, the counts of the status distribution add up to
    the number of orders, and so do those of the payment distribution;
    every entry of a distribution counts at least one order; and the
    recent orders are no more than all orders. *)
Theorem summary_counts_add_up :
  forall (now : Z) (period : option Z) (s : OrdersRoutes.Store),
    let r := OrdersAdmin.summary now period s in
    Zsum (map snd (OrdersAdmin.statusDistribution r)) = OrdersAdmin.totalOrders r
    /\ Zsum (map snd (OrdersAdmin.paymentDistribution r)) = OrdersAdmin.totalOrders r
    /\ Forall (fun e => 1 <= e.2) (OrdersAdmin.statusDistribution r)
    /\ Forall (fun e => 1 <= e.2) (OrdersAdmin.paymentDistribution r)
    /\ 0 <= OrdersAdmin.recentOrders r <= OrdersAdmin.totalOrders r
    /\ OrdersAdmin.totalOrders r = Z.of_nat (size (OrdersRoutes.orders s)).
Proof.
  intros now period s r. unfold r, OrdersAdmin.summary. simpl.
  assert (Hpos : forall (A : Type) (l : list (A * Z)),
            Forall (fun e => 1 <= e.2) (List.filter (fun e => 0 <? e.2) l)).
  { intros A l. apply Forall_forall. intros e He.
    apply list_elem_of_In, filter_In in He as [_ He]. apply Z.ltb_lt in He. lia. }
  split; [rewrite distribution_sum; apply statuses_partition|].
  split; [rewrite distribution_sum; apply payment_statuses_partition|].
  split; [apply Hpos|]. split; [apply Hpos|].
  split; [split; [apply count_nonneg | apply count_le]|].
  apply (summary_size now period s).
Qed.

Section RevenueFacts.
Import OrdersRoutes OrderModel OrdersAdmin.

Lemma fold_left_totals (l : list Order) (a : Q) :
  fold_left (fun sum o => (sum + totalAmount o)%Q) l a
  = fold_left Qplus (map totalAmount l) a.
Proof.
  revert a. induction l as [|o l IH]; intros a; simpl; [reflexivity|]. apply IH.
Qed.

(** The totals that are added up, for the documents of a list. *)
Lemma terms_perm (l k : list (ObjectId * Order)) :
  l ≡ₚ k ->
  map totalAmount (List.filter not_cancelled (map snd l))
  ≡ₚ map totalAmount (List.filter not_cancelled (map snd k)).
Proof.
  induction 1 as [|x l k _ IH|x y l|l k m _ IH1 _ IH2]; simpl.
  - reflexivity.
  - destruct (not_cancelled x.2); simpl; rewrite IH; reflexivity.
  - destruct (not_cancelled x.2), (not_cancelled y.2); simpl;
      try reflexivity. apply perm_swap.
  - rewrite IH1. exact IH2.
Qed.

(** Replacing one order replaces what it adds to the totals. *)
Lemma terms_after_update s order_id (old new : Order) ps n :
  orders s !! order_id = Some old ->
  exists rest,
    revenue_terms s
    ≡ₚ (if not_cancelled old then [totalAmount old] else []) ++ rest
    /\ revenue_terms {| products := ps;
                        orders := <[order_id := new]> (orders s);
                        fromCartRoutes := n |}
       ≡ₚ (if not_cancelled new then [totalAmount new] else []) ++ rest.
Proof.
  intros Hold.
  exists (map totalAmount
            (List.filter not_cancelled
               (map snd (map_to_list (delete order_id (orders s)))))).
  unfold revenue_terms, documents. cbn [orders]. split.
  - rewrite <- (terms_perm _ _ (map_to_list_delete (orders s) order_id old Hold)).
    simpl. destruct (not_cancelled old); reflexivity.
  - rewrite <- (insert_delete_eq (orders s)).
    rewrite (terms_perm _ _ (map_to_list_insert (delete order_id (orders s)) order_id new
                               (lookup_delete_eq _ _))).
    simpl. destruct (not_cancelled new); reflexivity.
Qed.

End RevenueFacts.

(** X19. The revenue of the summary is the sum, in the order of the
    collection, of the totals of the orders that are not cancelled.
    Cancelling an order that is not yet cancelled, through either route,
    takes its total and nothing else out of these totals and leaves the
    number of orders as it is; moving an order that is not cancelled to
    another status that is not [cancelled] leaves these totals as they
    are. *)
Theorem revenue_follows_cancellations :
  forall (now now' : Z) (period : option Z) (order_id : ObjectId)
         (s : OrdersRoutes.Store) (order : OrderModel.Order),
    OrdersRoutes.orders s !! order_id = Some order ->
    OrderModel.status order <> OrderModel.cancelled ->
    (forall s0,
        OrdersAdmin.totalRevenue (OrdersAdmin.summary now period s0)
        = fold_left Qplus (revenue_terms s0) 0%Q)
    /\ (forall who reason,
          let out := OrdersRoutes.cancelOrder now' who order_id reason s in
          Http.status out.2 = 200 ->
          revenue_terms s ≡ₚ OrderModel.totalAmount order :: revenue_terms out.1
          /\ OrdersAdmin.totalOrders (OrdersAdmin.summary now period out.1)
             = OrdersAdmin.totalOrders (OrdersAdmin.summary now period s))
    /\ (forall req,
          let out := OrdersRoutes.updateOrderStatus now' order_id req s in
          (OrdersRoutes.s_status req = OrderModel.cancelled ->
           revenue_terms s ≡ₚ OrderModel.totalAmount order :: revenue_terms out.1)
          /\ (OrdersRoutes.s_status req <> OrderModel.cancelled ->
              revenue_terms s ≡ₚ revenue_terms out.1)
          /\ OrdersAdmin.totalOrders (OrdersAdmin.summary now period out.1)
             = OrdersAdmin.totalOrders (OrdersAdmin.summary now period s)).
Proof.
  intros now now' period order_id s order Horder Hlive.
  assert (Hold : OrdersAdmin.not_cancelled order = true).
  { unfold OrdersAdmin.not_cancelled.
    rewrite bool_decide_eq_false_2 by exact Hlive. reflexivity. }
  assert (Hsize : forall ps n new,
            OrdersAdmin.totalOrders
              (OrdersAdmin.summary now period
                 {| OrdersRoutes.products := ps;
                    OrdersRoutes.orders := <[order_id := new]> (OrdersRoutes.orders s);
                    OrdersRoutes.fromCartRoutes := n |})
            = OrdersAdmin.totalOrders (OrdersAdmin.summary now period s)).
  { intros ps n new.
    rewrite !summary_size. cbn [OrdersRoutes.orders]. f_equal.
    rewrite <- !size_dom, dom_insert_L.
    f_equal. apply set_eq. intros k. rewrite elem_of_union, elem_of_singleton.
    split; [intros [->|H]; [apply elem_of_dom; eauto | exact H] | auto]. }
  split; [|split].
  - intros s0. cbn [OrdersAdmin.summary OrdersAdmin.totalRevenue].
    unfold OrdersAdmin.sum_totalAmount, revenue_terms. apply fold_left_totals.
  - intros who reason out Hok. unfold out in *. clear out.
    unfold OrdersRoutes.cancelOrder, OrdersRoutes.findOne in *. rewrite Horder in *.
    destruct (OrdersRoutes.matches _ order); [|discriminate].
    rewrite bool_decide_eq_false_2 in * by exact Hlive. cbn [fst snd].
    split; [|apply Hsize].
    match goal with
    | |- context [OrdersRoutes.mkStore ?ps (<[order_id := ?new]> _) ?n] =>
        destruct (terms_after_update s order_id order new ps n Horder)
          as (rest & H1 & H2)
    end.
    rewrite H1, H2, Hold. reflexivity.
  - intros req out. unfold out, OrdersRoutes.updateOrderStatus. rewrite Horder.
    cbn [fst snd].
    match goal with
    | |- context [OrdersRoutes.mkStore ?ps (<[order_id := ?new]> _) ?n] =>
        destruct (terms_after_update s order_id order new ps n Horder)
          as (rest & H1 & H2)
    end.
    split; [|split; [|apply Hsize]].
    + intros Hc. rewrite H1, H2, Hold.
      unfold OrdersAdmin.not_cancelled. cbn [OrderModel.apply_update OrderModel.status default].
      rewrite Hc. reflexivity.
    + intros Hc. rewrite H1, H2, Hold.
      unfold OrdersAdmin.not_cancelled. cbn [OrderModel.apply_update OrderModel.status default].
      rewrite (bool_decide_eq_false_2 _ Hc). reflexivity.
Qed.


(** ** The user routes *)

(** X20. A caller who is not an administrator changes no user but
    themselves by a profile update, and not their own role or activity;
    an update whose id is not the id of the caller as the database prints
    it, so every update aimed at another user, is refused, with 400 or
    403, and changes nothing. *)
Theorem profile_update_is_confined :
  forall (AddressValue : Type) (isMobilePhone : string -> bool)
         (caller : OrdersRoutes.AuthUser) (target : string)
         (req : UsersRoutes.UpdateRequest AddressValue)
         (users : gmap ObjectId (UsersRoutes.User AddressValue)),
    OrdersRoutes.is_admin caller = false ->
    let out := UsersRoutes.updateUser isMobilePhone caller target req users in
    (forall k, k <> OrdersRoutes.id caller -> out.1 !! k = users !! k)
    /\ UsersRoutes.role <$> out.1 !! OrdersRoutes.id caller
       = UsersRoutes.role <$> users !! OrdersRoutes.id caller
    /\ UsersRoutes.isActive <$> out.1 !! OrdersRoutes.id caller
       = UsersRoutes.isActive <$> users !! OrdersRoutes.id caller
    /\ (target <> Oid.toString (OrdersRoutes.id caller) ->
        out.1 = users /\ (Http.status out.2 = 400 \/ Http.status out.2 = 403))
    /\ (forall k, Oid.cast target = Some k -> k <> OrdersRoutes.id caller ->
          out.1 = users /\ (Http.status out.2 = 400 \/ Http.status out.2 = 403)).
Proof.
  intros A isMobilePhone caller target req users Hwho out.
  assert (Hmain :
    (forall k, k <> OrdersRoutes.id caller -> out.1 !! k = users !! k)
    /\ UsersRoutes.role <$> out.1 !! OrdersRoutes.id caller
       = UsersRoutes.role <$> users !! OrdersRoutes.id caller
    /\ UsersRoutes.isActive <$> out.1 !! OrdersRoutes.id caller
       = UsersRoutes.isActive <$> users !! OrdersRoutes.id caller
    /\ (target <> Oid.toString (OrdersRoutes.id caller) ->
        out.1 = users /\ (Http.status out.2 = 400 \/ Http.status out.2 = 403))).
  { unfold out, UsersRoutes.updateUser. rewrite Hwho.
    destruct (negb (UsersRoutes.valid_update isMobilePhone req)).
    { simpl. split; [reflexivity|]. split; [reflexivity|]. split; [reflexivity|].
      intros _. split; [reflexivity | left; reflexivity]. }
    destruct (String.eqb_spec (Oid.toString (OrdersRoutes.id caller)) target) as [<-|Hne].
    - cbn [negb andb].
      destruct (Oid.cast (Oid.toString (OrdersRoutes.id caller))) as [k|] eqn:Hk.
      + apply cast_toString_inv in Hk. subst k.
        destruct (users !! OrdersRoutes.id caller) as [u|] eqn:Hu; simpl.
        * split; [intros k Hne; apply lookup_insert_ne; auto|].
          rewrite lookup_insert_eq. simpl. split; [reflexivity|].
          split; [reflexivity|]. intros Hne. contradiction.
        * rewrite Hu. split; [reflexivity|]. split; [reflexivity|].
          split; [reflexivity|]. intros Hne. contradiction.
      + simpl. split; [reflexivity|]. split; [reflexivity|]. split; [reflexivity|].
        intros Hne. contradiction.
    - simpl. split; [reflexivity|]. split; [reflexivity|]. split; [reflexivity|].
      intros _. split; [reflexivity | right; reflexivity]. }
  destruct Hmain as (H1 & H2 & H3 & H4).
  split; [exact H1|]. split; [exact H2|]. split; [exact H3|]. split; [exact H4|].
  intros k Hk Hne. apply H4. intros ->. apply cast_toString_inv in Hk. contradiction.
Qed.

(** X21. Deactivating an active account succeeds and a second deactivation
    is refused with 400; activating it again gives the user collection
    back as it was. The same holds with the two routes exchanged for an
    account that is not active. *)
Theorem account_switch_round_trip :
  forall (AddressValue : Type) (target : ObjectId)
         (users : gmap ObjectId (UsersRoutes.User AddressValue))
         (u : UsersRoutes.User AddressValue),
    users !! target = Some u ->
    (UsersRoutes.isActive u = true ->
     let off := UsersRoutes.deactivateUser target users in
     Http.status off.2 = 200
     /\ UsersRoutes.isActive <$> off.1 !! target = Some false
     /\ UsersRoutes.deactivateUser target off.1
        = (off.1, Http.failure 400 "User account is already deactivated")
     /\ UsersRoutes.activateUser target users
        = (users, Http.failure 400 "User account is already active")
     /\ (UsersRoutes.activateUser target off.1).1 = users)
    /\ (UsersRoutes.isActive u = false ->
        let on := UsersRoutes.activateUser target users in
        Http.status on.2 = 200
        /\ UsersRoutes.isActive <$> on.1 !! target = Some true
        /\ UsersRoutes.activateUser target on.1
           = (on.1, Http.failure 400 "User account is already active")
        /\ UsersRoutes.deactivateUser target users
           = (users, Http.failure 400 "User account is already deactivated")
        /\ (UsersRoutes.deactivateUser target on.1).1 = users).
Proof.
  intros A target users u Hu.
  assert (Hback : forall b, UsersRoutes.isActive u = b ->
            <[target := UsersRoutes.set_active b (UsersRoutes.set_active (negb b) u)]>
              (<[target := UsersRoutes.set_active (negb b) u]> users) = users).
  { intros b Hb. rewrite insert_insert_eq. apply insert_id. rewrite Hu. f_equal.
    destruct u as [f l p a r act]. simpl in Hb. subst act. reflexivity. }
  split; intros Hact.
  - unfold UsersRoutes.deactivateUser, UsersRoutes.activateUser.
    rewrite Hu, Hact. simpl. rewrite !lookup_insert_eq. simpl.
    repeat split. apply (Hback true Hact).
  - unfold UsersRoutes.deactivateUser, UsersRoutes.activateUser.
    rewrite Hu, Hact. simpl. rewrite !lookup_insert_eq. simpl.
    repeat split. apply (Hback false Hact).
Qed.

(** X22. The guard of [DELETE /:id] compares the id of the caller, as the
    database prints it, with the string of the request. For a string that
    is read as the id of an existing user: when it is that text, the
    request is refused with 400 and changes nothing; when it is any other
    string, the request removes that user and no other, the account of the
    caller as well when its id comes in capitals, and from then on every
    request for that user is answered with 404. *)
Theorem deleteUser_compares_texts :
  forall (AddressValue : Type) (isMobilePhone : string -> bool)
         (caller : OrdersRoutes.AuthUser) (target : string) (k : ObjectId)
         (users : gmap ObjectId (UsersRoutes.User AddressValue))
         (u : UsersRoutes.User AddressValue),
    Oid.cast target = Some k ->
    users !! k = Some u ->
    (target = Oid.toString (OrdersRoutes.id caller) ->
     UsersRoutes.deleteUser caller target users
     = (users, Http.failure 400 "You cannot delete your own account"))
    /\ (target <> Oid.toString (OrdersRoutes.id caller) ->
        let out := UsersRoutes.deleteUser caller target users in
        Http.status out.2 = 200
        /\ out.1 !! k = None
        /\ (forall k', k' <> k -> out.1 !! k' = users !! k')
        /\ UsersRoutes.deleteUser caller target out.1
           = (out.1, Http.failure 404 "User not found")
        /\ UsersRoutes.deactivateUser k out.1
           = (out.1, Http.failure 404 "User not found")
        /\ UsersRoutes.activateUser k out.1
           = (out.1, Http.failure 404 "User not found")
        /\ (forall req,
              UsersRoutes.valid_update isMobilePhone req = true ->
              OrdersRoutes.is_admin caller = true ->
              UsersRoutes.updateUser isMobilePhone caller target req out.1
              = (out.1, Http.failure 404 "User not found"))).
Proof.
  intros A isMobilePhone caller target k users u Hk Hu. split.
  - intros Heq. unfold UsersRoutes.deleteUser. rewrite Hk, Hu.
    rewrite (proj2 (String.eqb_eq _ _)) by (symmetry; exact Heq). reflexivity.
  - intros Hne out. unfold out, UsersRoutes.deleteUser. rewrite Hk, Hu.
    rewrite (proj2 (String.eqb_neq _ _)) by (intros Heq; apply Hne; symmetry; exact Heq).
    cbn [fst snd].
    split; [reflexivity|]. split; [apply lookup_delete_eq|].
    split; [intros k' Hk'; apply lookup_delete_ne; auto|].
    unfold UsersRoutes.deactivateUser, UsersRoutes.activateUser, UsersRoutes.updateUser.
    rewrite ?Hk, !lookup_delete_eq. repeat split.
    intros req Hvalid Hadm. rewrite Hvalid, Hadm. simpl.
    rewrite andb_false_r. reflexivity.
Qed.

(** ** The further properties on the running example *)

Lemma updateItem_sets_or_removes_the_line_witness :
  CartModel.updateItem 300 Example.KALE_ID (Js.Num 1) Example.cart_of_kale
  = CartModel.Err CartModel.ItemNotFound
  /\ exists c',
       CartModel.updateItem 300 Example.kale_id (Js.Str "5") Example.cart_of_kale
       = CartModel.Ok c'
       /\ CartModel.items c' !! 0%nat
          = Some (CartModel.mkCartItem 171%N 5 4 (4 * inject_Z 5)%Q).
Proof.
  split.
  - apply (proj1 (updateItem_sets_or_removes_the_line 300 Example.KALE_ID (Js.Num 1)
                    Example.cart_of_kale)).
    repeat constructor. simpl. discriminate.
  - destruct (proj2 (updateItem_sets_or_removes_the_line 300 Example.kale_id (Js.Str "5")
                       Example.cart_of_kale)
                eq_refl 0%nat Example.kale_line 5 eq_refl eq_refl)
      as (c' & Hc' & _ & Hset).
    + intros j it' _ Hj. lia.
    + reflexivity.
    + exists c'. split; [exact Hc'|]. apply Hset. lia.
Defined.

Lemma removeItem_and_clearCart_succeed_witness :
  (exists c',
     CartModel.removeItem 300 Example.kale_id Example.cart_of_kale = CartModel.Ok c'
     /\ 171%N ∉ map CartModel.product (CartModel.items c'))
  /\ exists c',
       CartModel.removeItem 300 Example.KALE_ID Example.cart_of_kale = CartModel.Ok c'
       /\ CartModel.items c'
          = map CartModel.cartItem_pre_save (CartModel.items Example.cart_of_kale).
Proof.
  split.
  - destruct (proj1 (removeItem_and_clearCart_succeed 300 Example.kale_id
                       Example.cart_of_kale) eq_refl)
      as (c' & Hc' & _ & Hgone & _).
    exists c'. split; [exact Hc'|]. apply Hgone. reflexivity.
  - destruct (proj1 (removeItem_and_clearCart_succeed 300 Example.KALE_ID
                       Example.cart_of_kale) eq_refl)
      as (c' & Hc' & _ & _ & Hkept).
    exists c'. split; [exact Hc'|]. apply Hkept.
    repeat constructor. simpl. discriminate.
Defined.

Lemma cart_keeps_one_line_per_product_witness :
  exists c',
    CartModel.mutate 300 (CartModel.AddItem Example.kale_id (Js.Num 3) 4)
      Example.cart_of_kale
    = CartModel.Ok c'
    /\ NoDup (map CartModel.product (CartModel.items c')).
Proof.
  eexists. split; [reflexivity|].
  eapply (cart_keeps_one_line_per_product 300
            (CartModel.AddItem Example.kale_id (Js.Num 3) 4) Example.cart_of_kale).
  - simpl. apply NoDup_singleton.
  - intros pid q p [= <- _ _]. exists 171%N. reflexivity.
  - reflexivity.
Defined.

Lemma saved_cart_is_within_bounds_witness :
  exists c',
    CartModel.mutate 300 (CartModel.AddItem (Oid.toString 2%N) (Js.Num 4) 1.2)
      Example.cart_of_apples
    = CartModel.Ok c'
    /\ (0 <= CartModel.subtotal c')%Q
    /\ 2 <= CartModel.totalItems c'.
Proof.
  eexists. split; [reflexivity|].
  destruct (saved_cart_is_within_bounds 300
              (CartModel.AddItem (Oid.toString 2%N) (Js.Num 4) 1.2)
              Example.cart_of_apples _ eq_refl) as (_ & Hsub & Hcount).
  split; [exact Hsub | exact Hcount].
Defined.

Lemma slug_is_well_formed_witness :
  list_ascii_of_string (ProductHooks.slugify "Fresh  Apples (1kg)!") !! 6%nat
  <> Some "-"%char.
Proof.
  apply (proj2 (proj2 (proj2 (slug_is_well_formed "Fresh  Apples (1kg)!"))) 5%nat).
  reflexivity.
Defined.

Lemma slug_keeps_letters_and_digits_witness :
  ProductHooks.slugify "?! -- !?" = EmptyString.
Proof.
  apply (proj2 (slug_keeps_letters_and_digits "?! -- !?")).
  simpl. repeat constructor.
Defined.

Lemma compare_price_guard_witness :
  exists d',
    ProductHooks.pre_save true Accounts.plain_apples = Some d'
    /\ ProductHooks.slug d' = "fresh-apples-1kg".
Proof.
  eexists. split; [reflexivity|].
  destruct (proj2 (compare_price_guard true Accounts.plain_apples) _ eq_refl)
    as (_ & _ & _ & Hslug).
  exact Hslug.
Defined.

Lemma stock_add_and_subtract_compose_witness :
  (ProductsRoutes.updateStock 1%N
     (ProductsRoutes.mkStockRequest (Js.Num 15) (Some ProductsRoutes.OpSubtract))
     (ProductsRoutes.updateStock 1%N
        (ProductsRoutes.mkStockRequest (Js.Num 15) (Some ProductsRoutes.OpAdd))
        Example.catalog).1).1
  = Example.catalog.
Proof.
  apply (stock_add_and_subtract_compose 1%N 15 Example.catalog Example.apples).
  - reflexivity.
  - simpl. lia.
  - lia.
  - simpl. lia.
Defined.

Lemma createOrder_succeeds_exactly_when_witness :
  NoDup (map OrdersRoutes.i_product Example.basket)
  /\ Http.status
       (OrdersRoutes.createOrder 100 50%N Example.ada
          (Example.request [Example.item 1%N 3]) Example.shop).2 = 201.
Proof.
  split.
  - apply (proj1 (createOrder_succeeds_exactly_when 100 50%N Example.ada
                    (Example.request Example.basket) Example.shop) eq_refl).
  - apply (proj2 (createOrder_succeeds_exactly_when 100 50%N Example.ada
                    (Example.request [Example.item 1%N 3]) Example.shop)).
    split; [reflexivity|]. split; [simpl; apply NoDup_singleton|].
    split; [|reflexivity]. intros item Hin.
    apply list_elem_of_singleton in Hin. subst item.
    exists 1%N, Example.apples, 3. split; [reflexivity|]. split; [reflexivity|].
    split; [reflexivity|]. split; [reflexivity|]. simpl. lia.
Defined.

Lemma deleted_product_is_gone_witness :
  let s' := with_products Example.shop
              (CatalogRoutes.deleteProduct 171%N Example.catalog).1 in
  OrdersRoutes.createOrder 100 50%N Example.ada
    (Example.request [OrdersRoutes.mkItemRequest Example.KALE_ID (Js.Num 1)]) s'
  = (s', Http.failure 400 "One or more products are not available").
Proof.
  destruct (deleted_product_is_gone 171%N Example.shop Example.kale eq_refl)
    as (_ & _ & _ & _ & Hrefused).
  apply (Hrefused 100 50%N Example.ada
           (Example.request [OrdersRoutes.mkItemRequest Example.KALE_ID (Js.Num 1)])).
  - reflexivity.
  - eexists. split; [left|]. reflexivity.
  - intros item Hin. apply list_elem_of_singleton in Hin. subst item.
    exists 171%N. reflexivity.
Defined.

Lemma requests_keep_the_store_sound_witness :
  store_ok
    (fold_left run
       [CreateOrder 100 50%N Example.ada (Example.request Example.basket);
        UpdateStock 1%N
          (ProductsRoutes.mkStockRequest (Js.Str "9") (Some ProductsRoutes.OpAdd));
        CancelOrder 200 Example.ada 50%N None]
       Example.shop).
Proof.
  apply requests_keep_the_store_sound. split.
  - intros k p. unfold Example.shop, Example.catalog. simpl.
    rewrite !lookup_insert_Some, lookup_empty.
    intros [[_ <-]|[_ [[_ <-]|[_ [[_ <-]|[_ [[_ <-]|[_ H]]]]]]]]; simpl; try lia.
    discriminate.
  - intros k o. simpl. rewrite lookup_empty. discriminate.
Defined.

Lemma status_change_side_effects_witness :
  exists updated,
    OrdersRoutes.orders
      (OrdersRoutes.updateOrderStatus 500 50%N
         (OrdersRoutes.mkStatusRequest OrderModel.delivered None None)
         Example.ordered).1 !! 50%N = Some updated
    /\ OrderModel.paymentStatus updated = OrderModel.paid.
Proof.
  edestruct (status_change_side_effects 500 50%N
               (OrdersRoutes.mkStatusRequest OrderModel.delivered None None)
               Example.ordered)
    as (updated & Hstored & _ & Hdelivered & _).
  - vm_compute. reflexivity.
  - exists updated. split; [exact Hstored|]. apply Hdelivered. reflexivity.
Defined.

Lemma payment_status_is_independent_witness :
  Http.status (OrdersAdmin.updatePaymentStatus 50%N OrderModel.paid
                 Example.was_cancelled).2 = 200.
Proof.
  eapply (proj2 (payment_status_is_independent 50%N OrderModel.paid
                   Example.was_cancelled)).
  vm_compute. reflexivity.
Defined.

Lemma cancelOrder_succeeds_exactly_when_witness :
  Http.status (OrdersRoutes.cancelOrder 600 Example.root 50%N None
                 Example.was_delivered).2 = 200
  /\ (OrdersRoutes.cancelOrder 600 Example.ada 50%N None Example.was_delivered).1
     = Example.was_delivered.
Proof.
  split.
  - apply (proj1 (cancelOrder_succeeds_exactly_when 600 Example.root 50%N None
                    Example.was_delivered)).
    eexists. split; [vm_compute; reflexivity|]. split; [discriminate|].
    left. reflexivity.
  - apply (proj2 (cancelOrder_succeeds_exactly_when 600 Example.ada 50%N None
                    Example.was_delivered)).
    vm_compute. discriminate.
Defined.

Lemma caller_sees_all_visible_orders_witness :
  Http.status (OrdersRoutes.getOrder Example.ada 50%N Example.ordered) = 200
  /\ exists found pagination,
       Http.data (OrdersRoutes.listOrders Example.ben
                    (OrdersRoutes.mkListRequest None (Some 0) None None None None None None)
                    Example.ordered)
       = Some (OrdersRoutes.OrdersData found pagination)
       /\ OrdersRoutes.totalItems pagination = Z.of_nat (length found).
Proof.
  split.
  - apply (proj1 (caller_sees_all_visible_orders Example.ada Example.ordered) 50%N).
    eexists. split; [vm_compute; reflexivity|]. right. reflexivity.
  - destruct (proj2 (caller_sees_all_visible_orders Example.ben Example.ordered)
                (OrdersRoutes.mkListRequest None (Some 0) None None None None None None)
                eq_refl)
      as (found & pagination & Hdata & _ & Htotal & _).
    exists found, pagination. split; [exact Hdata | exact Htotal].
Defined.

Lemma order_routes_only_touch_stock_witness :
  OrdersRoutes.products
    (run Example.shop
       (CreateOrder 100 50%N Example.ada (Example.request Example.basket))) !! 4%N
  = None.
Proof.
  apply (proj1 (order_routes_only_touch_stock
                  (CreateOrder 100 50%N Example.ada (Example.request Example.basket))
                  Example.shop
                  ltac:(intros; discriminate) ltac:(intros; discriminate) 4%N)).
  reflexivity.
Defined.

Lemma revenue_follows_cancellations_witness :
  exists order,
    OrdersRoutes.orders Example.ordered !! 50%N = Some order
    /\ revenue_terms Example.ordered
       ≡ₚ OrderModel.totalAmount order
          :: revenue_terms
               (OrdersRoutes.cancelOrder 200 Example.ada 50%N None Example.ordered).1.
Proof.
  eexists. split; [vm_compute; reflexivity|].
  edestruct (revenue_follows_cancellations 900 200 None 50%N Example.ordered)
    as (_ & Hcancel & _).
  - vm_compute. reflexivity.
  - simpl. discriminate.
  - apply (Hcancel Example.ada None). reflexivity.
Defined.

Lemma profile_update_is_confined_witness :
  (UsersRoutes.updateUser Accounts.any_phone Example.ben (Oid.toString 7%N)
     Accounts.promote Accounts.users).1 = Accounts.users
  /\ UsersRoutes.role
       <$> (UsersRoutes.updateUser Accounts.any_phone Example.ben (Oid.toString 8%N)
              Accounts.promote Accounts.users).1 !! 8%N
     = Some OrdersRoutes.user_role.
Proof.
  split.
  - apply (proj1 (proj2 (proj2 (proj2
             (profile_update_is_confined unit Accounts.any_phone Example.ben
                (Oid.toString 7%N) Accounts.promote Accounts.users eq_refl))))).
    vm_compute. discriminate.
  - destruct (profile_update_is_confined unit Accounts.any_phone Example.ben
                (Oid.toString 8%N) Accounts.promote Accounts.users eq_refl)
      as (_ & Hrole & _).
    exact Hrole.
Defined.

Lemma account_switch_round_trip_witness :
  (UsersRoutes.activateUser 8%N (UsersRoutes.deactivateUser 8%N Accounts.users).1).1
  = Accounts.users.
Proof.
  apply (proj1 (account_switch_round_trip unit 8%N Accounts.users
                  (Accounts.account "Ben" "Eze" OrdersRoutes.user_role) eq_refl)).
  reflexivity.
Defined.

Lemma deleteUser_compares_texts_witness :
  UsersRoutes.deleteUser Accounts.chi Accounts.chi_id Accounts.users
  = (Accounts.users, Http.failure 400 "You cannot delete your own account")
  /\ Http.status
       (UsersRoutes.deleteUser Accounts.chi Accounts.CHI_ID Accounts.users).2 = 200
  /\ (UsersRoutes.deleteUser Accounts.chi Accounts.CHI_ID Accounts.users).1 !! 173%N
     = None.
Proof.
  split.
  - apply (proj1 (deleteUser_compares_texts unit Accounts.any_phone Accounts.chi
                    Accounts.chi_id 173%N Accounts.users
                    (Accounts.account "Chi" "Ude" OrdersRoutes.admin)
                    eq_refl eq_refl)).
    reflexivity.
  - destruct (proj2 (deleteUser_compares_texts unit Accounts.any_phone Accounts.chi
                       Accounts.CHI_ID 173%N Accounts.users
                       (Accounts.account "Chi" "Ude" OrdersRoutes.admin)
                       eq_refl eq_refl))
      as (Hok & Hgone & _).
    + vm_compute. discriminate.
    + split; [exact Hok | exact Hgone].
Defined.
